(** * The listing scraper of harvestapi-sdk

    A shallow embedding of [packages/scraper/src/base/listing.scraper.ts]
    (class [ListingScraper]) and of the four LinkedIn entry points of
    [packages/scraper/src/linkedin/scraper.ts].

    JavaScript runs the engine on one thread: an [async] function executes
    without interruption from one [await] to the next.  Each page task is
    therefore a small machine whose states are the [await]s of [scrapePage],
    [fetchPage] and [scrapePageItems]; one transition runs the code between
    two [await]s against the shared fields of the scraper instance.  A run
    is an interleaving of such transitions, chosen by a schedule. *)

From stdpp Require Import base list strings gmap pretty.
From Stdlib Require Import Lia.

Local Open Scope string_scope.
Local Open Scope list_scope.

(** ** Values exchanged with the API *)

(** A short or a detail item as it exists at run time: an object with an
    [id] and further properties.  The engine casts a short item to a detail
    item when details are not scraped ([element: item as any]). *)
Record Item := mkItem {
  item_id : string;
  item_fields : list (string * string);
}.

(** [ApiListResponse]: the properties the engine reads, each optional as the
    code reads them with [?.]. *)
Record ApiListResponse := mkList {
  list_id : option string;
  list_status : option nat;
  list_error : option string;
  list_query : option string;
  list_elements : option (list Item);
  pagination_totalPages : option nat;
  user_requestsConcurrency : option nat;
}.

(** [Partial<ApiItemResponse> & { skipped?: boolean }]. *)
Record ApiItemResponse := mkResp {
  resp_id : option string;
  resp_element : option Item;
  resp_status : option nat;
  resp_error : option string;
  resp_query : option string;
  resp_skipped : bool;
}.

(** How a promise of a collaborator settles: it resolves, possibly to
    [null], or it rejects. *)
Inductive Settled (A : Type) :=
| Resolved (value : option A)
| Rejected (reason : string).
Arguments Resolved {A} value.
Arguments Rejected {A} reason.

(** [options.outputType]: ['json'], ['sqlite'], or another truthy value,
    which the constructor keeps and which selects neither store. *)
Inductive OutputType := Json | Sqlite | OtherOutput.

(** What [createSqliteDatabase] meets: success, an exception before its first
    [await] ([require] fails), or a rejection of one of the awaited calls;
    [handle] tells whether [open] had already given a database by then. *)
Inductive OpenOutcome :=
| OpenOk
| OpenThrows (reason : string)
| OpenRejects (reason : string) (handle : bool).

(** The SQLite side of the environment; [db_insert item] is [Some reason]
    when the statements of [insertSqliteItem] fail for that item. *)
Record SqliteEnv := mkSqlite {
  db_open : OpenOutcome;
  db_insert : Item -> option string;
}.

(** [open] gives a database: [this.db] gets assigned at line 219. *)
Definition opens (sqlite : SqliteEnv) : bool :=
  match db_open sqlite with
  | OpenOk => true
  | OpenRejects _ handle => handle
  | OpenThrows _ => false
  end.

(** [ListingScraperOptions], with the two collaborators as oracles. *)
Record ListingScraperOptions := mkOptions {
  fetchList : nat -> Settled ApiListResponse;
  fetchItem : Item -> option (Settled ApiItemResponse);
  scrapeDetails : bool;
  entityName : string;
  outputType : option OutputType;
  outputDir : option string;
  filename : option string;
  tableName : option string;
  maxPages : option nat;
  skipItemRequestsStats : bool;
}.

(** ** The fields of a scraper instance *)

Record Stats := mkStats {
  pages : nat;
  pagesSuccess : nat;
  items : nat;
  itemsSuccess : nat;
  requests : nat;
}.

(** [this.error]: one error, or the array built by [createSqliteDatabase]. *)
Inductive ErrorSlot :=
| ErrorValue (e : string)
| ErrorArray (es : list string).

Inductive LogLine :=
| InfoScraping (concurrency totalPages : nat)
| InfoScrapedPage (page found : nat)
| InfoFinished (nPages nItems nRequests : nat)
| ErrorFetchingPage (page : nat) (reason : string)
| ErrorScrapingItem (reason : string)
| ErrorInserting (reason : string)
| ErrorOfRun (e : ErrorSlot)
| ErrorFirstPage.

(** What a run does to the outside world, in the order it does it: the
    calls it makes and the lines it logs.  [OutputJson] is the call of
    [fs.outputJson], whose promise [finalize] drops (line 263): the event says
    that the write was requested, not that the file exists. *)
Inductive Event :=
| CallFetchList (page : nat)
| CallFetchItem (item : Item)
| Console (line : LogLine)
| SqlInsert (item : Item)
| OutputJson (s : Stats) (written : list Item)
| DbClose.

(** [this.sqliteDatabaseOpenPromise]: [null], or the promise of
    [createSqliteDatabase], which is pending while that function awaits
    [open] ([Pending]) and then [CREATE TABLE] ([Creating]), and fulfilled
    when it has returned. *)
Inductive PromiseState := NotCreated | Pending | Creating | Fulfilled.

Record Scraper := mkScraper {
  stats : Stats;
  done : bool;
  error : option ErrorSlot;
  inMemoryItems : list Item;
  db : bool;                                (* [this.db] is not null *)
  sqliteDatabaseOpenPromise : PromiseState;
  trace : list Event;                       (* newest first *)
  history : list Stats;                     (* every value [stats] has had, newest first *)
}.

Definition stats0 : Stats := mkStats 0 0 0 0 0.

Definition newScraper : Scraper :=
  mkScraper stats0 false None [] false NotCreated [] [stats0].

(** The constructor: a falsy [outputType] becomes ['sqlite'].  The run id, the
    start time, the table name and the file path it also computes only name
    the output, and are left out, as is [stats.requestsStartTime]. *)
Definition constructor (o : ListingScraperOptions) : ListingScraperOptions :=
  match outputType o with
  | Some _ => o
  | None =>
      mkOptions (fetchList o) (fetchItem o) (scrapeDetails o) (entityName o)
        (Some Sqlite) (outputDir o) (filename o) (tableName o) (maxPages o)
        (skipItemRequestsStats o)
  end.

(** ** JavaScript truthiness *)

Definition truthyString (s : option string) : bool :=
  match s with
  | Some s => negb (String.eqb s EmptyString)
  | None => false
  end.

Definition truthyNumber (n : option nat) : bool :=
  match n with
  | Some (S _) => true
  | _ => false
  end.

(** [n || d] on numbers. *)
Definition numberOr (n : option nat) (d : nat) : nat :=
  match n with
  | Some (S k) => S k
  | _ => d
  end.

Definition quotaMessage : string := "Request limit exceeded - upgrade your plan".

(** [e || 'Request limit exceeded - upgrade your plan']. *)
Definition errorOrQuota (e : option string) : ErrorSlot :=
  if truthyString e then ErrorValue (default EmptyString e) else ErrorValue quotaMessage.

Definition truthyError (e : option ErrorSlot) : bool :=
  match e with
  | Some (ErrorValue s) => negb (String.eqb s EmptyString)
  | Some (ErrorArray _) => true
  | None => false
  end.

Definition is402 (status : option nat) : bool :=
  match status with
  | Some n => Nat.eqb n 402
  | None => false
  end.

(** [outputType === 'json'] and [outputType === 'sqlite']. *)
Definition isJson (o : option OutputType) : bool :=
  match o with
  | Some Json => true
  | _ => false
  end.

Definition isSqlite (o : option OutputType) : bool :=
  match o with
  | Some Sqlite => true
  | _ => false
  end.

Definition isPending (p : PromiseState) : bool :=
  match p with
  | Pending | Creating => true
  | _ => false
  end.

(** ** A state monad over the instance *)

Definition M (A : Type) : Type := Scraper -> A * Scraper.

Definition ret {A} (a : A) : M A := fun s => (a, s).

Definition bind {A B} (m : M A) (k : A -> M B) : M B :=
  fun s => let (a, s') := m s in k a s'.

Notation "'do' x <- m ; k" := (bind m (fun x => k))
  (at level 10, x name, m at level 100, k at level 200).
Notation "m ;; k" := (bind m (fun _ => k))
  (at level 100, k at level 200, right associativity).

Definition when (b : bool) (m : M unit) : M unit :=
  if b then m else ret tt.

Definition getDone : M bool := fun s => (done s, s).
Definition getError : M (option ErrorSlot) := fun s => (error s, s).
Definition getStats : M Stats := fun s => (stats s, s).

Definition setStats (f : Stats -> Stats) : M unit := fun s =>
  (tt, mkScraper (f (stats s)) (done s) (error s) (inMemoryItems s) (db s)
         (sqliteDatabaseOpenPromise s) (trace s) (f (stats s) :: history s)).

Definition setDone : M unit := fun s =>
  (tt, mkScraper (stats s) true (error s) (inMemoryItems s) (db s)
         (sqliteDatabaseOpenPromise s) (trace s) (history s)).

Definition setError (e : ErrorSlot) : M unit := fun s =>
  (tt, mkScraper (stats s) (done s) (Some e) (inMemoryItems s) (db s)
         (sqliteDatabaseOpenPromise s) (trace s) (history s)).

Definition pushInMemory (x : Item) : M unit := fun s =>
  (tt, mkScraper (stats s) (done s) (error s) (inMemoryItems s ++ [x]) (db s)
         (sqliteDatabaseOpenPromise s) (trace s) (history s)).

Definition setDb (b : bool) : M unit := fun s =>
  (tt, mkScraper (stats s) (done s) (error s) (inMemoryItems s) b
         (sqliteDatabaseOpenPromise s) (trace s) (history s)).

Definition setOpenPromise (p : PromiseState) : M unit := fun s =>
  (tt, mkScraper (stats s) (done s) (error s) (inMemoryItems s) (db s)
         p (trace s) (history s)).

Definition emit (e : Event) : M unit := fun s =>
  (tt, mkScraper (stats s) (done s) (error s) (inMemoryItems s) (db s)
         (sqliteDatabaseOpenPromise s) (e :: trace s) (history s)).

(** The assignments to the counters. *)
Definition incPages (t : Stats) : Stats :=
  mkStats (S (pages t)) (pagesSuccess t) (items t) (itemsSuccess t) (requests t).
Definition incPagesSuccess (t : Stats) : Stats :=
  mkStats (pages t) (S (pagesSuccess t)) (items t) (itemsSuccess t) (requests t).
Definition incItems (t : Stats) : Stats :=
  mkStats (pages t) (pagesSuccess t) (S (items t)) (itemsSuccess t) (requests t).
Definition incItemsSuccess (t : Stats) : Stats :=
  mkStats (pages t) (pagesSuccess t) (items t) (S (itemsSuccess t)) (requests t).
Definition incRequests (t : Stats) : Stats :=
  mkStats (pages t) (pagesSuccess t) (items t) (itemsSuccess t) (S (requests t)).
Definition pagesOne (t : Stats) : Stats :=
  mkStats 1 (pagesSuccess t) (items t) (itemsSuccess t) (requests t).
Definition pagesSuccessOne (t : Stats) : Stats :=
  mkStats (pages t) 1 (items t) (itemsSuccess t) (requests t).

(** ** Page tasks

    A page task is one call of [scrapePage].  Its states are the places where
    the call is suspended. *)
Inductive PageTask :=
| Queued (page : nat) (scrapedList : option ApiListResponse)
    (* submitted to [scrapePageQueue], not yet invoked *)
| AwaitFetchList (page : nat)
    (* [fetchPage]: [await this.options.fetchList({ page })] *)
| AwaitFetchPage (page : nat) (lst : option ApiListResponse)
    (* [scrapePage]: [await this.fetchPage({ page })], the value is ready *)
| AwaitFetchItem (page : nat) (lst : ApiListResponse) (details : list Item)
    (item : Item) (rest : list Item)
    (* [scrapePageItems]: [await this.options.fetchItem({ item })] *)
| AwaitOnItemScraped (page : nat) (lst : ApiListResponse) (details : list Item)
    (element : Item) (rest : list Item) (written : bool)
    (* [scrapePageItems]: [await this.onItemScraped(...)]; [written] once the
       write queue has run the write *)
| AwaitScrapePageItems (page : nat) (details : list Item)
    (* [scrapePage]: [await this.scrapePageItems({ list })], the value is ready *)
| Finished.

Definition inFlight (t : PageTask) : bool :=
  match t with
  | Queued _ _ | Finished => false
  | _ => true
  end.

Definition isFinished (t : PageTask) : bool :=
  match t with
  | Finished => true
  | _ => false
  end.

Fixpoint running (ts : list PageTask) : nat :=
  match ts with
  | [] => 0
  | t :: ts => (if inFlight t then 1 else 0) + running ts
  end.

(** Modelled from the spec: [createConcurrentQueues] of [../utils] is not
    among the sources.  Its contract (section 4.2): the submission function
    keeps a submitted task waiting while [N] invocations of the task function
    are in flight, and the awaitable of a submission resolves when that
    task's execution completes.  A waiting task may be invoked when fewer
    than [workers] tasks are in flight; which waiting task goes first is left
    to the schedule, submission order being one choice. *)
Definition hasFreeWorker (workers : nat) (ts : list PageTask) : bool :=
  (running ts <? workers)%nat.

(** ** The engine *)

Section ListingScraper.

Variable options : ListingScraperOptions.
Variable sqlite : SqliteEnv.

(** *** [fetchPage] *)

(** Up to the [await]: the collaborator is called. *)
Definition fetchPage_call (page : nat) : M unit :=
  emit (CallFetchList page).

(** After the [await]: the [catch] handler, the 402 test, the counters. *)
Definition fetchPage_settled (page : nat) (outcome : Settled ApiListResponse)
  : M (option ApiListResponse) :=
  do result <- match outcome with
               | Resolved value => ret value
               | Rejected reason =>
                   emit (Console (ErrorFetchingPage page reason)) ;; ret None
               end;
  if is402 (result ≫= list_status) then
    setDone ;;
    setError (errorOrQuota (result ≫= list_error)) ;;
    ret None
  else
    setStats incPages ;;
    setStats incRequests ;;
    when (truthyString (result ≫= list_id)) (setStats incPagesSuccess) ;;
    ret result.

(** The whole call, when nothing else can run in between. *)
Definition fetchPage (page : nat) : M (option ApiListResponse) :=
  fetchPage_call page ;;
  fetchPage_settled page (fetchList options page).

(** *** The output store *)

Definition sqliteError (reason : string) : ErrorSlot :=
  ErrorArray ["Error creating SQLite database:"; reason].

(** [createSqliteDatabase] up to its first [await]; a failing [require] is
    caught before it. *)
Definition createSqliteDatabase_call : M unit :=
  match db_open sqlite with
  | OpenThrows reason =>
      setError (sqliteError reason) ;; setDone ;; setOpenPromise Fulfilled
  | _ => setOpenPromise Pending
  end.

(** Line 219, when [await open(...)] has resolved: [this.db] is assigned, and
    [CREATE TABLE] is sent and awaited, the promise of the opening still
    pending. *)
Definition createSqliteDatabase_opened : M unit :=
  setDb true ;; setOpenPromise Creating.

(** The end of [createSqliteDatabase]: the last awaited call has resolved,
    or one of them has rejected and the [catch] of lines 227-230 runs. *)
Definition createSqliteDatabase_settled : M unit :=
  match db_open sqlite with
  | OpenOk => setOpenPromise Fulfilled
  | OpenRejects reason _ =>
      setError (sqliteError reason) ;; setDone ;; setOpenPromise Fulfilled
  | OpenThrows _ => setOpenPromise Fulfilled
  end.

(** The opening resumed at the [await] it is suspended on: the one of
    [open], which gives a database or rejects (as [ensureDir] before it
    may), or the one of [CREATE TABLE]. *)
Definition createSqliteDatabase_resume : M unit := fun s =>
  match sqliteDatabaseOpenPromise s with
  | Pending =>
      if opens sqlite then createSqliteDatabase_opened s
      else createSqliteDatabase_settled s
  | _ => createSqliteDatabase_settled s
  end.

(** [insertSqliteItem], after [await this.sqliteDatabaseOpenPromise]: the
    reason of its rejection, if it rejects.  [this.db!] is [null] when the
    database was never opened. *)
Definition insertSqliteItem (item : Item) : M (option string) := fun s =>
  if db s then
    match db_insert sqlite item with
    | Some reason => (Some reason, s)
    | None => (None, snd (emit (SqlInsert item) s))
    end
  else (Some "TypeError: Cannot read properties of null", s).

(** The task of the write queue [onItemScraped]. *)
Definition onItemScraped (item : Item) : M unit :=
  when (isJson (outputType options)) (pushInMemory item) ;;
  when (isSqlite (outputType options))
    (do failure <- insertSqliteItem item;
     match failure with
     | Some reason => emit (Console (ErrorInserting reason))
     | None => ret tt
     end).

(** The write can run: [insertSqliteItem] first awaits the opening of the
    database. *)
Definition writeReady (s : Scraper) : bool :=
  negb (isSqlite (outputType options)
        && isPending (sqliteDatabaseOpenPromise s)).

Definition finalize : M unit :=
  when (isJson (outputType options))
    (fun s => emit (OutputJson (stats s) (inMemoryItems s)) s) ;;
  (fun s => when (db s) (emit DbClose) s).

(** [if (this.error) console.error(...errors)]. *)
Definition reportError : M unit :=
  do e <- getError;
  match e with
  | Some err => when (truthyError e) (emit (Console (ErrorOfRun err)))
  | None => ret tt
  end.

(** *** [scrapePageItems] *)

(** The response made up for an item when details are not scraped. *)
Definition shortAsDetails (lst : ApiListResponse) (item : Item) : ApiItemResponse :=
  mkResp (Some (item_id item)) (Some item) (list_status lst) (list_error lst)
    (list_query lst) false.

Definition skipped (itemDetails : option ApiItemResponse) : bool :=
  match itemDetails with
  | Some r => resp_skipped r
  | None => false
  end.

(** [itemDetails?.element && itemDetails.id]: the element to store, if any. *)
Definition resolvedElement (itemDetails : option ApiItemResponse) : option Item :=
  match itemDetails with
  | Some r =>
      match resp_element r with
      | Some element => if truthyString (resp_id r) then Some element else None
      | None => None
      end
  | None => None
  end.

(** Lines 185-193 of the loop body: the counters; the result is the element
    handed to [onItemScraped], if the item succeeded. *)
Definition countItem (itemDetails : option ApiItemResponse) : M (option Item) :=
  setStats incItems ;;
  when (scrapeDetails options && negb (skipped itemDetails)) (setStats incRequests) ;;
  match resolvedElement itemDetails with
  | Some element => setStats incItemsSuccess ;; ret (Some element)
  | None => ret None
  end.

(** One turn of the loop from the counters on: the task is suspended on the
    write of the element, or the loop goes on with [continue]. *)
Definition scrapePageItems_item (continue : M PageTask) (page : nat)
    (lst : ApiListResponse) (details : list Item) (rest : list Item)
    (itemDetails : option ApiItemResponse) : M PageTask :=
  do stored <- countItem itemDetails;
  match stored with
  | Some element => ret (AwaitOnItemScraped page lst details element rest false)
  | None => continue
  end.

(** The loop [for (const item of list.elements)] from its header, up to the
    next [await] or to [return details]. *)
Fixpoint scrapePageItems_from (page : nat) (lst : ApiListResponse)
    (details : list Item) (remaining : list Item) : M PageTask :=
  match remaining with
  | [] => ret (AwaitScrapePageItems page details)
  | item :: rest =>
      if scrapeDetails options then
        emit (CallFetchItem item) ;;
        ret (AwaitFetchItem page lst details item rest)
      else
        scrapePageItems_item (scrapePageItems_from page lst details rest)
          page lst details rest (Some (shortAsDetails lst item))
  end.

(** After [await this.options.fetchItem({ item })?.catch(...)]. *)
Definition scrapePageItems_fetched (page : nat) (lst : ApiListResponse)
    (details : list Item) (rest : list Item)
    (outcome : option (Settled ApiItemResponse)) : M PageTask :=
  do itemDetails <- match outcome with
                    | None => ret None
                    | Some (Resolved value) => ret value
                    | Some (Rejected reason) =>
                        emit (Console (ErrorScrapingItem reason)) ;; ret None
                    end;
  if is402 (itemDetails ≫= resp_status) then
    setDone ;;
    setError (errorOrQuota (itemDetails ≫= resp_error)) ;;
    ret (AwaitScrapePageItems page details)
  else
    scrapePageItems_item (scrapePageItems_from page lst details rest)
      page lst details rest itemDetails.

(** After [await this.onItemScraped(...)]: [details.push], next turn. *)
Definition scrapePageItems_stored (page : nat) (lst : ApiListResponse)
    (details : list Item) (element : Item) (rest : list Item) : M PageTask :=
  scrapePageItems_from page lst (details ++ [element]) rest.

(** *** [scrapePage] *)

(** From line 121: the last test of the flag and the progress line. *)
Definition scrapePage_end (page : nat) (details : list Item) : M PageTask :=
  do d <- getDone;
  if d then ret Finished
  else emit (Console (InfoScrapedPage page (length details))) ;; ret Finished.

(** From line 114, with the list at hand. *)
Definition scrapePage_withList (page : nat) (lst : option ApiListResponse)
  : M PageTask :=
  do d <- getDone;
  if d then ret Finished
  else
    match lst with
    | Some l =>
        match list_elements l with
        | Some elements => scrapePageItems_from page l [] elements
        | None => scrapePage_end page []
        end
    | None => scrapePage_end page []
    end.

(** From line 112. *)
Definition scrapePage_start (page : nat) (scrapedList : option ApiListResponse)
  : M PageTask :=
  do d <- getDone;
  if d then ret Finished
  else
    match scrapedList with
    | Some l => scrapePage_withList page (Some l)
    | None => fetchPage_call page ;; ret (AwaitFetchList page)
    end.

(** The code a suspended task runs when it is resumed. *)
Definition resume (t : PageTask) : option (M PageTask) :=
  match t with
  | Queued page scrapedList => Some (scrapePage_start page scrapedList)
  | AwaitFetchList page =>
      Some (do result <- fetchPage_settled page (fetchList options page);
            ret (AwaitFetchPage page result))
  | AwaitFetchPage page lst => Some (scrapePage_withList page lst)
  | AwaitFetchItem page lst details item rest =>
      Some (scrapePageItems_fetched page lst details rest (fetchItem options item))
  | AwaitOnItemScraped page lst details element rest true =>
      Some (scrapePageItems_stored page lst details element rest)
  | AwaitOnItemScraped _ _ _ _ _ false => None
  | AwaitScrapePageItems page details => Some (scrapePage_end page details)
  | Finished => None
  end.

(** *** Runs *)

(** The instance together with the page queue: the number of workers it was
    created with and the submitted tasks, in the order of submission. *)
Record Conf := mkConf {
  scraper : Scraper;
  workers : nat;
  tasks : list PageTask;
}.

(** What the event loop can do next: run the page task [i] up to its next
    [await], let the write queue run the write page task [i] waits for, or
    resume the opening of the database at the [await] it is suspended on:
    the first time [this.db] is assigned, the second time the opening
    settles; an opening that is to fail before [open] gives a database
    settles at once. *)
Inductive Label :=
| RunTask (i : nat)
| RunWrite (i : nat)
| SettleOpen.

Definition step (l : Label) (c : Conf) : option Conf :=
  match l with
  | RunTask i =>
      match tasks c !! i with
      | Some t =>
          if inFlight t || hasFreeWorker (workers c) (tasks c) then
            match resume t with
            | Some m =>
                let (t', s') := m (scraper c) in
                Some (mkConf s' (workers c) (<[i := t']> (tasks c)))
            | None => None
            end
          else None
      | None => None
      end
  | RunWrite i =>
      match tasks c !! i with
      | Some (AwaitOnItemScraped page lst details element rest false) =>
          if writeReady (scraper c) then
            let (_, s') := onItemScraped element (scraper c) in
            Some (mkConf s' (workers c)
                    (<[i := AwaitOnItemScraped page lst details element rest true]>
                       (tasks c)))
          else None
      | _ => None
      end
  | SettleOpen =>
      if isPending (sqliteDatabaseOpenPromise (scraper c)) then
        let (_, s') := createSqliteDatabase_resume (scraper c) in
        Some (mkConf s' (workers c) (tasks c))
      else None
  end.

(** A schedule is a list of labels; a label that cannot be taken is passed
    over. *)
Fixpoint exec (schedule : list Label) (c : Conf) : Conf :=
  match schedule with
  | [] => c
  | l :: schedule => exec schedule (default c (step l c))
  end.

Definition allFinished (ts : list PageTask) : bool := forallb isFinished ts.

(** *** [scrapeStart] *)

(** Lines 51-54. *)
Definition totalPagesOf (firstPage : option ApiListResponse) : nat :=
  let totalPages := numberOr (firstPage ≫= pagination_totalPages) 0 in
  if truthyNumber (maxPages options)
     && (default 0 (maxPages options) <? totalPages)%nat
  then default 0 (maxPages options)
  else totalPages.

(** Line 56. *)
Definition concurrencyOf (firstPage : option ApiListResponse) : nat :=
  numberOr (firstPage ≫= user_requestsConcurrency) 1.

(** Lines 83-88: one submission per page, page 1 with the list already
    fetched. *)
Definition pageTasks (firstPage : option ApiListResponse) (totalPages : nat)
  : list PageTask :=
  map (fun page => Queued page (if (page =? 1)%nat then firstPage else None))
      (seq 1 totalPages).

Inductive Started :=
| Exited                                          (* line 71: [return;] *)
| Scheduled (concurrency : nat) (submitted : list PageTask).

(** Lines 49-88. *)
Definition scrapeStart_begin : M Started :=
  do firstPage <- fetchPage 1;
  let totalPages := totalPagesOf firstPage in
  let concurrency := concurrencyOf firstPage in
  emit (Console (InfoScraping concurrency totalPages)) ;;
  if negb (bool_decide (is_Some firstPage)) || (totalPages =? 0)%nat then
    setDone ;;
    reportError ;;
    emit (Console ErrorFirstPage) ;;
    ret Exited
  else
    setStats pagesOne ;;
    setStats pagesSuccessOne ;;
    when (isSqlite (outputType options)) createSqliteDatabase_call ;;
    ret (Scheduled concurrency (pageTasks firstPage totalPages)).

(** Lines 91-102, after [await Promise.all(promises)]. *)
Definition scrapeStart_end : M Stats :=
  finalize ;;
  (fun s => emit (Console (InfoFinished (pages (stats s)) (itemsSuccess (stats s))
                             (requests (stats s)))) s) ;;
  reportError ;;
  getStats.

(** What the caller of [scrapeStart] has after a schedule: the value the
    promise resolved to ([None] is [undefined]) and the instance, or a
    promise still pending on its page tasks. *)
Inductive Outcome :=
| Returned (value : option Stats) (s : Scraper)
| Awaiting (c : Conf).

Definition scrapeStart (schedule : list Label) : Outcome :=
  match scrapeStart_begin newScraper with
  | (Exited, s) => Returned None s
  | (Scheduled concurrency submitted, s) =>
      let c := exec schedule (mkConf s concurrency submitted) in
      if allFinished (tasks c) then
        let (value, s') := scrapeStart_end (scraper c) in
        Returned (Some value) s'
      else Awaiting c
  end.

End ListingScraper.

(** ** The LinkedIn entry points *)

(** The parameters of an API call, [{ ...query, page }] or [{ jobId }]. *)
Definition Query : Type := list (string * string).

(** The values an options object holds. *)
Inductive Value :=
| VUndefined
| VBool (b : bool)
| VNumber (n : nat)
| VString (s : string)
| VQuery (q : Query)
| VFetchList (f : nat -> Settled ApiListResponse)
| VFetchItem (f : Item -> option (Settled ApiItemResponse)).

(** [BaseScraper.fetchApi({ path, params })], an oracle: [../base] is outside
    the engine. *)
Record BaseScraper := mkBase {
  fetchApiList : string -> Query -> Settled ApiListResponse;
  fetchApiItem : string -> Query -> Settled ApiItemResponse;
}.

Definition truthy (v : option Value) : bool :=
  match v with
  | Some (VBool b) => b
  | Some (VNumber n) => truthyNumber (Some n)
  | Some (VString s) => truthyString (Some s)
  | Some (VQuery _) | Some (VFetchList _) | Some (VFetchItem _) => true
  | Some VUndefined | None => false
  end.

(** [{ ...target, ...source }]: the properties of [source] win. *)
Definition spread (target source : gmap string Value) : gmap string Value :=
  source ∪ target.

(** The options as the engine reads them from the object it is given.  The
    two collaborators are read as what [ListingScraperOptions] types them,
    functions: the entry points set both, and a caller's own replace them.
    An object holding another value there is outside the model (the call
    would throw a [TypeError] that nothing in the engine catches); the oracle
    standing in its place is not what the code does with it. *)
Definition readOptions (o : gmap string Value) : ListingScraperOptions :=
  mkOptions
    (match o !! "fetchList" with
     | Some (VFetchList f) => f
     | _ => fun _ => Rejected "TypeError: fetchList is not a function"
     end)
    (match o !! "fetchItem" with
     | Some (VFetchItem f) => f
     | _ => fun _ => Some (Rejected "TypeError: fetchItem is not a function")
     end)
    (truthy (o !! "scrapeDetails"))
    (match o !! "entityName" with Some (VString s) => s | _ => "undefined" end)
    (match o !! "outputType" with
     | Some (VString "json") => Some Json
     | Some (VString "sqlite") => Some Sqlite
     | v => if truthy v then Some OtherOutput else None
     end)
    (match o !! "outputDir" with Some (VString s) => Some s | _ => None end)
    (match o !! "filename" with Some (VString s) => Some s | _ => None end)
    (match o !! "tableName" with Some (VString s) => Some s | _ => None end)
    (match o !! "maxPages" with Some (VNumber n) => Some n | _ => None end)
    (truthy (o !! "skipItemRequestsStats")).

Definition queryOf (params : gmap string Value) : Query :=
  match params !! "query" with
  | Some (VQuery q) => q
  | _ => []
  end.

(** A property of an item other than [id]. *)
Fixpoint property (name : string) (fields : list (string * string)) : option string :=
  match fields with
  | [] => None
  | (k, v) :: fields => if String.eqb k name then Some v else property name fields
  end.

Section LinkedinScraper.

Variable scraper_ : BaseScraper.

Definition searchJobs (params : Query) := fetchApiList scraper_ "linkedin/job-search" params.
Definition getJob (params : Query) := fetchApiItem scraper_ "linkedin/job" params.
Definition searchCompanies (params : Query) := fetchApiList scraper_ "linkedin/company-search" params.
Definition getCompany (params : Query) := fetchApiItem scraper_ "linkedin/company" params.
Definition searchProfiles (params : Query) := fetchApiList scraper_ "linkedin/profile-search" params.
Definition getProfile (params : Query) := fetchApiItem scraper_ "linkedin/profile" params.
Definition searchPosts (params : Query) := fetchApiList scraper_ "linkedin/post-search" params.

(** [{ ...object, name: value }]: the property is replaced where the object
    has it, and added after the others where it has not. *)
Fixpoint withProperty (name value : string) (object : Query) : Query :=
  match object with
  | [] => [(name, value)]
  | (k, v) :: object =>
      if String.eqb k name then (k, value) :: object
      else (k, v) :: withProperty name value object
  end.

(** [{ ...query, page }]. *)
Definition withPage (query : Query) (page : nat) : Query :=
  withProperty "page" (pretty page) query.

(** The object literal handed to [new ListingScraper] by [scrapeJobs], built
    left to right; [{ query, ...options }] takes [query] out of the
    parameters. *)
Definition scrapeJobs_options (params : gmap string Value) : gmap string Value :=
  let query := queryOf params in
  let options := delete "query" params in
  <["entityName" := VString "jobs"]>
    (<["maxPages" := VNumber 40]>
       (spread
          (<["fetchItem" := VFetchItem (fun item =>
               if truthyString (Some (item_id item))
               then Some (getJob [("jobId", item_id item)])
               else None)]>
             (<["fetchList" := VFetchList (fun page => searchJobs (withPage query page))]> ∅))
          options)).

Definition scrapeCompanies_options (params : gmap string Value) : gmap string Value :=
  let query := queryOf params in
  let options := delete "query" params in
  <["entityName" := VString "companies"]>
    (<["maxPages" := VNumber 100]>
       (spread
          (<["fetchItem" := VFetchItem (fun item =>
               if truthyString (property "universalName" (item_fields item))
               then Some (getCompany
                            [("universalName",
                              default EmptyString (property "universalName" (item_fields item)))])
               else None)]>
             (<["fetchList" := VFetchList (fun page => searchCompanies (withPage query page))]> ∅))
          options)).

Definition scrapeProfiles_options (params : gmap string Value) : gmap string Value :=
  let query := queryOf params in
  let options := delete "query" params in
  <["entityName" := VString "profiles"]>
    (<["maxPages" := VNumber 100]>
       (spread
          (<["fetchItem" := VFetchItem (fun item =>
               if truthyString (property "publicIdentifier" (item_fields item))
               then Some (getProfile
                            [("publicIdentifier",
                              default EmptyString (property "publicIdentifier" (item_fields item)))])
               else None)]>
             (<["fetchList" := VFetchList (fun page => searchProfiles (withPage query page))]> ∅))
          options)).

Definition scrapePosts_options (params : gmap string Value) : gmap string Value :=
  let query := queryOf params in
  let options := delete "query" params in
  <["skipItemRequestsStats" := VBool true]>
    (<["entityName" := VString "posts"]>
       (<["maxPages" := VNumber 100]>
          (spread
             (<["fetchItem" := VFetchItem (fun item =>
                  Some (Resolved
                    (if truthyString (Some (item_id item))
                     then Some (mkResp (Some (item_id item)) (Some item) None None None false)
                     else None)))]>
                (<["fetchList" := VFetchList (fun page => searchPosts (withPage query page))]> ∅))
             options))).

(** [new ListingScraper(...).scrapeStart()]. *)
Definition scrapeJobs (sqlite : SqliteEnv) (params : gmap string Value) :=
  scrapeStart (constructor (readOptions (scrapeJobs_options params))) sqlite.
Definition scrapeCompanies (sqlite : SqliteEnv) (params : gmap string Value) :=
  scrapeStart (constructor (readOptions (scrapeCompanies_options params))) sqlite.
Definition scrapeProfiles (sqlite : SqliteEnv) (params : gmap string Value) :=
  scrapeStart (constructor (readOptions (scrapeProfiles_options params))) sqlite.
Definition scrapePosts (sqlite : SqliteEnv) (params : gmap string Value) :=
  scrapeStart (constructor (readOptions (scrapePosts_options params))) sqlite.

End LinkedinScraper.

(** ** Notions the properties are stated with *)

(** The value [fetchPage] hands to [scrapeStart] for page 1. *)
Definition firstPageOf (options : ListingScraperOptions) : option ApiListResponse :=
  fst (fetchPage options 1 newScraper).

(** The configuration [scrapeStart] reaches when it has submitted the pages,
    if it gets there. *)
Definition scheduledConf (options : ListingScraperOptions) (sqlite : SqliteEnv)
  : option Conf :=
  match scrapeStart_begin options sqlite newScraper with
  | (Scheduled concurrency submitted, s) => Some (mkConf s concurrency submitted)
  | (Exited, _) => None
  end.

Definition submittedBy (st : Started) : list PageTask :=
  match st with
  | Scheduled _ submitted => submitted
  | Exited => []
  end.

Definition scraperOf (o : Outcome) : Scraper :=
  match o with
  | Returned _ s => s
  | Awaiting c => scraper c
  end.

(** The items of a page whose loop is under way and has not reached them. *)
Definition pendingOf (t : PageTask) : list Item :=
  match t with
  | AwaitFetchItem _ _ _ _ rest => rest
  | AwaitOnItemScraped _ _ _ _ rest _ => rest
  | _ => []
  end.

Definition pendingItems (ts : list PageTask) : list Item := ts ≫= pendingOf.

Definition statsOk (t : Stats) : Prop :=
  itemsSuccess t <= items t /\ pagesSuccess t <= pages t.

Definition fetchedPages (es : list Event) : list nat :=
  es ≫= (fun e => match e with CallFetchList page => [page] | _ => [] end).

Definition fetchedItems (es : list Event) : list Item :=
  es ≫= (fun e => match e with CallFetchItem item => [item] | _ => [] end).

(** The elements a settled list fetch can bring. *)
Definition elementsOf (outcome : Settled ApiListResponse) : list Item :=
  match outcome with
  | Resolved (Some l) => default [] (list_elements l)
  | _ => []
  end.

(** A bound on the transitions a task still has to make. *)
Definition weight (options : ListingScraperOptions) (t : PageTask) : nat :=
  match t with
  | Queued page (Some l) => 3 * length (default [] (list_elements l)) + 3
  | Queued page None => 3 * length (elementsOf (fetchList options page)) + 5
  | AwaitFetchList page => 3 * length (elementsOf (fetchList options page)) + 4
  | AwaitFetchPage _ lst => 3 * length (default [] (lst ≫= list_elements)) + 3
  | AwaitFetchItem _ _ _ _ rest => 3 * length rest + 5
  | AwaitOnItemScraped _ _ _ _ rest false => 3 * length rest + 4
  | AwaitOnItemScraped _ _ _ _ rest true => 3 * length rest + 3
  | AwaitScrapePageItems _ _ => 1
  | Finished => 0
  end.

Fixpoint totalWeight (options : ListingScraperOptions) (ts : list PageTask) : nat :=
  match ts with
  | [] => 0
  | t :: ts => weight options t + totalWeight options ts
  end.

(** The transitions the opening of the database still has to make. *)
Definition openingWeight (p : PromiseState) : nat :=
  match p with
  | Pending => 2
  | Creating => 1
  | _ => 0
  end.

Definition measure (options : ListingScraperOptions) (c : Conf) : nat :=
  totalWeight options (tasks c)
  + openingWeight (sqliteDatabaseOpenPromise (scraper c)).

(** The invariant of the counters, on the current value and on all the
    earlier ones. *)
Definition inv (s : Scraper) : Prop :=
  statsOk (stats s) /\ Forall statsOk (history s).

(** The page a task is still to fetch when it is invoked. *)
Definition queuedPage (t : PageTask) : list nat :=
  match t with
  | Queued page None => [page]
  | _ => []
  end.

Definition queuedPages (ts : list PageTask) : list nat := ts ≫= queuedPage.

(** What the loop of [scrapePageItems] does from its header to the next
    suspension, [remaining] being the items not yet visited. *)
Definition loopRun (options : ListingScraperOptions) (remaining : list Item)
    (s : Scraper) (t' : PageTask) (s' : Scraper) : Prop :=
  exists es,
    trace s' = es ++ trace s
    /\ done s' = done s
    /\ sqliteDatabaseOpenPromise s' = sqliteDatabaseOpenPromise s
    /\ (inv s -> inv s')
    /\ weight options t' <= 3 * length remaining + 2
    /\ queuedPage t' = []
    /\ fetchedPages es = []
    /\ fetchedItems es ⊆ remaining
    /\ pendingOf t' ⊆ remaining.

(** The status of the answer to the fetch of page 1, if there is one. *)
Definition firstStatus (options : ListingScraperOptions) : option nat :=
  match fetchList options 1 with
  | Resolved (Some l) => list_status l
  | _ => None
  end.

(** The total the first page reports, [0] when it reports none. *)
Definition reportedTotalPages (options : ListingScraperOptions) : nat :=
  numberOr (firstPageOf options ≫= pagination_totalPages) 0.

(** The fatal start of [scrapeStart], line 64: [!firstPage || !totalPages]. *)
Definition nothingToScrape (options : ListingScraperOptions) : bool :=
  match firstPageOf options with
  | Some _ => (totalPagesOf options (firstPageOf options) =? 0)%nat
  | None => true
  end.

(** ** Sample runs *)

Definition itemA : Item := mkItem "a" [].
Definition itemB : Item := mkItem "b" [].

Definition listOf (elements : list Item) (totalPages concurrency : nat)
  : ApiListResponse :=
  mkList (Some "list") (Some 200) None None (Some elements) (Some totalPages)
    (Some concurrency).

Definition list402 : ApiListResponse :=
  mkList None (Some 402) None None None None None.

(** A 402 that names its error and carries an element. *)
Definition list402Error : ApiListResponse :=
  mkList None (Some 402) (Some "Payment Required") None (Some [itemA]) None None.

Definition found (item : Item) : option (Settled ApiItemResponse) :=
  Some (Resolved (Some (mkResp (Some (item_id item)) (Some item) (Some 200)
                          None None false))).

Definition sqliteOk : SqliteEnv := mkSqlite OpenOk (fun _ => None).

(** Two pages for two workers; page 1 has two items, page 2 answers 402. *)
Definition quotaOnPage2 : ListingScraperOptions :=
  mkOptions
    (fun page => if (page =? 1)%nat then Resolved (Some (listOf [itemA; itemB] 2 2))
                 else Resolved (Some list402))
    found true "jobs" (Some Json) None None None None false.

(** The same, page 2 naming the error of its 402. *)
Definition quotaWithError : ListingScraperOptions :=
  mkOptions
    (fun page => if (page =? 1)%nat then Resolved (Some (listOf [itemA; itemB] 2 2))
                 else Resolved (Some list402Error))
    found true "jobs" (Some Json) None None None None false.

(** The first page cannot be fetched. *)
Definition firstPageFails : ListingScraperOptions :=
  mkOptions (fun _ => Rejected "ECONNRESET") found true "jobs" (Some Json)
    None None None None false.

(** A hundred pages reported, five allowed. *)
Definition fiveOfHundred : ListingScraperOptions :=
  mkOptions (fun _ => Resolved (Some (listOf [] 100 1))) found false "jobs"
    (Some Json) None None None (Some 5) false.





(** A database whose inserts fail. *)
Definition sqliteRejects : SqliteEnv :=
  mkSqlite OpenOk (fun _ => Some "SQLITE_ERROR").

(** One page with one post, details scraped. *)
Definition onePost : BaseScraper :=
  mkBase (fun _ _ => Resolved (Some (listOf [itemA] 1 1)))
         (fun _ _ => Rejected "not used").

Definition postsParams : gmap string Value :=
  <["scrapeDetails" := VBool true]>
    (<["outputType" := VString "json"]> (<["query" := VQuery []]> ∅)).

Definition jobsParams : gmap string Value :=
  <["maxPages" := VNumber 1000]> (<["query" := VQuery [("search", "rocq")]]> ∅).



(** One page of two items, written to SQLite. *)
Definition toSqlite : ListingScraperOptions :=
  mkOptions (fun _ => Resolved (Some (listOf [itemA; itemB] 1 1))) found true
    "jobs" (Some Sqlite) None None None None false.

(** Page 1 waits for the details of its first item. *)
Definition inLoop : Conf :=
  mkConf
    (mkScraper (mkStats 1 1 0 0 1) false None [] false NotCreated
       [CallFetchItem itemA; Console (InfoScraping 1 1); CallFetchList 1]
       [mkStats 1 1 0 0 1])
    1
    [AwaitFetchItem 1 (listOf [itemA; itemB] 1 1) [] itemA [itemB]].

(** The same, the flag having been set meanwhile. *)
Definition stoppedInLoop : Conf :=
  mkConf
    (mkScraper (mkStats 1 1 0 0 1) true (Some (ErrorValue quotaMessage)) []
       false NotCreated
       [CallFetchItem itemA; Console (InfoScraping 2 2); CallFetchList 1]
       [mkStats 1 1 0 0 1])
    2
    [AwaitFetchItem 1 (listOf [itemA; itemB] 2 2) [] itemA [itemB]; Finished].

(** The schedule that brings [quotaOnPage2] to the 402 of page 2 while page 1
    is in its loop, and on to the write of the first item. *)
Definition untilQuota : list Label :=
  [RunTask 0; RunTask 1; RunTask 1; RunTask 0; RunWrite 0].

(** What [scrapeStart] has submitted on [quotaOnPage2]. *)
Definition quotaStart : Conf :=
  mkConf
    (mkScraper (mkStats 1 1 0 0 1) false None [] false NotCreated
       [Console (InfoScraping 2 2); CallFetchList 1]
       [mkStats 1 1 0 0 1; mkStats 1 1 0 0 1; mkStats 1 1 0 0 1;
        mkStats 1 0 0 0 1; mkStats 1 0 0 0 0; stats0])
    2
    [Queued 1 (Some (listOf [itemA; itemB] 2 2)); Queued 2 None].

(** The answer [found] gives for [itemA], and a 402. *)
Definition foundA : ApiItemResponse :=
  mkResp (Some "a") (Some itemA) (Some 200) None None false.


(** A schedule that offers every label of [n] page tasks in turn, [rounds]
    times. *)
Definition roundRobin (n rounds : nat) : list Label :=
  concat (replicate rounds
            (SettleOpen :: flat_map (fun i => [RunTask i; RunWrite i]) (seq 0 n))).

(** Three pages of two items each for two workers, details not scraped. *)
Definition threePages : ListingScraperOptions :=
  mkOptions (fun _ => Resolved (Some (listOf [itemA; itemB] 3 2)))
    (fun _ => None) false "jobs" (Some Json) None None None None false.

(** One page whose only item has no key to fetch its details with. *)
Definition noKey : ListingScraperOptions :=
  mkOptions (fun _ => Resolved (Some (listOf [itemA] 1 1)))
    (fun _ => None) true "jobs" (Some Sqlite) None None None None false.

(** ** Notions for the further properties *)

(** The events of the SQLite store: a row inserted, an insert that failed. *)
Definition isStoreEvent (e : Event) : bool :=
  match e with
  | SqlInsert _ => true
  | Console (ErrorInserting _) => true
  | _ => false
  end.

Definition storeEvents (es : list Event) : list Event :=
  es ≫= (fun e => if isStoreEvent e then [e] else []).

Definition insertedItems (es : list Event) : list Item :=
  es ≫= (fun e => match e with SqlInsert item => [item] | _ => [] end).

(** A page task whose element waits in the write queue. *)
Definition pendingWrite (t : PageTask) : nat :=
  match t with
  | AwaitOnItemScraped _ _ _ _ _ false => 1
  | _ => 0
  end.

Fixpoint pendingWrites (ts : list PageTask) : nat :=
  match ts with
  | [] => 0
  | t :: ts => pendingWrite t + pendingWrites ts
  end.

(** What [await this.options.fetchItem({ item })?.catch(...)] evaluates to. *)
Definition itemDetailsOf (outcome : option (Settled ApiItemResponse))
  : option ApiItemResponse :=
  match outcome with
  | Some (Resolved value) => value
  | _ => None
  end.

(** What [fetchPage] returns for a settled list fetch. *)
Definition settledList (outcome : Settled ApiListResponse) : option ApiListResponse :=
  match outcome with
  | Resolved value => if is402 (value ≫= list_status) then None else value
  | Rejected _ => None
  end.

(** Lines 191-195 for the result of the loop: the element joins the details
    if the item succeeded. *)
Definition detailsAfter (continue : list Item -> list Item) (details : list Item)
    (itemDetails : option ApiItemResponse) : list Item :=
  match resolvedElement itemDetails with
  | Some element => continue (details ++ [element])
  | None => continue details
  end.

(** [scrapePageItems] read as one function: what it returns when its loop
    has [remaining] to visit and [details] in hand. *)
Fixpoint detailsFrom (options : ListingScraperOptions) (lst : ApiListResponse)
    (remaining : list Item) (details : list Item) : list Item :=
  match remaining with
  | [] => details
  | item :: rest =>
      if scrapeDetails options then
        if is402 (itemDetailsOf (fetchItem options item) ≫= resp_status) then details
        else detailsAfter (detailsFrom options lst rest) details
               (itemDetailsOf (fetchItem options item))
      else
        detailsAfter (detailsFrom options lst rest) details
          (Some (shortAsDetails lst item))
  end.

(** The details [scrapePage] has for a list, line 116-120. *)
Definition listDetails (options : ListingScraperOptions)
    (lst : option ApiListResponse) : list Item :=
  match lst with
  | Some l =>
      match list_elements l with
      | Some elements => detailsFrom options l elements []
      | None => []
      end
  | None => []
  end.

(** The details a page task is on its way to, read off its state. *)
Definition eventualDetails (options : ListingScraperOptions) (t : PageTask)
  : option (list Item) :=
  match t with
  | Queued _ (Some l) => Some (listDetails options (Some l))
  | Queued page None => Some (listDetails options (settledList (fetchList options page)))
  | AwaitFetchList page => Some (listDetails options (settledList (fetchList options page)))
  | AwaitFetchPage _ lst => Some (listDetails options lst)
  | AwaitFetchItem _ lst details item rest =>
      Some (if is402 (itemDetailsOf (fetchItem options item) ≫= resp_status)
            then details
            else detailsAfter (detailsFrom options lst rest) details
                   (itemDetailsOf (fetchItem options item)))
  | AwaitOnItemScraped _ lst details element rest _ =>
      Some (detailsFrom options lst rest (details ++ [element]))
  | AwaitScrapePageItems _ details => Some details
  | Finished => None
  end.

(** A property of the instance kept by every piece of code a page task runs:
    the calls and log lines, the two assignments of a 402, the counters of a
    fetched page, the counters of an item. *)
Record StableTask (options : ListingScraperOptions) (P : Scraper -> Prop) : Prop :=
  mkStableTask {
  stable_log : forall line s,
    isStoreEvent (Console line) = false -> P s -> P (snd (emit (Console line) s));
  stable_fetchList : forall page s, P s -> P (snd (emit (CallFetchList page) s));
  stable_fetchItem : forall item s,
    scrapeDetails options = true -> P s -> P (snd (emit (CallFetchItem item) s));
  stable_quota : forall e s,
    P s -> P (snd (setError (errorOrQuota e) (snd (setDone s))));
  stable_page : forall b s,
    P s ->
    P (snd (when b (setStats incPagesSuccess)
              (snd (setStats incRequests (snd (setStats incPages s))))));
  stable_item : forall itemDetails s, P s -> P (snd (countItem options itemDetails s));
}.

(** A property kept, besides, by the write queue and by the opening of the
    database. *)
Record Stable (options : ListingScraperOptions) (sqlite : SqliteEnv)
    (P : Scraper -> Prop) : Prop := mkStable {
  stable_task : StableTask options P;
  stable_write : forall element s,
    writeReady options s = true -> P s ->
    P (snd (onItemScraped options sqlite element s));
  stable_settle : forall s,
    isPending (sqliteDatabaseOpenPromise s) = true -> P s ->
    P (snd (createSqliteDatabase_resume sqlite s));
}.

(** The writes the store has taken: elements pushed to the document, or
    inserts run against the table, failed ones included. *)
Definition writesDone (options : ListingScraperOptions) (s : Scraper) : nat :=
  if isJson (outputType options) then length (inMemoryItems s)
  else length (storeEvents (trace s)).

(** The transitions a schedule makes: the labels of it that could be
    taken. *)
Fixpoint taken (options : ListingScraperOptions) (sqlite : SqliteEnv)
    (schedule : list Label) (c : Conf) : nat :=
  match schedule with
  | [] => 0
  | l :: schedule =>
      match step options sqlite l c with
      | Some c' => S (taken options sqlite schedule c')
      | None => taken options sqlite schedule c
      end
  end.

(** What the [requests] counter counts: every page counted in [pages], and at
    most one more for each item; without detail scraping, the pages only, no
    detail fetch being made. *)
Definition requestsOk (options : ListingScraperOptions) (s : Scraper) : Prop :=
  pages (stats s) <= requests (stats s)
  /\ requests (stats s) <= pages (stats s) + items (stats s)
  /\ (scrapeDetails options = false ->
      requests (stats s) = pages (stats s) /\ fetchedItems (trace s) = []).

(** The flag is never set without an error to show for it. *)
Definition errorKept (s : Scraper) : Prop :=
  done s = true -> truthyError (error s) = true.

(** Rows are only inserted into a database that was opened, and only the
    rows whose statements succeed; the database is not closed before the
    end. *)
Definition storeSound (sqlite : SqliteEnv) (s : Scraper) : Prop :=
  (db s = false -> insertedItems (trace s) = [])
  /\ (db s = true -> opens sqlite = true)
  /\ Forall (fun item => db_insert sqlite item = None) (insertedItems (trace s))
  /\ DbClose ∉ trace s.

(** A database that cannot be opened, and a module that cannot be loaded. *)
Definition sqliteClosed : SqliteEnv :=
  mkSqlite (OpenRejects "EACCES" false) (fun _ => None).

Definition sqliteMissing : SqliteEnv :=
  mkSqlite (OpenThrows "Cannot find module 'sqlite'") (fun _ => None).

(** [item?.id] is not empty. *)
Definition hasId (item : Item) : bool := truthyString (Some (item_id item)).

(** The items the lists of the given pages bring, and those of pages [1] to
    [total]. *)
Fixpoint itemsIn (options : ListingScraperOptions) (pageList : list nat) : nat :=
  match pageList with
  | [] => 0
  | page :: pageList =>
      length (elementsOf (fetchList options page)) + itemsIn options pageList
  end.

Definition itemsOffered (options : ListingScraperOptions) (total : nat) : nat :=
  itemsIn options (seq 1 total).

(** Page 2 of three cannot be fetched; pages 1 and 3 have two items. *)
Definition page2Fails : ListingScraperOptions :=
  mkOptions
    (fun page => if (page =? 2)%nat then Rejected "ETIMEDOUT"
                 else Resolved (Some (listOf [itemA; itemB] 3 1)))
    (fun _ => None) false "jobs" (Some Json) None None None None false.

(** No counter of [earlier] is above the same counter of [later]. *)
Definition statsLe (earlier later : Stats) : Prop :=
  pages earlier <= pages later
  /\ pagesSuccess earlier <= pagesSuccess later
  /\ items earlier <= items later
  /\ itemsSuccess earlier <= itemsSuccess later
  /\ requests earlier <= requests later.

(** A list of values of the counters, newest first, that never go down. *)
Fixpoint ascending (newestFirst : list Stats) : Prop :=
  match newestFirst with
  | later :: rest =>
      match rest with
      | earlier :: _ => statsLe earlier later
      | [] => True
      end /\ ascending rest
  | [] => True
  end.

(** The counters have never gone down, [history] ending with their current
    value. *)
Definition neverDown (s : Scraper) : Prop :=
  head (history s) = Some (stats s) /\ ascending (history s).

(** While the opening of the database is pending nothing has gone through
    the SQLite store. *)
Definition waitsForOpen (s : Scraper) : Prop :=
  isPending (sqliteDatabaseOpenPromise s) = true -> storeEvents (trace s) = [].



(** [this.db] is assigned between the two [await]s of the opening. *)
Definition openingPhase (s : Scraper) : Prop :=
  (sqliteDatabaseOpenPromise s = Pending -> db s = false)
  /\ (sqliteDatabaseOpenPromise s = Creating -> db s = true).

(** A page task that has no element to go through. *)
Definition itemless (t : PageTask) : Prop :=
  match t with
  | Queued _ (Some l) | AwaitFetchPage _ (Some l) =>
      default [] (list_elements l) = []
  | AwaitFetchItem _ _ _ _ _ | AwaitOnItemScraped _ _ _ _ _ _ => False
  | _ => True
  end.

(** One page without elements, written to SQLite. *)
Definition emptyPage : ListingScraperOptions :=
  mkOptions (fun _ => Resolved (Some (listOf [] 1 1))) found true "jobs"
    (Some Sqlite) None None None None false.

(** What [fetchPage] reads of the settled fetch of a page: [result?.status]
    and [result?.id], [result] being [null] after a rejection. *)
Definition statusAt (options : ListingScraperOptions) (page : nat) : option nat :=
  match fetchList options page with
  | Resolved value => value ≫= list_status
  | Rejected _ => None
  end.

Definition idAt (options : ListingScraperOptions) (page : nat) : option string :=
  match fetchList options page with
  | Resolved value => value ≫= list_id
  | Rejected _ => None
  end.

(** What the fetch of a page adds to [pages] and to [pagesSuccess]. *)
Definition pageCount (options : ListingScraperOptions) (page : nat) : nat :=
  if is402 (statusAt options page) then 0 else 1.

Definition pageSuccess (options : ListingScraperOptions) (page : nat) : nat :=
  if is402 (statusAt options page) then 0
  else if truthyString (idAt options page) then 1 else 0.

Fixpoint total (f : nat -> nat) (pageList : list nat) : nat :=
  match pageList with
  | [] => 0
  | page :: pageList => f page + total f pageList
  end.

(** The page whose list a task has asked for and not yet received. *)
Definition waitsFetch (t : PageTask) : list nat :=
  match t with
  | AwaitFetchList page => [page]
  | _ => []
  end.

Definition awaitedPages (ts : list PageTask) : list nat := ts ≫= waitsFetch.

(** The page counters against the list fetches made: every fetch is counted
    when it settles, unless it is answered 402; [pagesSuccess] counts the
    answers with an id, and page 1 in any case. *)
Definition pagesBalance (options : ListingScraperOptions) (c : Conf) : Prop :=
  pages (stats (scraper c)) + total (pageCount options) (awaitedPages (tasks c))
  = total (pageCount options) (fetchedPages (trace (scraper c)))
  /\ pagesSuccess (stats (scraper c))
     + total (pageSuccess options) (awaitedPages (tasks c))
     + pageSuccess options 1
     = 1 + total (pageSuccess options) (fetchedPages (trace (scraper c))).

(** While the flag is unset, every list fetch made has either not settled
    yet or been counted. *)
Definition answeredOk (options : ListingScraperOptions) (c : Conf) : Prop :=
  done (scraper c) = false ->
  forall page,
    page ∈ fetchedPages (trace (scraper c)) ->
    page ∈ awaitedPages (tasks c) \/ pageCount options page = 1.

(** Page 2 has been asked for and has not settled. *)
Definition awaitsPage2 : Conf :=
  mkConf (scraper quotaStart) 2 [Finished; AwaitFetchList 2].

(** The list of a page has just come back. *)
Definition pageFetched : Conf :=
  mkConf (scraper quotaStart) 1
    [AwaitFetchPage 1 (Some (listOf [itemA; itemB] 3 2))].

(** The schedule that takes one page of two items through its two writes. *)
Definition twoWrites : list Label :=
  [RunTask 0; RunWrite 0; RunTask 0; RunWrite 0; RunTask 0].

(** The instance a complete run of [threePages] leaves. *)
Definition threePagesEnd : Scraper :=
  scraperOf (scrapeStart threePages sqliteOk (roundRobin 3 24)).

(** The documents written and the databases closed, newest first. *)
Definition documents (es : list Event) : list (Stats * list Item) :=
  es ≫= (fun e => match e with OutputJson s written => [(s, written)] | _ => [] end).

Definition closings (es : list Event) : list Event :=
  es ≫= (fun e => match e with DbClose => [e] | _ => [] end).

(** Nothing of what [finalize] does has been done. *)
Definition noOutput (s : Scraper) : Prop :=
  documents (trace s) = [] /\ closings (trace s) = [].

(** An answer marked as skipped, and a database whose table cannot be
    created once it is open. *)
Definition skippedA : ApiItemResponse :=
  mkResp (Some "a") (Some itemA) (Some 200) None None true.

Definition skippingItems : ListingScraperOptions :=
  mkOptions (fun _ => Resolved (Some (listOf [itemA; itemB] 1 1)))
    (fun _ => Some (Resolved (Some skippedA)))
    true "jobs" (Some Json) None None None None false.

Definition sqliteNoTable : SqliteEnv :=
  mkSqlite (OpenRejects "SQLITE_READONLY" true) (fun _ => None).

(** The opening of the database is under way, one page is in its loop. *)
Definition opening : Conf :=
  mkConf
    (mkScraper (mkStats 1 1 0 0 1) true (Some (ErrorValue quotaMessage)) []
       false Pending
       [CallFetchItem itemA; Console (InfoScraping 1 1); CallFetchList 1]
       [mkStats 1 1 0 0 1])
    1
    [AwaitFetchItem 1 (listOf [itemA; itemB] 1 1) [] itemA [itemB]].

(** The elements the settled fetch of a page gives [scrapePage], and how
    many of them [scrapePageItems] visits and returns when nothing stops
    it. *)
Definition elementsAt (options : ListingScraperOptions) (page : nat) : list Item :=
  default [] (settledList (fetchList options page) ≫= list_elements).

Definition itemsAt (options : ListingScraperOptions) (page : nat) : nat :=
  length (elementsAt options page).

Definition successesAt (options : ListingScraperOptions) (page : nat) : nat :=
  length (listDetails options (settledList (fetchList options page))).

(** The items a page task has still to count, and the successes it has
    still to count, if the flag stays unset. *)
Definition itemsLeft (options : ListingScraperOptions) (t : PageTask) : nat :=
  match t with
  | Queued _ (Some l) => length (default [] (list_elements l))
  | Queued page None => itemsAt options page
  | AwaitFetchList page => itemsAt options page
  | AwaitFetchPage _ lst => length (default [] (lst ≫= list_elements))
  | AwaitFetchItem _ _ _ _ rest => S (length rest)
  | AwaitOnItemScraped _ _ _ _ rest _ => length rest
  | AwaitScrapePageItems _ _ => 0
  | Finished => 0
  end.

Definition successesLeft (options : ListingScraperOptions) (t : PageTask) : nat :=
  match t with
  | Queued _ (Some l) => length (listDetails options (Some l))
  | Queued page None => successesAt options page
  | AwaitFetchList page => successesAt options page
  | AwaitFetchPage _ lst => length (listDetails options lst)
  | AwaitFetchItem _ lst _ item rest =>
      if is402 (itemDetailsOf (fetchItem options item) ≫= resp_status) then 0
      else match resolvedElement (itemDetailsOf (fetchItem options item)) with
           | Some _ => 1
           | None => 0
           end + length (detailsFrom options lst rest [])
  | AwaitOnItemScraped _ lst _ _ rest _ => length (detailsFrom options lst rest [])
  | AwaitScrapePageItems _ _ => 0
  | Finished => 0
  end.

Fixpoint sumOver (f : PageTask -> nat) (ts : list PageTask) : nat :=
  match ts with
  | [] => 0
  | t :: ts => f t + sumOver f ts
  end.

(** Line 187: what an item adds to [requests], and what the items of a list
    add when nothing stops the loop. *)
Definition requestOf (options : ListingScraperOptions)
    (itemDetails : option ApiItemResponse) : nat :=
  if scrapeDetails options && negb (skipped itemDetails) then 1 else 0.

Fixpoint requestsFrom (options : ListingScraperOptions) (remaining : list Item)
  : nat :=
  match remaining with
  | [] => 0
  | item :: rest =>
      (if scrapeDetails options
       then requestOf options (itemDetailsOf (fetchItem options item))
       else 0)
      + requestsFrom options rest
  end.

Definition requestsAt (options : ListingScraperOptions) (page : nat) : nat :=
  requestsFrom options (elementsAt options page).

(** The detail requests a page task has still to count. *)
Definition requestsLeft (options : ListingScraperOptions) (t : PageTask) : nat :=
  match t with
  | Queued _ (Some l) => requestsFrom options (default [] (list_elements l))
  | Queued page None => requestsAt options page
  | AwaitFetchList page => requestsAt options page
  | AwaitFetchPage _ lst => requestsFrom options (default [] (lst ≫= list_elements))
  | AwaitFetchItem _ _ _ item rest =>
      requestOf options (itemDetailsOf (fetchItem options item))
      + requestsFrom options rest
  | AwaitOnItemScraped _ _ _ _ rest _ => requestsFrom options rest
  | AwaitScrapePageItems _ _ => 0
  | Finished => 0
  end.

(** The stats of a run of [total] pages that nothing stops. *)
Definition fullStats (options : ListingScraperOptions) (n : nat) : Stats :=
  mkStats n
    (1 + total (pageSuccess options) (seq 2 (n - 1)))
    (total (itemsAt options) (seq 1 n))
    (total (successesAt options) (seq 1 n))
    (n + total (requestsAt options) (seq 1 n)).

(** Another schedule for three page tasks: page by page. *)
Definition pageByPage : list Label :=
  concat (replicate 8 [RunTask 0; RunWrite 0]) ++ roundRobin 3 24.

(** The instance that schedule leaves, with a database whose inserts fail. *)
Definition threePagesLater : Scraper :=
  scraperOf (scrapeStart threePages sqliteRejects pageByPage).

(** The details the settled fetch of a page resolves, and those of a list of
    pages, page after page. *)
Definition pageDetails (options : ListingScraperOptions) (page : nat) : list Item :=
  listDetails options (settledList (fetchList options page)).

Definition detailsOfPages (options : ListingScraperOptions) (pageList : list nat)
  : list Item :=
  pageList ≫= pageDetails options.

(** The elements a page task has still to hand to the write queue, or has
    handed and not seen written, if the flag stays unset. *)
Definition toCome (options : ListingScraperOptions) (t : PageTask) : list Item :=
  match t with
  | Queued _ (Some l) => listDetails options (Some l)
  | Queued page None => pageDetails options page
  | AwaitFetchList page => pageDetails options page
  | AwaitFetchPage _ lst => listDetails options lst
  | AwaitFetchItem _ lst _ item rest =>
      if is402 (itemDetailsOf (fetchItem options item) ≫= resp_status) then []
      else detailsAfter (detailsFrom options lst rest) []
             (itemDetailsOf (fetchItem options item))
  | AwaitOnItemScraped _ lst _ element rest false =>
      element :: detailsFrom options lst rest []
  | AwaitOnItemScraped _ lst _ _ rest true => detailsFrom options lst rest []
  | AwaitScrapePageItems _ _ => []
  | Finished => []
  end.

(** The elements a database takes: those whose insert statements succeed. *)
Definition acceptedBy (sqlite : SqliteEnv) (elements : list Item) : list Item :=
  filter (fun item => db_insert sqlite item = None) elements.

(** The opening of the database as the write queue relies on it: the promise
    exists, it is settled at once when [require] throws, [this.db] holds the
    database while [CREATE TABLE] is awaited, and while the flag is unset a
    settled promise has left a database in [this.db]. *)
Definition openedOk (sqlite : SqliteEnv) (s : Scraper) : Prop :=
  sqliteDatabaseOpenPromise s <> NotCreated
  /\ (forall reason, db_open sqlite = OpenThrows reason ->
      sqliteDatabaseOpenPromise s <> Pending)
  /\ (done s = false -> sqliteDatabaseOpenPromise s = Fulfilled -> db s = true)
  /\ (sqliteDatabaseOpenPromise s = Creating -> db s = true).

(** A database that refuses the rows of [itemB]. *)
Definition sqliteRefusesB : SqliteEnv :=
  mkSqlite OpenOk
    (fun item => if String.eqb (item_id item) "b" then Some "SQLITE_CONSTRAINT"
                 else None).

Definition toSqliteEnd : Scraper :=
  scraperOf (scrapeStart toSqlite sqliteRefusesB (roundRobin 1 12)).

(** ** Proofs *)

Ltac unfold_monad :=
  unfold bind, ret, when, getDone, getError, getStats, setStats, setDone,
    setError, pushInMemory, setDb, setOpenPromise, emit in *.

(** *** The LinkedIn options *)



(** The caller's own [maxPages: 1000] is overridden. *)
Example jobs_maxPages_overridden :
  jobsParams !! "maxPages" = Some (VNumber 1000)
  /\ maxPages (constructor (readOptions (scrapeJobs_options onePost jobsParams))) = Some 40.
Proof. split; vm_compute; reflexivity. Qed.

(** C9. [scrapePosts] sets [skipItemRequestsStats: true]; with details
    scraped, one page and one post, the run ends with [requests = 2]: the list
    fetch and the post, which the option was to leave out. *)
Example posts_requests_counted :
  skipItemRequestsStats
    (constructor (readOptions (scrapePosts_options onePost postsParams))) = true
  /\ match scrapePosts onePost sqliteOk postsParams
             [RunTask 0; RunTask 0; RunWrite 0; RunTask 0; RunTask 0] with
     | Returned value s =>
         value = Some (mkStats 1 1 1 1 2)
         /\ fetchedPages (trace s) = [1]
         /\ fetchedItems (trace s) = [itemA]
     | Awaiting _ => False
     end.
Proof. vm_compute. repeat split; reflexivity. Qed.

(** The engine never reads the option: two option records that differ in it
    only count the same. *)
Lemma countItem_ignores_skipItemRequestsStats (o : ListingScraperOptions)
    (b : bool) (itemDetails : option ApiItemResponse) (s : Scraper) :
  countItem
    (mkOptions (fetchList o) (fetchItem o) (scrapeDetails o) (entityName o)
       (outputType o) (outputDir o) (filename o) (tableName o) (maxPages o) b)
    itemDetails s
  = countItem o itemDetails s.
Proof. reflexivity. Qed.

(** *** One item of a page *)


(** C8. An item resolves (an element and a non-empty id) and the output is
    SQLite, whose insert fails for the element, or whose database was never
    opened.  The item is counted in [items] and [itemsSuccess] before the
    write; the write logs the failure, inserts nothing and leaves the
    counters alone; the page then goes on with the element among its
    details. *)
Theorem write_failure_still_counted (options : ListingScraperOptions)
    (sqlite : SqliteEnv) (continue : M PageTask) (page : nat)
    (lst : ApiListResponse) (details rest : list Item)
    (itemDetails : option ApiItemResponse) (element : Item) (s : Scraper) :
  outputType options = Some Sqlite ->
  resolvedElement itemDetails = Some element ->
  db s = false \/ is_Some (db_insert sqlite element) ->
  exists s1 s2 reason,
    scrapePageItems_item options continue page lst details rest itemDetails s
    = (AwaitOnItemScraped page lst details element rest false, s1)
    /\ itemsSuccess (stats s1) = S (itemsSuccess (stats s))
    /\ items (stats s1) = S (items (stats s))
    /\ onItemScraped options sqlite element s1 = (tt, s2)
    /\ trace s2 = Console (ErrorInserting reason) :: trace s
    /\ stats s2 = stats s1
    /\ inMemoryItems s2 = inMemoryItems s
    /\ resume options (AwaitOnItemScraped page lst details element rest true)
       = Some (scrapePageItems_from options page lst (details ++ [element]) rest).
Proof.
  intros Hout Hres Hfail.
  unfold scrapePageItems_item, countItem, onItemScraped, insertSqliteItem.
  rewrite Hres, Hout. cbn [isJson isSqlite].
  unfold_monad.
  destruct (scrapeDetails options && negb (skipped itemDetails));
    cbn [db stats itemsSuccess items incItems incRequests incItemsSuccess trace
         inMemoryItems fst snd].
  all: destruct (db s) eqn:Hdb;
    [ destruct Hfail as [Hf | [reason Hf]]; [discriminate | rewrite Hf]
    | ];
    do 3 eexists; repeat split; reflexivity.
Qed.

(** *** What the transitions do *)

Lemma countItem_inv options itemDetails s :
  inv s -> inv (snd (countItem options itemDetails s)).
Proof.
  intros [[Hi Hp] Hh]. unfold countItem. unfold_monad.
  destruct (scrapeDetails options && negb (skipped itemDetails));
    destruct (resolvedElement itemDetails); cbn;
    unfold inv, statsOk; cbn; (split; [lia|]);
    repeat (apply Forall_cons; split; [cbn; lia|]); assumption.
Qed.

Lemma countItem_frame options itemDetails s :
  let s' := snd (countItem options itemDetails s) in
  trace s' = trace s /\ done s' = done s
  /\ sqliteDatabaseOpenPromise s' = sqliteDatabaseOpenPromise s
  /\ fst (countItem options itemDetails s) = resolvedElement itemDetails.
Proof.
  unfold countItem. unfold_monad.
  destruct (scrapeDetails options && negb (skipped itemDetails));
    destruct (resolvedElement itemDetails); cbn; auto.
Qed.

Lemma item_loopRun options continue page lst details rest itemDetails s t' s' :
  (forall s1 t1 s2, continue s1 = (t1, s2) -> loopRun options rest s1 t1 s2) ->
  scrapePageItems_item options continue page lst details rest itemDetails s = (t', s') ->
  exists es,
    trace s' = es ++ trace s
    /\ done s' = done s
    /\ sqliteDatabaseOpenPromise s' = sqliteDatabaseOpenPromise s
    /\ (inv s -> inv s')
    /\ weight options t' <= 3 * length rest + 4
    /\ queuedPage t' = []
    /\ fetchedPages es = []
    /\ fetchedItems es ⊆ rest
    /\ pendingOf t' ⊆ rest.
Proof.
  intros Hcont. unfold scrapePageItems_item, bind.
  pose proof (countItem_inv options itemDetails s) as Hinv.
  destruct (countItem_frame options itemDetails s) as (Htr & Hd & Hp & _).
  destruct (countItem options itemDetails s) as [stored s1]. cbn [fst snd] in *.
  destruct stored as [element|].
  - unfold ret. intros [= <- <-]. exists []. cbn.
    split_and!; auto; try lia; try set_solver.
  - intros Hk. destruct (Hcont _ _ _ Hk) as (es & H1 & H2 & H3 & H4 & H5 & H6 & H7 & H8 & H9).
    exists es. rewrite H1, H2, H3, Htr, Hd, Hp. split_and!; auto. lia.
Qed.

Lemma from_loopRun options page lst remaining :
  forall details s t' s',
    scrapePageItems_from options page lst details remaining s = (t', s') ->
    loopRun options remaining s t' s'.
Proof.
  induction remaining as [|item rest IH]; intros details s t' s'; cbn [scrapePageItems_from].
  - unfold ret. intros [= <- <-]. exists []. cbn. split_and!; auto; try lia; set_solver.
  - destruct (scrapeDetails options).
    + unfold_monad. intros [= <- <-]. exists [CallFetchItem item]. cbn.
      split_and!; auto; try lia; set_solver.
    + intros H. eapply item_loopRun in H; [|intros; eapply IH; eassumption].
      destruct H as (es & H1 & H2 & H3 & H4 & H5 & H6 & H7 & H8 & H9).
      exists es. cbn [length]. split_and!; auto; try lia; set_solver.
Qed.

Lemma fetchPage_settled_run page outcome s :
  let (result, s') := fetchPage_settled page outcome s in
  exists es,
    trace s' = es ++ trace s
    /\ (done s = true -> done s' = true)
    /\ sqliteDatabaseOpenPromise s' = sqliteDatabaseOpenPromise s
    /\ (inv s -> inv s')
    /\ length (default [] (result ≫= list_elements)) <= length (elementsOf outcome)
    /\ fetchedPages es = []
    /\ fetchedItems es = []
    /\ (result = None \/ outcome = Resolved result).
Proof.
  unfold fetchPage_settled. unfold_monad.
  destruct outcome as [[l|]|reason]; cbn [mbind option_bind];
    try destruct (is402 (list_status l));
    try destruct (truthyString (list_id l)); cbn.
  all: first [ exists []; split; [reflexivity|]
             | eexists [_]; split; [reflexivity|] ];
    cbn; split_and!; auto; try lia.
  all: intros [[Hi Hp] Hh]; unfold inv, statsOk; cbn; (split; [lia|]);
    repeat (apply Forall_cons; split; [cbn; lia|]); assumption.
Qed.

Lemma end_run page details s :
  let (t', s') := scrapePage_end page details s in
  t' = Finished
  /\ exists es,
    trace s' = es ++ trace s
    /\ done s' = done s
    /\ sqliteDatabaseOpenPromise s' = sqliteDatabaseOpenPromise s
    /\ (inv s -> inv s')
    /\ fetchedPages es = []
    /\ fetchedItems es = []
    /\ (done s = true -> es = []).
Proof.
  unfold scrapePage_end. unfold_monad. destruct (done s) eqn:Hd; cbn.
  - split; [done|]. exists []. split_and!; auto.
  - split; [done|]. eexists [_]. cbn. split_and!; auto. done.
Qed.

Lemma withList_run options page lst s t' s' :
  scrapePage_withList options page lst s = (t', s') ->
  exists es,
    trace s' = es ++ trace s
    /\ done s' = done s
    /\ sqliteDatabaseOpenPromise s' = sqliteDatabaseOpenPromise s
    /\ (inv s -> inv s')
    /\ weight options t' <= 3 * length (default [] (lst ≫= list_elements)) + 2
    /\ queuedPage t' = []
    /\ fetchedPages es = []
    /\ (done s = true -> t' = Finished /\ es = []).
Proof.
  unfold scrapePage_withList. unfold bind at 1. unfold getDone.
  destruct (done s) eqn:Hd.
  - unfold ret. intros [= <- <-]. exists []. cbn. split_and!; auto. lia.
  - assert (Hend : scrapePage_end page [] s = (t', s') ->
      exists es, trace s' = es ++ trace s /\ done s' = false
        /\ sqliteDatabaseOpenPromise s' = sqliteDatabaseOpenPromise s
        /\ (inv s -> inv s')
        /\ weight options t' <= 3 * length (default [] (lst ≫= list_elements)) + 2
        /\ queuedPage t' = [] /\ fetchedPages es = []
        /\ (false = true -> t' = Finished /\ es = [])).
    { intros H. pose proof (end_run page [] s) as He. rewrite H in He.
      destruct He as (-> & es & H1 & H2 & H3 & H4 & H5 & H6 & H7).
      exists es. cbn. split_and!; auto; try congruence. lia. }
    destruct lst as [l|]; [|exact Hend].
    destruct (list_elements l) as [elements|] eqn:He; [|exact Hend].
    intros H. apply from_loopRun in H.
    destruct H as (es & H1 & H2 & H3 & H4 & H5 & H6 & H7 & H8 & H9).
    exists es. cbn [mbind option_bind]. rewrite He. cbn [default].
    split_and!; auto; try congruence.
Qed.

Lemma fetched_run options page lst details rest outcome s t' s' :
  scrapePageItems_fetched options page lst details rest outcome s = (t', s') ->
  exists es,
    trace s' = es ++ trace s
    /\ (done s = true -> done s' = true)
    /\ sqliteDatabaseOpenPromise s' = sqliteDatabaseOpenPromise s
    /\ (inv s -> inv s')
    /\ weight options t' <= 3 * length rest + 4
    /\ queuedPage t' = []
    /\ fetchedPages es = []
    /\ fetchedItems es ⊆ rest
    /\ pendingOf t' ⊆ rest.
Proof.
  unfold scrapePageItems_fetched. unfold bind at 1.
  set (pre := match outcome with
              | Some (Rejected reason) => [Console (ErrorScrapingItem reason)]
              | _ => []
              end).
  set (itemDetails := match outcome with
                      | Some (Resolved value) => value
                      | _ => None
                      end).
  set (s0 := mkScraper (stats s) (done s) (error s) (inMemoryItems s) (db s)
               (sqliteDatabaseOpenPromise s) (pre ++ trace s) (history s)).
  assert (Hpre : (match outcome with
                  | Some (Resolved value) => ret value
                  | Some (Rejected reason) =>
                      emit (Console (ErrorScrapingItem reason));; ret None
                  | None => ret None
                  end) s = (itemDetails, s0)).
  { subst pre itemDetails s0. unfold_monad.
    destruct outcome as [[v|r]|]; cbn; destruct s; reflexivity. }
  rewrite Hpre.
  destruct (is402 (itemDetails ≫= resp_status)).
  - unfold_monad. cbn. intros [= <- <-]. exists pre. cbn.
    split_and!; auto; try lia; try set_solver.
    subst pre; destruct outcome as [[v|r]|]; reflexivity.
    subst pre; destruct outcome as [[v|r]|]; cbn; set_solver.
  - intros H. eapply item_loopRun in H;
      [|intros; eapply from_loopRun; eassumption].
    destruct H as (es & H1 & H2 & H3 & H4 & H5 & H6 & H7 & H8 & H9).
    exists (es ++ pre). cbn in *.
    split_and!; auto; try congruence.
    + rewrite H1. by rewrite app_assoc.
    + unfold fetchedPages in *. rewrite bind_app, H7.
      subst pre; destruct outcome as [[v|r]|]; reflexivity.
    + unfold fetchedItems in *. rewrite bind_app.
      assert (pre ≫= (λ e, match e with CallFetchItem item => [item] | _ => [] end) = [])
        as -> by (subst pre; destruct outcome as [[v|r]|]; reflexivity).
      rewrite app_nil_r. exact H8.
Qed.

Ltac finish_run :=
  split_and!; auto; try congruence; try lia;
  try (intros; split_and!; auto; try congruence; set_solver).

(** Everything the later proofs need to know about one transition of a page
    task. *)
Lemma resume_run options t m s t' s' :
  resume options t = Some m -> m s = (t', s') ->
  exists es,
    trace s' = es ++ trace s
    /\ (done s = true -> done s' = true)
    /\ sqliteDatabaseOpenPromise s' = sqliteDatabaseOpenPromise s
    /\ (inv s -> inv s')
    /\ weight options t' < weight options t
    /\ queuedPage t' = []
    /\ (fetchedPages es = [] \/ fetchedPages es = queuedPage t)
    /\ (done s' = false -> fetchedPages es = queuedPage t)
    /\ (done s = true ->
        fetchedPages es = [] /\ fetchedItems es ⊆ pendingOf t
        /\ pendingOf t' ⊆ pendingOf t).
Proof.
  destruct t as [page sl|page|page lst|page lst details item rest
                |page lst details element rest written|page details|];
    cbn [resume]; try discriminate.
  - (* Queued *)
    intros [= <-]. unfold scrapePage_start. unfold bind at 1. unfold getDone.
    destruct (done s) eqn:Hd.
    + unfold ret. intros [= <- <-]. exists []. cbn.
      finish_run; destruct sl; cbn; lia.
    + destruct sl as [l|].
      * intros H. apply withList_run in H.
        destruct H as (es & H1 & H2 & H3 & H4 & H5 & H6 & H7 & H8).
        exists es. cbn in *. finish_run.
      * unfold_monad. intros [= <- <-]. exists [CallFetchList page]. cbn.
        finish_run.
  - (* AwaitFetchList *)
    intros [= <-]. unfold bind, ret.
    pose proof (fetchPage_settled_run page (fetchList options page) s) as H.
    destruct (fetchPage_settled page (fetchList options page) s) as [result s1].
    destruct H as (es & H1 & H2 & H3 & H4 & H5 & H6 & H7 & H8).
    intros [= <- <-]. exists es. cbn [weight queuedPage pendingOf].
    rewrite ?H7. finish_run.
  - (* AwaitFetchPage *)
    intros [= <-] H. apply withList_run in H.
    destruct H as (es & H1 & H2 & H3 & H4 & H5 & H6 & H7 & H8).
    exists es. cbn [weight queuedPage pendingOf].
    split_and!; auto; try congruence; try lia.
    intros Hd. destruct (H8 Hd) as [-> ->]. cbn. split_and!; auto; set_solver.
  - (* AwaitFetchItem *)
    intros [= <-] H. apply fetched_run in H.
    destruct H as (es & H1 & H2 & H3 & H4 & H5 & H6 & H7 & H8 & H9).
    exists es. cbn [weight queuedPage pendingOf]. finish_run.
  - (* AwaitOnItemScraped *)
    destruct written; [|discriminate].
    intros [= <-] H. unfold scrapePageItems_stored in H. apply from_loopRun in H.
    destruct H as (es & H1 & H2 & H3 & H4 & H5 & H6 & H7 & H8 & H9).
    exists es. cbn [weight queuedPage pendingOf]. finish_run.
  - (* AwaitScrapePageItems *)
    intros [= <-] H. pose proof (end_run page details s) as He. rewrite H in He.
    destruct He as (-> & es & H1 & H2 & H3 & H4 & H5 & H6 & H7).
    exists es. cbn [weight queuedPage pendingOf]. rewrite ?H6. finish_run.
Qed.

(** *** Replacing one task of the queue *)

Lemma totalWeight_insert options ts : forall i t t',
  ts !! i = Some t ->
  totalWeight options (<[i := t']> ts) + weight options t
  = totalWeight options ts + weight options t'.
Proof.
  induction ts as [|a ts IH]; intros [|i] t t' H; simpl in *; try discriminate.
  - injection H as ->. lia.
  - specialize (IH _ _ t' H). lia.
Qed.

Lemma running_insert ts : forall i t t',
  ts !! i = Some t ->
  running (<[i := t']> ts) + (if inFlight t then 1 else 0)
  = running ts + (if inFlight t' then 1 else 0).
Proof.
  induction ts as [|a ts IH]; intros [|i] t t' H; simpl in *; try discriminate.
  - injection H as ->. lia.
  - specialize (IH _ _ t' H). lia.
Qed.

Lemma bind_insert_nil {A B} (f : A -> list B) (ts : list A) : forall i t t',
  ts !! i = Some t -> f t' = [] ->
  ts ≫= f ≡ₚ f t ++ (<[i := t']> ts ≫= f).
Proof.
  induction ts as [|a ts IH]; intros [|i] t t' H Hnil; cbn in *; try discriminate.
  - injection H as ->. rewrite Hnil. reflexivity.
  - rewrite (IH _ _ t' H Hnil) at 1. apply Permutation_app_swap_app.
Qed.

Lemma bind_insert_subseteq {A B} (f : A -> list B) (ts : list A) : forall i t t',
  ts !! i = Some t -> f t' ⊆ f t ->
  <[i := t']> ts ≫= f ⊆ ts ≫= f.
Proof.
  induction ts as [|a ts IH]; intros [|i] t t' H Hsub; cbn in *; try discriminate.
  - injection H as ->. set_solver.
  - specialize (IH _ _ t' H Hsub). set_solver.
Qed.

Lemma bind_lookup_subseteq {A B} (f : A -> list B) (ts : list A) i t :
  ts !! i = Some t -> f t ⊆ ts ≫= f.
Proof.
  intros H x Hx. apply list_elem_of_bind. exists t. split; [assumption|].
  eapply list_elem_of_lookup_2; eassumption.
Qed.

Lemma bind_insert_same {A B} (f : A -> list B) (ts : list A) : forall i t t',
  ts !! i = Some t -> f t' = f t ->
  <[i := t']> ts ≫= f = ts ≫= f.
Proof.
  induction ts as [|a ts IH]; intros [|i] t t' H Heq; cbn in *; try discriminate.
  - injection H as ->. by rewrite Heq.
  - f_equal. eapply IH; eassumption.
Qed.

(** *** One step of a run *)

Lemma onItemScraped_run options sqlite element s :
  let s' := snd (onItemScraped options sqlite element s) in
  exists es,
    trace s' = es ++ trace s
    /\ done s' = done s
    /\ sqliteDatabaseOpenPromise s' = sqliteDatabaseOpenPromise s
    /\ stats s' = stats s
    /\ history s' = history s
    /\ fetchedPages es = []
    /\ fetchedItems es = [].
Proof.
  unfold onItemScraped, insertSqliteItem. unfold_monad.
  destruct (isJson (outputType options)), (isSqlite (outputType options)),
    (db s) eqn:Hdb, (db_insert sqlite element); cbn; rewrite ?Hdb; cbn.
  all: first [ exists []; split; [reflexivity|]
             | eexists [_]; split; [reflexivity|] ];
    cbn; split_and!; reflexivity.
Qed.

Lemma createSqliteDatabase_resume_run sqlite s :
  let s' := snd (createSqliteDatabase_resume sqlite s) in
  trace s' = trace s
  /\ (done s = true -> done s' = true)
  /\ (isPending (sqliteDatabaseOpenPromise s) = true ->
      openingWeight (sqliteDatabaseOpenPromise s')
      < openingWeight (sqliteDatabaseOpenPromise s))
  /\ stats s' = stats s
  /\ history s' = history s
  /\ inMemoryItems s' = inMemoryItems s
  /\ (sqliteDatabaseOpenPromise s' = Fulfilled /\ db s' = db s
      \/ sqliteDatabaseOpenPromise s = Pending
         /\ sqliteDatabaseOpenPromise s' = Creating
         /\ opens sqlite = true /\ db s' = true
         /\ done s' = done s /\ error s' = error s).
Proof.
  unfold createSqliteDatabase_resume, createSqliteDatabase_opened,
    createSqliteDatabase_settled, opens. unfold_monad.
  destruct (sqliteDatabaseOpenPromise s) eqn:Hp, (db_open sqlite) as [| |r [|]];
    cbn; split_and!; auto; try discriminate; try lia;
    right; split_and!; reflexivity.
Qed.

Lemma inv_same s s' :
  stats s' = stats s -> history s' = history s -> inv s -> inv s'.
Proof. unfold inv. intros -> ->. done. Qed.

Lemma step_run options sqlite l c c' :
  step options sqlite l c = Some c' ->
  workers c' = workers c
  /\ (running (tasks c) <= workers c -> running (tasks c') <= workers c)
  /\ measure options c' < measure options c
  /\ (inv (scraper c) -> inv (scraper c'))
  /\ (done (scraper c) = true -> done (scraper c') = true)
  /\ exists es,
      trace (scraper c') = es ++ trace (scraper c)
      /\ fetchedPages es ++ queuedPages (tasks c') ⊆+ queuedPages (tasks c)
      /\ (done (scraper c') = false ->
          fetchedPages es ++ queuedPages (tasks c') ≡ₚ queuedPages (tasks c))
      /\ (done (scraper c) = true ->
          fetchedPages es = []
          /\ fetchedItems es ⊆ pendingItems (tasks c)
          /\ pendingItems (tasks c') ⊆ pendingItems (tasks c)).
Proof.
  destruct c as [s w ts]. destruct l as [i|i|]; cbn [step tasks scraper workers].
  - (* RunTask *)
    destruct (ts !! i) as [t|] eqn:Hi; [|discriminate].
    destruct (inFlight t || hasFreeWorker w ts) eqn:Hguard; [|discriminate].
    destruct (resume options t) as [m|] eqn:Hm; [|discriminate].
    destruct (m s) as [t' s'] eqn:Hms. intros [= <-].
    destruct (resume_run _ _ _ _ _ _ Hm Hms)
      as (es & H1 & H2 & H3 & H4 & H5 & H6 & H7 & H8 & H9).
    pose proof (totalWeight_insert options ts i t t' Hi) as Hw.
    pose proof (running_insert ts i t t' Hi) as Hr.
    pose proof (bind_insert_nil queuedPage ts i t t' Hi H6) as Hq.
    unfold measure, queuedPages, pendingItems. cbn [tasks scraper workers].
    split_and!; auto.
    + intros Hle. unfold hasFreeWorker in Hguard.
      destruct (inFlight t); cbn in Hguard.
      * destruct (inFlight t'); lia.
      * apply Nat.ltb_lt in Hguard. destruct (inFlight t'); lia.
    + rewrite H3. lia.
    + exists es. split_and!; auto.
      * rewrite Hq. destruct H7 as [-> | ->]; [|reflexivity].
        cbn. apply submseteq_inserts_l. reflexivity.
      * intros Hd. rewrite Hq, (H8 Hd). reflexivity.
      * intros Hd. destruct (H9 Hd) as (Ha & Hb & Hc). split_and!; auto.
        -- etrans; [exact Hb|]. eapply bind_lookup_subseteq; eassumption.
        -- eapply bind_insert_subseteq; eassumption.
  - (* RunWrite *)
    destruct (ts !! i) as [t|] eqn:Hi; [|discriminate].
    destruct t as [| | | |page lst details element rest written| |]; try discriminate.
    destruct written; [discriminate|].
    destruct (writeReady options s); [|discriminate].
    pose proof (onItemScraped_run options sqlite element s) as Hrun.
    destruct (onItemScraped options sqlite element s) as [u s'].
    cbn [snd] in Hrun. destruct Hrun as (es & H1 & H2 & H3 & H4 & H5 & H6 & H7).
    intros [= <-].
    set (t' := AwaitOnItemScraped page lst details element rest true).
    pose proof (totalWeight_insert options ts i _ t' Hi) as Hw.
    pose proof (running_insert ts i _ t' Hi) as Hr.
    unfold measure, queuedPages, pendingItems. cbn [tasks scraper workers].
    rewrite (bind_insert_same queuedPage ts i _ t' Hi eq_refl).
    rewrite (bind_insert_same pendingOf ts i _ t' Hi eq_refl).
    cbn in Hw, Hr.
    split_and!; auto; try congruence; try lia.
    + rewrite H3. lia.
    + apply inv_same; assumption.
    + exists es. rewrite H6, H7. cbn. split_and!; auto.
      intros _. split_and!; auto. set_solver.
  - (* SettleOpen *)
    destruct (isPending (sqliteDatabaseOpenPromise s)) eqn:Hp; [|discriminate].
    pose proof (createSqliteDatabase_resume_run sqlite s) as Hrun.
    destruct (createSqliteDatabase_resume sqlite s) as [u s'].
    cbn [snd] in Hrun. destruct Hrun as (H1 & H2 & H3 & H4 & H5 & _).
    intros [= <-].
    unfold measure. cbn [tasks scraper workers].
    split_and!; auto.
    + specialize (H3 Hp). lia.
    + apply inv_same; assumption.
    + exists []. cbn. split_and!; auto. intros _. split_and!; auto. set_solver.
Qed.

(** *** A whole schedule *)

Lemma fetchedPages_app es1 es2 :
  fetchedPages (es1 ++ es2) = fetchedPages es1 ++ fetchedPages es2.
Proof. unfold fetchedPages. apply bind_app. Qed.

Lemma fetchedItems_app es1 es2 :
  fetchedItems (es1 ++ es2) = fetchedItems es1 ++ fetchedItems es2.
Proof. unfold fetchedItems. apply bind_app. Qed.

Lemma exec_run options sqlite schedule : forall c,
  workers (exec options sqlite schedule c) = workers c
  /\ (running (tasks c) <= workers c ->
      running (tasks (exec options sqlite schedule c)) <= workers c)
  /\ measure options (exec options sqlite schedule c) <= measure options c
  /\ (inv (scraper c) -> inv (scraper (exec options sqlite schedule c)))
  /\ (done (scraper c) = true ->
      done (scraper (exec options sqlite schedule c)) = true)
  /\ exists es,
      trace (scraper (exec options sqlite schedule c)) = es ++ trace (scraper c)
      /\ fetchedPages es ++ queuedPages (tasks (exec options sqlite schedule c))
         ⊆+ queuedPages (tasks c)
      /\ (done (scraper (exec options sqlite schedule c)) = false ->
          fetchedPages es ++ queuedPages (tasks (exec options sqlite schedule c))
          ≡ₚ queuedPages (tasks c))
      /\ (done (scraper c) = true ->
          fetchedPages es = []
          /\ fetchedItems es ⊆ pendingItems (tasks c)
          /\ pendingItems (tasks (exec options sqlite schedule c))
             ⊆ pendingItems (tasks c)).
Proof.
  induction schedule as [|l schedule IH]; intros c; cbn [exec].
  - split_and!; auto. exists []. cbn. split_and!; auto.
    intros _. split_and!; auto. set_solver.
  - destruct (step options sqlite l c) as [c1|] eqn:Hstep; cbn [default from_option id];
      [|apply IH].
    destruct (step_run _ _ _ _ _ Hstep)
      as (Hw & Hr & Hm & Hi & Hd & es1 & Ht & Hsub & Hperm & Hdone).
    destruct (IH c1) as (Hw' & Hr' & Hm' & Hi' & Hd' & es2 & Ht' & Hsub' & Hperm' & Hdone').
    split_and!.
    + congruence.
    + intros Hle. rewrite <- Hw. apply Hr'. rewrite Hw. auto.
    + lia.
    + auto.
    + auto.
    + exists (es2 ++ es1). rewrite fetchedPages_app, fetchedItems_app.
      split_and!.
      * rewrite Ht', Ht. by rewrite app_assoc.
      * etrans; [|exact Hsub].
        etrans; [|apply submseteq_skips_l; exact Hsub'].
        apply Permutation_submseteq.
        rewrite <- app_assoc. apply Permutation_app_swap_app.
      * intros Hfalse.
        assert (done (scraper c1) = false) as Hc1
          by (destruct (done (scraper c1)); [rewrite Hd' in Hfalse|]; done).
        etrans; [|exact (Hperm Hc1)].
        etrans; [|apply Permutation_app_head; exact (Hperm' Hfalse)].
        rewrite <- app_assoc. apply Permutation_app_swap_app.
      * intros Htrue. destruct (Hdone Htrue) as (Ha & Hb & Hc).
        destruct (Hdone' (Hd Htrue)) as (Ha' & Hb' & Hc').
        rewrite Ha, Ha'. split_and!; auto; set_solver.
Qed.

(** *** The start of a run *)

Lemma fetchPage_first options :
  let (fp, s) := fetchPage options 1 newScraper in
  inv s
  /\ fetchedPages (trace s) = [1]
  /\ fetchedItems (trace s) = []
  /\ items (stats s) = 0
  /\ itemsSuccess (stats s) = 0
  /\ pages (stats s) = (if is402 (firstStatus options) then 0 else 1)
  /\ pagesSuccess (stats s) <= pages (stats s)
  /\ sqliteDatabaseOpenPromise s = NotCreated
  /\ (is402 (firstStatus options) = true -> fp = None)
  /\ (fp = None \/ fetchList options 1 = Resolved fp).
Proof.
  unfold fetchPage, fetchPage_call, fetchPage_settled, firstStatus.
  unfold_monad.
  destruct (fetchList options 1) as [[l|]|reason]; cbn [mbind option_bind];
    try destruct (is402 (list_status l));
    try destruct (truthyString (list_id l)); cbn.
  all: split_and!; auto; try lia; try done.
  all: unfold inv, statsOk; cbn; (split; [lia|]);
    repeat (apply Forall_cons; split; [cbn; lia|]); apply Forall_nil; exact I.
Qed.

Lemma begin_run options sqlite :
  match scrapeStart_begin options sqlite newScraper with
  | (Scheduled w ts, s) =>
      is_Some (firstPageOf options)
      /\ 0 < totalPagesOf options (firstPageOf options)
      /\ w = concurrencyOf (firstPageOf options)
      /\ ts = pageTasks (firstPageOf options)
                (totalPagesOf options (firstPageOf options))
      /\ inv s
      /\ fetchedPages (trace s) = [1]
      /\ fetchedItems (trace s) = []
  | (Exited, s) =>
      (firstPageOf options = None
       \/ totalPagesOf options (firstPageOf options) = 0)
      /\ done s = true
      /\ inv s
      /\ fetchedPages (trace s) = [1]
      /\ fetchedItems (trace s) = []
      /\ items (stats s) = 0
      /\ itemsSuccess (stats s) = 0
      /\ pages (stats s) = (if is402 (firstStatus options) then 0 else 1)
      /\ Console ErrorFirstPage ∈ trace s
      /\ (truthyError (error s) = true ->
          exists e, error s = Some e /\ Console (ErrorOfRun e) ∈ trace s)
  end.
Proof.
  unfold scrapeStart_begin, firstPageOf. unfold bind at 1.
  pose proof (fetchPage_first options) as H.
  destruct (fetchPage options 1 newScraper) as [fp s1]. cbn [fst].
  destruct H as (Hinv & Hfp & Hfi & Hi & His & Hp & Hps & Hprom & _).
  destruct (negb (bool_decide (is_Some fp)) || (totalPagesOf options fp =? 0)%nat)
    eqn:Hcond.
  - unfold reportError. unfold_monad.
    assert (Hwhy : fp = None \/ totalPagesOf options fp = 0).
    { apply orb_true_iff in Hcond as [Hc|Hc].
      - left. destruct fp; [|done]. cbn in Hc. done.
      - right. by apply Nat.eqb_eq. }
    destruct (error s1) as [[[|a e]|es]|]; cbn; unfold_monad; cbn.
    all: rewrite ?Hfp, ?Hfi; split_and!; auto; try set_solver.
    all: first [ discriminate
               | intros _; eexists; split; [reflexivity|]; set_solver ].
  - apply orb_false_iff in Hcond as [Hc1 Hc2].
    apply negb_false_iff, bool_decide_eq_true in Hc1.
    apply Nat.eqb_neq in Hc2.
    unfold createSqliteDatabase_call. unfold_monad.
    destruct Hinv as [[Ha Hb] Hh].
    assert (pagesSuccess (stats s1) <= 1)
      by (destruct (is402 (firstStatus options)); lia).
    destruct (isSqlite (outputType options)); [destruct (db_open sqlite)|]; cbn.
    all: rewrite ?Hfp, ?Hfi; split_and!; auto; try lia.
    all: unfold inv, statsOk; cbn; (split; [lia|]);
      repeat (apply Forall_cons; split; [cbn; lia|]); assumption.
Qed.

(** *** The end of a run *)

Lemma end_of_run options s :
  let (value, s') := scrapeStart_end options s in
  value = stats s
  /\ stats s' = stats s
  /\ history s' = history s
  /\ done s' = done s
  /\ error s' = error s
  /\ exists es,
      trace s' = es ++ trace s
      /\ fetchedPages es = []
      /\ fetchedItems es = []
      /\ (truthyError (error s) = true ->
          exists e, error s = Some e /\ Console (ErrorOfRun e) ∈ es).
Proof.
  unfold scrapeStart_end, finalize, reportError. unfold_monad.
  destruct (isJson (outputType options)), (db s) eqn:Hdb; cbn; rewrite ?Hdb; cbn.
  all: destruct (error s) as [[[|a e]|es]|] eqn:He; cbn; unfold_monad; cbn.
  all: split_and!; auto.
  all: first [ eexists [_]; split; [reflexivity|]
             | eexists [_; _]; split; [reflexivity|]
             | eexists [_; _; _]; split; [reflexivity|]
             | eexists [_; _; _; _]; split; [reflexivity|] ].
  all: cbn; split_and!; auto; try done.
  all: intros _; eexists; split; [reflexivity|]; set_solver.
Qed.

(** ** The properties *)

Lemma numberOr_positive n d : 1 <= d -> 1 <= numberOr n d.
Proof. destruct n as [[|k]|]; cbn; lia. Qed.


Lemma scheduledConf_run options sqlite c0 :
  scheduledConf options sqlite = Some c0 ->
  is_Some (firstPageOf options)
  /\ 0 < totalPagesOf options (firstPageOf options)
  /\ workers c0 = concurrencyOf (firstPageOf options)
  /\ tasks c0 = pageTasks (firstPageOf options)
                 (totalPagesOf options (firstPageOf options))
  /\ inv (scraper c0)
  /\ fetchedPages (trace (scraper c0)) = [1]
  /\ fetchedItems (trace (scraper c0)) = [].
Proof.
  unfold scheduledConf. pose proof (begin_run options sqlite) as H.
  destruct (scrapeStart_begin options sqlite newScraper) as [[|w ts] s];
    [discriminate|].
  intros [= <-]. exact H.
Qed.

Lemma running_pageTasks fp total : running (pageTasks fp total) = 0.
Proof.
  unfold pageTasks. induction (seq 1 total) as [|page l IH]; simpl; auto.
Qed.

(** C5. At every point of every run, [itemsSuccess <= items] and
    [pagesSuccess <= pages]: each value the counters have had, from the
    construction of the scraper to the state a schedule leaves it in, whether
    [scrapeStart] has returned or is still waiting for its pages. *)
Theorem counters_ordered (options : ListingScraperOptions) (sqlite : SqliteEnv)
    (schedule : list Label) :
  Forall statsOk (history (scraperOf (scrapeStart options sqlite schedule))).
Proof.
  unfold scrapeStart. pose proof (begin_run options sqlite) as H.
  destruct (scrapeStart_begin options sqlite newScraper) as [[|w ts] s].
  - cbn. destruct H as (_ & _ & [_ Hh] & _). exact Hh.
  - destruct H as (_ & _ & _ & _ & Hinv & _).
    destruct (exec_run options sqlite schedule (mkConf s w ts))
      as (_ & _ & _ & Hi & _).
    specialize (Hi Hinv). cbn [scraper] in Hi.
    destruct (allFinished _).
    + pose proof (end_of_run options
                    (scraper (exec options sqlite schedule (mkConf s w ts)))) as He.
      destruct (scrapeStart_end options _) as [value s'].
      destruct He as (_ & _ & Hh & _). cbn. rewrite Hh. apply Hi.
    + cbn. apply Hi.
Qed.

(** C4. In every configuration a run reaches, the page tasks in flight are
    at most the workers of the queue, and these are the [requestsConcurrency]
    of page 1, or 1 when it is absent or zero; a waiting page is only invoked
    while fewer are in flight; and [scrapeStart] returns its stats only when
    every submitted page task has finished. *)
Theorem page_tasks_bounded (options : ListingScraperOptions) (sqlite : SqliteEnv)
    (c0 : Conf) (schedule : list Label) :
  scheduledConf options sqlite = Some c0 ->
  let c := exec options sqlite schedule c0 in
  workers c = numberOr (firstPageOf options ≫= user_requestsConcurrency) 1
  /\ 1 <= workers c
  /\ running (tasks c) <= workers c
  /\ (forall i page scrapedList c',
        tasks c !! i = Some (Queued page scrapedList) ->
        step options sqlite (RunTask i) c = Some c' ->
        running (tasks c) < workers c)
  /\ (forall value s,
        scrapeStart options sqlite schedule = Returned (Some value) s ->
        allFinished (tasks c) = true).
Proof.
  intros H0. cbn zeta.
  destruct (scheduledConf_run _ _ _ H0) as (_ & _ & Hw & Hts & _).
  destruct (exec_run options sqlite schedule c0) as (Hw' & Hr & _).
  assert (Hr' : running (tasks (exec options sqlite schedule c0)) <= workers c0)
    by (apply Hr; rewrite Hts, running_pageTasks; lia).
  rewrite Hw'. unfold concurrencyOf in Hw. split_and!.
  - exact Hw.
  - rewrite Hw. apply numberOr_positive. lia.
  - exact Hr'.
  - intros i page sl c' Hi. unfold step. rewrite Hi. cbn [inFlight orb].
    unfold hasFreeWorker. rewrite Hw'.
    destruct (_ <? _)%nat eqn:Hlt; [|discriminate].
    intros _. by apply Nat.ltb_lt.
  - intros value s. unfold scrapeStart. unfold scheduledConf in H0.
    destruct (scrapeStart_begin options sqlite newScraper) as [[|w ts] s0];
      [discriminate|].
    injection H0 as <-. cbn zeta.
    destruct (allFinished _); [done|discriminate].
Qed.

(** C1, as the code has it. Once [done] is set it stays set, and from then
    on no schedule makes the run call [fetchList] again; [fetchItem] is
    still called, but only for the remaining items of the pages whose item
    loop was under way when the flag was set: [scrapePage] tests the flag
    before its list fetch and before it enters [scrapePageItems], the loop
    itself does not. *)
Theorem done_stops_page_fetches (options : ListingScraperOptions)
    (sqlite : SqliteEnv) (c : Conf) (schedule : list Label) :
  done (scraper c) = true ->
  exists es,
    trace (scraper (exec options sqlite schedule c)) = es ++ trace (scraper c)
    /\ done (scraper (exec options sqlite schedule c)) = true
    /\ fetchedPages es = []
    /\ fetchedItems es ⊆ pendingItems (tasks c).
Proof.
  intros Hd.
  destruct (exec_run options sqlite schedule c)
    as (_ & _ & _ & _ & Hd' & es & Ht & _ & _ & Hdone).
  destruct (Hdone Hd) as (Ha & Hb & _).
  exists es. auto.
Qed.

(** C1, as the spec has it, fails. Two workers; page 2 answers 402 while page
    1 waits for the details of its first item.  The flag is set, and then page
    1 calls [fetchItem] for its second item. *)
Example item_fetched_after_done :
  match scheduledConf quotaOnPage2 sqliteOk with
  | Some c0 =>
      let c := exec quotaOnPage2 sqliteOk untilQuota c0 in
      done (scraper c) = true
      /\ match step quotaOnPage2 sqliteOk (RunTask 0) c with
         | Some c' => trace (scraper c') = CallFetchItem itemB :: trace (scraper c)
         | None => False
         end
  | None => False
  end.
Proof. vm_compute. split; reflexivity. Qed.

Lemma totalPagesOf_min options fp :
  totalPagesOf options fp
  = match maxPages options with
    | Some (S m) => Nat.min (numberOr (fp ≫= pagination_totalPages) 0) (S m)
    | _ => numberOr (fp ≫= pagination_totalPages) 0
    end.
Proof.
  unfold totalPagesOf.
  destruct (maxPages options) as [[|m]|]; cbn [truthyNumber andb default from_option id]; auto.
  destruct (Nat.ltb_spec (S m) (numberOr (fp ≫= pagination_totalPages) 0)); lia.
Qed.

Lemma queuedPages_map_none l :
  queuedPages (map (fun page => Queued page None) l) = l.
Proof.
  unfold queuedPages. induction l as [|p l IH]; simpl; [done|]. f_equal. exact IH.
Qed.

Lemma pageTasks_from_2 fp start n :
  2 <= start ->
  map (fun page => Queued page (if (page =? 1)%nat then fp else None)) (seq start n)
  = map (fun page => Queued page None) (seq start n).
Proof.
  revert start. induction n as [|n IH]; intros start Hle; simpl; [done|].
  rewrite IH by lia. destruct (Nat.eqb_spec start 1); [lia|done].
Qed.

Lemma queuedPages_pageTasks l n :
  queuedPages (pageTasks (Some l) (S n)) = seq 2 n.
Proof.
  unfold pageTasks. simpl. rewrite pageTasks_from_2 by lia.
  unfold queuedPages. simpl. apply queuedPages_map_none.
Qed.

Lemma queuedPages_finished ts : allFinished ts = true -> queuedPages ts = [].
Proof.
  unfold queuedPages, allFinished.
  induction ts as [|t ts IH]; simpl; [done|].
  destruct t; simpl; try discriminate. exact IH.
Qed.

(** Scenario D: [maxPages = 5], 100 pages reported.  Five page tasks are
    submitted, and the run that lets them all finish has fetched pages 1 to
    5. *)
Example five_of_hundred_pages :
  length (submittedBy (fst (scrapeStart_begin fiveOfHundred sqliteOk newScraper))) = 5
  /\ match scrapeStart fiveOfHundred sqliteOk
             (concat (replicate 16 [RunTask 0; RunTask 1; RunTask 2; RunTask 3;
                                   RunTask 4])) with
     | Returned (Some value) s =>
         fetchedPages (trace s) = [5; 4; 3; 2; 1] /\ pages value = 5
     | _ => False
     end.
Proof. vm_compute. repeat split; reflexivity. Qed.

(** C3, as the code has it. When page 1 comes back null or reports no page,
    [scrapeStart] sets the flag and returns [undefined], whatever the
    schedule; [fetchItem] is never called and no item is counted; page 1 is
    the only page fetched, and it is counted in [pages] unless its answer was
    402. *)
Theorem nothing_to_scrape (options : ListingScraperOptions) (sqlite : SqliteEnv)
    (schedule : list Label) :
  firstPageOf options = None \/ reportedTotalPages options = 0 ->
  exists s,
    scrapeStart options sqlite schedule = Returned None s
    /\ done s = true
    /\ fetchedItems (trace s) = []
    /\ fetchedPages (trace s) = [1]
    /\ items (stats s) = 0
    /\ itemsSuccess (stats s) = 0
    /\ pages (stats s) = (if is402 (firstStatus options) then 0 else 1).
Proof.
  intros Hwhy. unfold scrapeStart. pose proof (begin_run options sqlite) as H.
  destruct (scrapeStart_begin options sqlite newScraper) as [[|w ts] s].
  - destruct H as (_ & Hd & _ & Hfp & Hfi & Hi & His & Hp & _).
    exists s. auto 10.
  - exfalso. destruct H as ([l Hl] & Hpos & _).
    rewrite totalPagesOf_min in Hpos. unfold reportedTotalPages in Hwhy.
    destruct Hwhy as [Hn|Hz]; [congruence|].
    rewrite Hz in Hpos. destruct (maxPages options) as [[|m]|]; cbn in Hpos; lia.
Qed.

(** C3, as the spec has it, fails: the fetch of page 1 is rejected, the run
    returns no stats, and the counters of the instance show one page. *)
Example failed_first_page_is_counted :
  firstPageOf firstPageFails = None
  /\ match scrapeStart firstPageFails sqliteOk [] with
     | Returned value s => value = None /\ pages (stats s) = 1
     | Awaiting _ => False
     end.
Proof. vm_compute. repeat split; reflexivity. Qed.

(** *** Every run can be brought to its end *)

Lemma running_zero_or_inFlight ts :
  running ts = 0 \/ exists i t, ts !! i = Some t /\ inFlight t = true.
Proof.
  induction ts as [|a ts [IH|(i & t & Hi & Ht)]]; simpl; auto.
  - destruct (inFlight a) eqn:Ha; [right|left; lia].
    exists 0, a. auto.
  - right. exists (S i), t. auto.
Qed.

Lemma running_zero_lookup ts i t :
  running ts = 0 -> ts !! i = Some t -> inFlight t = false.
Proof.
  revert i. induction ts as [|a ts IH]; intros [|i]; simpl; try discriminate.
  - intros H [= ->]. destruct (inFlight t); [lia|done].
  - intros H Hi. eapply IH; [|eassumption]. lia.
Qed.

Lemma not_allFinished ts :
  allFinished ts = false -> exists i t, ts !! i = Some t /\ isFinished t = false.
Proof.
  unfold allFinished. induction ts as [|a ts IH]; simpl; [discriminate|].
  destruct (isFinished a) eqn:Ha; simpl.
  - intros H. destruct (IH H) as (i & t & Hi & Ht). exists (S i), t. auto.
  - intros _. exists 0, a. auto.
Qed.





(** ** The properties at sample inputs *)

Lemma done_stops_page_fetches_witness :
  done (scraper stoppedInLoop) = true
  /\ exists es,
      trace (scraper (exec quotaOnPage2 sqliteOk [RunTask 0; RunWrite 0; RunTask 0]
                        stoppedInLoop))
      = es ++ trace (scraper stoppedInLoop)
      /\ done (scraper (exec quotaOnPage2 sqliteOk [RunTask 0; RunWrite 0; RunTask 0]
                          stoppedInLoop)) = true
      /\ fetchedPages es = []
      /\ fetchedItems es ⊆ pendingItems (tasks stoppedInLoop).
Proof.
  split; [reflexivity|].
  apply (done_stops_page_fetches quotaOnPage2 sqliteOk stoppedInLoop
           [RunTask 0; RunWrite 0; RunTask 0]).
  reflexivity.
Defined.

Lemma nothing_to_scrape_witness :
  (firstPageOf firstPageFails = None \/ reportedTotalPages firstPageFails = 0)
  /\ exists s,
      scrapeStart firstPageFails sqliteOk [RunTask 0] = Returned None s
      /\ done s = true
      /\ fetchedItems (trace s) = []
      /\ fetchedPages (trace s) = [1]
      /\ items (stats s) = 0
      /\ itemsSuccess (stats s) = 0
      /\ pages (stats s) = (if is402 (firstStatus firstPageFails) then 0 else 1).
Proof.
  split; [left; reflexivity|].
  apply (nothing_to_scrape firstPageFails sqliteOk [RunTask 0]).
  left. reflexivity.
Defined.

Lemma page_tasks_bounded_witness :
  scheduledConf quotaOnPage2 sqliteOk = Some quotaStart
  /\ running (tasks (exec quotaOnPage2 sqliteOk untilQuota quotaStart))
     <= workers (exec quotaOnPage2 sqliteOk untilQuota quotaStart).
Proof.
  split; [vm_compute; reflexivity|].
  apply (page_tasks_bounded quotaOnPage2 sqliteOk quotaStart untilQuota).
  vm_compute. reflexivity.
Defined.


Lemma write_failure_still_counted_witness :
  outputType toSqlite = Some Sqlite
  /\ resolvedElement (Some foundA) = Some itemA
  /\ (db (scraper inLoop) = false \/ is_Some (db_insert sqliteRejects itemA))
  /\ exists s1 s2 reason,
      scrapePageItems_item toSqlite (ret Finished) 1 (listOf [itemA; itemB] 1 1)
        [] [itemB] (Some foundA) (scraper inLoop)
      = (AwaitOnItemScraped 1 (listOf [itemA; itemB] 1 1) [] itemA [itemB] false, s1)
      /\ itemsSuccess (stats s1) = S (itemsSuccess (stats (scraper inLoop)))
      /\ items (stats s1) = S (items (stats (scraper inLoop)))
      /\ onItemScraped toSqlite sqliteRejects itemA s1 = (tt, s2)
      /\ trace s2 = Console (ErrorInserting reason) :: trace (scraper inLoop)
      /\ stats s2 = stats s1
      /\ inMemoryItems s2 = inMemoryItems (scraper inLoop)
      /\ resume toSqlite
           (AwaitOnItemScraped 1 (listOf [itemA; itemB] 1 1) [] itemA [itemB] true)
         = Some (scrapePageItems_from toSqlite 1 (listOf [itemA; itemB] 1 1)
                   ([] ++ [itemA]) [itemB]).
Proof.
  split; [reflexivity|]. split; [reflexivity|]. split; [left; reflexivity|].
  apply (write_failure_still_counted toSqlite sqliteRejects (ret Finished) 1
           (listOf [itemA; itemB] 1 1) [] [itemB] (Some foundA) itemA
           (scraper inLoop)).
  - reflexivity.
  - reflexivity.
  - left. reflexivity.
Defined.

(** *** The scenarios of the specification, run on the model *)

(** Scenario A: three pages, two workers, two items a page, no details. *)
Example scenario_three_pages :
  match scrapeStart threePages sqliteOk (roundRobin 3 12) with
  | Returned value s =>
      value = Some (mkStats 3 3 6 6 3) /\ length (inMemoryItems s) = 6
  | Awaiting _ => False
  end.
Proof. vm_compute. split; reflexivity. Qed.

(** Scenario B: the detail fetch of the only item returns [null] at once. *)
Example scenario_no_key :
  match scrapeStart noKey sqliteOk (roundRobin 1 6) with
  | Returned value s =>
      value = Some (mkStats 1 1 1 0 2) /\ fetchedItems (trace s) = [itemA]
  | Awaiting _ => False
  end.
Proof. vm_compute. split; reflexivity. Qed.

(** Scenario C: page 2 answers 402; the run returns its stats with the error
    kept and reported. *)
Example scenario_quota_on_page_2 :
  match scrapeStart quotaOnPage2 sqliteOk (roundRobin 2 12) with
  | Returned value s =>
      value = Some (mkStats 1 1 2 2 3)
      /\ error s = Some (ErrorValue quotaMessage)
      /\ fetchedPages (trace s) = [2; 1]
  | Awaiting _ => False
  end.
Proof. vm_compute. repeat split; reflexivity. Qed.

(** ** Further properties of the engine *)

(** *** What a page task keeps *)

Lemma countItem_success options itemDetails s :
  itemsSuccess (stats (snd (countItem options itemDetails s)))
  = itemsSuccess (stats s)
    + match resolvedElement itemDetails with Some _ => 1 | None => 0 end.
Proof.
  unfold countItem. unfold_monad.
  destruct (scrapeDetails options && negb (skipped itemDetails));
    destruct (resolvedElement itemDetails); cbn; lia.
Qed.

Lemma item_accounts options P continue page lst details rest itemDetails s t' s' :
  StableTask options P ->
  (forall s1 t1 s2, continue s1 = (t1, s2) ->
     (P s1 -> P s2)
     /\ itemsSuccess (stats s2) = itemsSuccess (stats s1) + pendingWrite t1
     /\ eventualDetails options t1 = Some (detailsFrom options lst rest details)
     /\ t1 <> Finished) ->
  scrapePageItems_item options continue page lst details rest itemDetails s = (t', s') ->
  (P s -> P s')
  /\ itemsSuccess (stats s') = itemsSuccess (stats s) + pendingWrite t'
  /\ eventualDetails options t'
     = Some (detailsAfter (detailsFrom options lst rest) details itemDetails)
  /\ t' <> Finished.
Proof.
  intros HP Hcont. unfold scrapePageItems_item, bind.
  pose proof (stable_item _ _ HP itemDetails s) as Hitem.
  pose proof (countItem_success options itemDetails s) as Hsucc.
  destruct (countItem_frame options itemDetails s) as (_ & _ & _ & Hfst).
  destruct (countItem options itemDetails s) as [stored s1]. cbn [fst snd] in *.
  subst stored. unfold detailsAfter.
  destruct (resolvedElement itemDetails) as [element|].
  - unfold ret. intros [= <- <-]. cbn. split_and!; auto.
  - intros Hk. destruct (Hcont _ _ _ Hk) as (H1 & H2 & H3 & H4).
    split_and!; auto. lia.
Qed.

Lemma from_accounts options P page lst remaining :
  StableTask options P ->
  forall details s t' s',
    scrapePageItems_from options page lst details remaining s = (t', s') ->
    (P s -> P s')
    /\ itemsSuccess (stats s') = itemsSuccess (stats s) + pendingWrite t'
    /\ eventualDetails options t' = Some (detailsFrom options lst remaining details)
    /\ t' <> Finished.
Proof.
  intros HP.
  induction remaining as [|item rest IH]; intros details s t' s';
    cbn [scrapePageItems_from detailsFrom].
  - unfold ret. intros [= <- <-]. cbn. split_and!; auto.
  - destruct (scrapeDetails options) eqn:Hsd.
    + unfold bind, ret. intros [= <- <-]. cbn [pendingWrite eventualDetails].
      split_and!; auto; try (cbn; lia).
      apply (stable_fetchItem _ _ HP); assumption.
    + intros H. eapply item_accounts in H; [exact H|exact HP|].
      intros s1 t1 s2. apply IH.
Qed.

Lemma fetchPage_settled_stable options P page outcome s :
  StableTask options P ->
  fst (fetchPage_settled page outcome s) = settledList outcome
  /\ (P s -> P (snd (fetchPage_settled page outcome s)))
  /\ itemsSuccess (stats (snd (fetchPage_settled page outcome s)))
     = itemsSuccess (stats s).
Proof.
  intros HP. unfold settledList.
  destruct outcome as [value|reason].
  - destruct (is402 (value ≫= list_status)) eqn:H402.
    + unfold fetchPage_settled, bind, ret. rewrite H402.
      split_and!; [reflexivity| |reflexivity].
      intros H. exact (stable_quota _ _ HP (value ≫= list_error) s H).
    + unfold fetchPage_settled, bind, ret. rewrite H402.
      destruct (truthyString (value ≫= list_id)) eqn:Hid.
      * split_and!; [reflexivity| |reflexivity].
        intros H. exact (stable_page _ _ HP true s H).
      * split_and!; [reflexivity| |reflexivity].
        intros H. exact (stable_page _ _ HP false s H).
  - unfold fetchPage_settled, bind, ret. cbn [is402 mbind option_bind].
    split_and!; [reflexivity| |reflexivity].
    intros H.
    exact (stable_page _ _ HP false _
             (stable_log _ _ HP (ErrorFetchingPage page reason) s eq_refl H)).
Qed.

Lemma end_stable options P page details s t' s' :
  StableTask options P ->
  scrapePage_end page details s = (t', s') ->
  t' = Finished
  /\ (P s -> P s')
  /\ itemsSuccess (stats s') = itemsSuccess (stats s).
Proof.
  intros HP. unfold scrapePage_end. unfold bind at 1. unfold getDone.
  destruct (done s).
  - unfold ret. intros [= <- <-]. auto.
  - unfold bind, ret. intros [= <- <-]. split_and!; auto.
    apply (stable_log _ _ HP). reflexivity.
Qed.

Lemma withList_accounts options P page lst s t' s' :
  StableTask options P ->
  scrapePage_withList options page lst s = (t', s') ->
  (P s -> P s')
  /\ itemsSuccess (stats s') = itemsSuccess (stats s) + pendingWrite t'
  /\ (t' = Finished \/ eventualDetails options t' = Some (listDetails options lst)).
Proof.
  intros HP. unfold scrapePage_withList. unfold bind at 1. unfold getDone.
  destruct (done s).
  - unfold ret. intros [= <- <-]. cbn. split_and!; auto.
  - assert (Hend : scrapePage_end page [] s = (t', s') ->
      (P s -> P s')
      /\ itemsSuccess (stats s') = itemsSuccess (stats s) + pendingWrite t'
      /\ t' = Finished).
    { intros H. destruct (end_stable _ _ _ _ _ _ _ HP H) as (-> & H1 & H2).
      cbn. split_and!; auto. lia. }
    destruct lst as [l|];
      [|intros H; destruct (Hend H) as (? & ? & ?); auto].
    cbn [listDetails].
    destruct (list_elements l) as [elements|];
      [|intros H; destruct (Hend H) as (? & ? & ?); auto].
    intros H. destruct (from_accounts _ _ _ _ _ HP _ _ _ _ H) as (H1 & H2 & H3 & H4).
    auto.
Qed.

Lemma fetched_tail options P page lst details rest itemDetails s t' s' :
  StableTask options P ->
  (if is402 (itemDetails ≫= resp_status)
   then setDone ;;
        setError (errorOrQuota (itemDetails ≫= resp_error)) ;;
        ret (AwaitScrapePageItems page details)
   else scrapePageItems_item options (scrapePageItems_from options page lst details rest)
          page lst details rest itemDetails) s = (t', s') ->
  (P s -> P s')
  /\ itemsSuccess (stats s') = itemsSuccess (stats s) + pendingWrite t'
  /\ eventualDetails options t'
     = Some (if is402 (itemDetails ≫= resp_status) then details
             else detailsAfter (detailsFrom options lst rest) details itemDetails)
  /\ t' <> Finished.
Proof.
  intros HP. destruct (is402 (itemDetails ≫= resp_status)).
  - unfold bind, ret. intros [= <- <-]. cbn [pendingWrite eventualDetails].
    split_and!; auto; try (cbn; lia).
    intros H. exact (stable_quota _ _ HP _ s H).
  - intros H. eapply item_accounts in H; [exact H|exact HP|].
    intros s1 t1 s2. apply (from_accounts _ _ _ _ _ HP).
Qed.

Lemma fetched_accounts options P page lst details item rest s t' s' :
  StableTask options P ->
  scrapePageItems_fetched options page lst details rest (fetchItem options item) s
  = (t', s') ->
  (P s -> P s')
  /\ itemsSuccess (stats s') = itemsSuccess (stats s) + pendingWrite t'
  /\ eventualDetails options t'
     = eventualDetails options (AwaitFetchItem page lst details item rest)
  /\ t' <> Finished.
Proof.
  intros HP. cbn [eventualDetails].
  destruct (fetchItem options item) as [[value|reason]|]; cbn [itemDetailsOf]; intros H.
  - exact (fetched_tail options P page lst details rest value s t' s' HP H).
  - destruct (fetched_tail options P page lst details rest None
                (snd (emit (Console (ErrorScrapingItem reason)) s)) t' s' HP H)
      as (H1 & H2 & H3 & H4).
    split_and!; auto.
    intros HPs. apply H1. apply (stable_log _ _ HP); [reflexivity|exact HPs].
  - exact (fetched_tail options P page lst details rest None s t' s' HP H).
Qed.

Lemma resume_accounts options P t m s t' s' :
  StableTask options P ->
  resume options t = Some m -> m s = (t', s') ->
  (P s -> P s')
  /\ pendingWrite t = 0
  /\ itemsSuccess (stats s') = itemsSuccess (stats s) + pendingWrite t'
  /\ (t' = Finished \/ eventualDetails options t' = eventualDetails options t).
Proof.
  intros HP.
  destruct t as [page sl|page|page lst|page lst details item rest
                |page lst details element rest written|page details|];
    cbn [resume]; try discriminate.
  - intros [= <-]. unfold scrapePage_start. unfold bind at 1. unfold getDone.
    destruct (done s).
    + unfold ret. intros [= <- <-]. cbn. split_and!; auto.
    + destruct sl as [l|].
      * intros H. destruct (withList_accounts _ _ _ _ _ _ _ HP H) as (H1 & H2 & H3).
        cbn. split_and!; auto.
      * unfold bind, ret. intros [= <- <-]. cbn. split_and!; auto.
        apply (stable_fetchList _ _ HP).
  - intros [= <-]. unfold bind, ret.
    destruct (fetchPage_settled_stable options P page (fetchList options page) s HP)
      as (H1 & H2 & H3).
    destruct (fetchPage_settled page (fetchList options page) s) as [result s1].
    cbn [fst snd] in *. intros [= <- <-]. cbn. subst result.
    split_and!; auto. lia.
  - intros [= <-] H. destruct (withList_accounts _ _ _ _ _ _ _ HP H) as (H1 & H2 & H3).
    cbn. split_and!; auto.
  - intros [= <-] H. destruct (fetched_accounts _ _ _ _ _ _ _ _ _ _ HP H)
      as (H1 & H2 & H3 & H4).
    cbn [pendingWrite]. split_and!; auto.
  - destruct written; [|discriminate].
    intros [= <-] H. unfold scrapePageItems_stored in H.
    destruct (from_accounts _ _ _ _ _ HP _ _ _ _ H) as (H1 & H2 & H3 & H4).
    cbn. split_and!; auto.
  - intros [= <-] H. destruct (end_stable _ _ _ _ _ _ _ HP H) as (-> & H1 & H2).
    cbn. split_and!; auto. lia.
Qed.

(** *** What a run keeps *)

Lemma pendingWrites_insert ts : forall i t t',
  ts !! i = Some t ->
  pendingWrites (<[i := t']> ts) + pendingWrite t
  = pendingWrites ts + pendingWrite t'.
Proof.
  induction ts as [|a ts IH]; intros [|i] t t' H; simpl in *; try discriminate.
  - injection H as ->. lia.
  - specialize (IH _ _ t' H). lia.
Qed.

Lemma storeEvents_app es1 es2 :
  storeEvents (es1 ++ es2) = storeEvents es1 ++ storeEvents es2.
Proof. unfold storeEvents. apply bind_app. Qed.

Lemma insertedItems_app es1 es2 :
  insertedItems (es1 ++ es2) = insertedItems es1 ++ insertedItems es2.
Proof. unfold insertedItems. apply bind_app. Qed.

(** The code of a page task leaves the writes of the store alone. *)
Lemma writesDone_stableTask options n :
  StableTask options (fun s => writesDone options s = n).
Proof.
  unfold writesDone. split; intros; cbn in *;
    try (destruct (isJson (outputType options)); assumption).
  - destruct line; try discriminate; destruct (isJson (outputType options)); assumption.
  - unfold when. destruct b; cbn; destruct (isJson (outputType options)); assumption.
  - unfold countItem. unfold_monad.
    destruct (scrapeDetails options && negb (skipped itemDetails)),
      (resolvedElement itemDetails); cbn;
      destruct (isJson (outputType options)); assumption.
Qed.

Lemma hasStore_json options :
  outputType options = Some Json ->
  isJson (outputType options) || isSqlite (outputType options) = true.
Proof. intros ->. reflexivity. Qed.

Lemma hasStore_sqlite options :
  outputType options = Some Sqlite ->
  isJson (outputType options) || isSqlite (outputType options) = true.
Proof. intros ->. reflexivity. Qed.

Lemma onItemScraped_writes options sqlite element s :
  isJson (outputType options) || isSqlite (outputType options) = true ->
  writesDone options (snd (onItemScraped options sqlite element s))
  = S (writesDone options s)
  /\ stats (snd (onItemScraped options sqlite element s)) = stats s.
Proof.
  intros Ho. unfold writesDone, onItemScraped, insertSqliteItem.
  unfold_monad.
  destruct (outputType options) as [[| |]|]; cbn [isJson isSqlite] in *;
    try discriminate.
  - cbn. rewrite length_app. cbn. split; [lia|reflexivity].
  - destruct (db s) eqn:Hdb; [destruct (db_insert sqlite element)|]; cbn;
      rewrite ?Hdb; cbn; auto.
Qed.

Lemma settled_inMemory sqlite s :
  inMemoryItems (snd (createSqliteDatabase_resume sqlite s)) = inMemoryItems s.
Proof. apply createSqliteDatabase_resume_run. Qed.

Lemma step_accounts options sqlite P l c c' :
  Stable options sqlite P ->
  step options sqlite l c = Some c' ->
  (P (scraper c) -> P (scraper c'))
  /\ (isJson (outputType options) || isSqlite (outputType options) = true ->
      itemsSuccess (stats (scraper c))
      = writesDone options (scraper c) + pendingWrites (tasks c) ->
      itemsSuccess (stats (scraper c'))
      = writesDone options (scraper c') + pendingWrites (tasks c'))
  /\ (forall j t d,
        tasks c !! j = Some t -> eventualDetails options t = Some d ->
        exists t', tasks c' !! j = Some t'
                   /\ (t' = Finished \/ eventualDetails options t' = Some d)).
Proof.
  intros HP. destruct c as [s w ts]. destruct l as [i|i|];
    cbn [step tasks scraper workers].
  - destruct (ts !! i) as [t|] eqn:Hi; [|discriminate].
    destruct (inFlight t || hasFreeWorker w ts); [|discriminate].
    destruct (resume options t) as [m|] eqn:Hm; [|discriminate].
    destruct (m s) as [t' s'] eqn:Hms. intros [= <-].
    cbn [tasks scraper workers].
    destruct (resume_accounts _ _ _ _ _ _ _ (stable_task _ _ _ HP) Hm Hms)
      as (H1 & H2 & H3 & H4).
    destruct (resume_accounts _ _ _ _ _ _ _
                (writesDone_stableTask options (writesDone options s)) Hm Hms)
      as (Hw & _).
    pose proof (pendingWrites_insert ts i t t' Hi) as Hpw.
    split_and!; auto.
    + intros _ Hacc. rewrite (Hw eq_refl). lia.
    + intros j u d Hj Hd. destruct (decide (i = j)) as [<-|Hne].
      * rewrite Hi in Hj. injection Hj as <-.
        exists t'. split; [apply list_lookup_insert_eq; eapply lookup_lt_Some; eassumption|].
        destruct H4 as [->|H4]; [auto|right; congruence].
      * exists u. rewrite list_lookup_insert_ne by assumption. auto.
  - destruct (ts !! i) as [t|] eqn:Hi; [|discriminate].
    destruct t as [| | | |page lst details element rest written| |]; try discriminate.
    destruct written; [discriminate|].
    destruct (writeReady options s) eqn:Hready; [|discriminate].
    pose proof (stable_write _ _ _ HP element s Hready) as Hwrite.
    pose proof (onItemScraped_writes options sqlite element s) as Hdone.
    destruct (onItemScraped options sqlite element s) as [u s'].
    cbn [snd] in *. intros [= <-]. cbn [tasks scraper workers].
    pose proof (pendingWrites_insert ts i _
                  (AwaitOnItemScraped page lst details element rest true) Hi) as Hpw.
    cbn [pendingWrite] in Hpw.
    split_and!; auto.
    + intros Ho Hacc. destruct (Hdone Ho) as [-> ->]. lia.
    + intros j u0 d Hj Hd. destruct (decide (i = j)) as [<-|Hne].
      * rewrite Hi in Hj. injection Hj as <-.
        eexists. split; [apply list_lookup_insert_eq; eapply lookup_lt_Some; eassumption|].
        right. exact Hd.
      * exists u0. rewrite list_lookup_insert_ne by assumption. auto.
  - destruct (isPending (sqliteDatabaseOpenPromise s)) eqn:Hp; [|discriminate].
    pose proof (stable_settle _ _ _ HP s Hp) as Hsettle.
    destruct (createSqliteDatabase_resume_run sqlite s) as (Ht & _ & _ & Hs & _).
    pose proof (settled_inMemory sqlite s) as Hmem.
    destruct (createSqliteDatabase_resume sqlite s) as [u s'].
    cbn [snd] in *. intros [= <-]. cbn [tasks scraper workers].
    split_and!; auto.
    + intros _. unfold writesDone. rewrite Hs, Ht, Hmem. auto.
    + intros j t d Hj Hd. exists t. auto.
Qed.

Lemma step_finished options sqlite l c c' j :
  step options sqlite l c = Some c' ->
  tasks c !! j = Some Finished -> tasks c' !! j = Some Finished.
Proof.
  destruct c as [s w ts]. destruct l as [i|i|]; cbn [step tasks scraper workers].
  - destruct (ts !! i) as [t|] eqn:Hi; [|discriminate].
    destruct (inFlight t || hasFreeWorker w ts); [|discriminate].
    destruct (resume options t) as [m|] eqn:Hm; [|discriminate].
    destruct (m s) as [t' s']. intros [= <-] Hj. cbn [tasks].
    destruct (decide (i = j)) as [<-|Hne].
    + rewrite Hi in Hj. injection Hj as ->. discriminate.
    + by rewrite list_lookup_insert_ne.
  - destruct (ts !! i) as [t|] eqn:Hi; [|discriminate].
    destruct t as [| | | |page lst details element rest written| |]; try discriminate.
    destruct written; [discriminate|].
    destruct (writeReady options s); [|discriminate].
    destruct (onItemScraped options sqlite element s) as [u s'].
    intros [= <-] Hj. cbn [tasks].
    destruct (decide (i = j)) as [<-|Hne].
    + rewrite Hi in Hj. discriminate.
    + by rewrite list_lookup_insert_ne.
  - destruct (isPending _); [|discriminate].
    destruct (createSqliteDatabase_resume sqlite s) as [u s'].
    intros [= <-] Hj. exact Hj.
Qed.

Lemma step_finished_stays options sqlite schedule : forall c j,
  tasks c !! j = Some Finished ->
  tasks (exec options sqlite schedule c) !! j = Some Finished.
Proof.
  induction schedule as [|l schedule IH]; intros c j Hj; cbn [exec]; [exact Hj|].
  destruct (step options sqlite l c) as [c1|] eqn:Hstep;
    cbn [default from_option id]; [|apply IH; exact Hj].
  apply IH. eapply step_finished; eassumption.
Qed.

Lemma exec_accounts options sqlite P schedule : forall c,
  Stable options sqlite P ->
  (P (scraper c) -> P (scraper (exec options sqlite schedule c)))
  /\ (isJson (outputType options) || isSqlite (outputType options) = true ->
      itemsSuccess (stats (scraper c))
      = writesDone options (scraper c) + pendingWrites (tasks c) ->
      itemsSuccess (stats (scraper (exec options sqlite schedule c)))
      = writesDone options (scraper (exec options sqlite schedule c))
        + pendingWrites (tasks (exec options sqlite schedule c)))
  /\ (forall j t d,
        tasks c !! j = Some t -> eventualDetails options t = Some d ->
        exists t', tasks (exec options sqlite schedule c) !! j = Some t'
                   /\ (t' = Finished \/ eventualDetails options t' = Some d)).
Proof.
  induction schedule as [|l schedule IH]; intros c HP; cbn [exec].
  - split_and!; auto. intros j t d Hj Hd. exists t. auto.
  - destruct (step options sqlite l c) as [c1|] eqn:Hstep;
      cbn [default from_option id]; [|apply IH; exact HP].
    destruct (step_accounts _ _ _ _ _ _ HP Hstep) as (H1 & H2 & H3).
    destruct (IH c1 HP) as (H1' & H2' & H3').
    split_and!; auto.
    intros j t d Hj Hd. destruct (H3 j t d Hj Hd) as (t1 & Hj1 & [->|Hd1]).
    + exists Finished. split; [|auto].
      apply step_finished_stays. exact Hj1.
    + exact (H3' j t1 d Hj1 Hd1).
Qed.

(** *** The instance when the pages are submitted, and at the fatal start *)

Lemma truthy_errorOrQuota e : truthyError (Some (errorOrQuota e)) = true.
Proof.
  unfold errorOrQuota. destruct (truthyString e) eqn:He; [|reflexivity].
  destruct e as [x|]; [|discriminate]. exact He.
Qed.

Lemma fetchPage_first_state options :
  let (fp, s1) := fetchPage options 1 newScraper in
  inMemoryItems s1 = []
  /\ db s1 = false
  /\ sqliteDatabaseOpenPromise s1 = NotCreated
  /\ items (stats s1) = 0
  /\ itemsSuccess (stats s1) = 0
  /\ requests (stats s1) = pages (stats s1)
  /\ storeEvents (trace s1) = []
  /\ fetchedItems (trace s1) = []
  /\ (DbClose ∉ trace s1)
  /\ (done s1 = true -> truthyError (error s1) = true)
  /\ (is_Some fp ->
      pages (stats s1) = 1 /\ done s1 = false /\ error s1 = None
      /\ trace s1 = [CallFetchList 1]).
Proof.
  unfold fetchPage, fetchPage_call, fetchPage_settled.
  destruct (fetchList options 1) as [[l|]|reason]; unfold_monad;
    cbn [mbind option_bind];
    try destruct (is402 (list_status l)) eqn:H402;
    try destruct (truthyString (list_id l)); cbn.
  all: split_and!; auto; try set_solver; try (intros [? ?]; discriminate).
  all: intros _; apply truthy_errorOrQuota.
Qed.

Lemma pendingWrites_pageTasks fp total : pendingWrites (pageTasks fp total) = 0.
Proof.
  unfold pageTasks. induction (seq 1 total) as [|page l IH]; simpl; auto.
Qed.

Lemma scheduledConf_state options sqlite c0 :
  scheduledConf options sqlite = Some c0 ->
  stats (scraper c0) = mkStats 1 1 0 0 1
  /\ inMemoryItems (scraper c0) = []
  /\ db (scraper c0) = false
  /\ (exists n m, trace (scraper c0) = [Console (InfoScraping n m); CallFetchList 1])
  /\ pendingWrites (tasks c0) = 0
  /\ running (tasks c0) = 0
  /\ (done (scraper c0), error (scraper c0),
      sqliteDatabaseOpenPromise (scraper c0))
     = (if isSqlite (outputType options)
        then match db_open sqlite with
             | OpenThrows reason => (true, Some (sqliteError reason), Fulfilled)
             | _ => (false, None, Pending)
             end
        else (false, None, NotCreated)).
Proof.
  unfold scheduledConf, scrapeStart_begin. unfold bind at 1.
  pose proof (fetchPage_first_state options) as H.
  destruct (fetchPage options 1 newScraper) as [fp s1].
  destruct H as (Hm & Hdb & Hp & Hi & His & Hr & _ & _ & _ & _ & Hsome).
  destruct (negb (bool_decide (is_Some fp)) || (totalPagesOf options fp =? 0)%nat)
    eqn:Hcond.
  - unfold reportError. unfold_monad.
    destruct (error s1) as [[[|a e]|es]|]; cbn; discriminate.
  - apply orb_false_iff in Hcond as [Hc1 _].
    apply negb_false_iff, bool_decide_eq_true in Hc1.
    destruct (Hsome Hc1) as (Hpg & Hd & He & Ht).
    unfold createSqliteDatabase_call. unfold_monad.
    destruct (isSqlite (outputType options)); [destruct (db_open sqlite)|]; cbn.
    all: intros [= <-]; cbn; rewrite ?Hm, ?Hdb, ?Hp, ?Hi, ?His, ?Ht, ?Hd, ?He.
    all: rewrite pendingWrites_pageTasks, running_pageTasks.
    all: split_and!; eauto.
    all: unfold pagesSuccessOne, pagesOne; cbn; rewrite Hi, His, Hr, Hpg;
      reflexivity.
Qed.

Lemma exited_state options sqlite s :
  scrapeStart_begin options sqlite newScraper = (Exited, s) ->
  inMemoryItems s = []
  /\ db s = false
  /\ items (stats s) = 0
  /\ itemsSuccess (stats s) = 0
  /\ requests (stats s) = pages (stats s)
  /\ storeEvents (trace s) = []
  /\ fetchedItems (trace s) = []
  /\ (DbClose ∉ trace s).
Proof.
  unfold scrapeStart_begin. unfold bind at 1.
  pose proof (fetchPage_first_state options) as H.
  destruct (fetchPage options 1 newScraper) as [fp s1].
  destruct H as (Hm & Hdb & Hp & Hi & His & Hr & Hst & Hfi & Hcl & _).
  destruct (negb (bool_decide (is_Some fp)) || (totalPagesOf options fp =? 0)%nat).
  - unfold reportError. unfold_monad.
    destruct (error s1) as [[[|a e]|es]|]; cbn; intros [= <-]; cbn;
      rewrite ?Hst, ?Hfi; split_and!; auto; set_solver.
  - unfold createSqliteDatabase_call. unfold_monad.
    destruct (isSqlite (outputType options)); [destruct (db_open sqlite)|]; cbn;
      discriminate.
Qed.

(** *** Four properties every run keeps *)

Lemma requestsOk_stable options sqlite : Stable options sqlite (requestsOk options).
Proof.
  unfold requestsOk. split; [split|..].
  - intros line s _ H. exact H.
  - intros page s H. exact H.
  - intros item s Hsd (H1 & H2 & H3). cbn. split_and!; auto. congruence.
  - intros e s H. exact H.
  - intros b s (H1 & H2 & H3). unfold when. destruct b; cbn.
    all: split_and!; try lia; intros Hsd; destruct (H3 Hsd); split; [lia|auto].
  - intros itemDetails s (H1 & H2 & H3). unfold countItem. unfold_monad.
    destruct (scrapeDetails options) eqn:Hsd;
      destruct (negb (skipped itemDetails)), (resolvedElement itemDetails); cbn.
    all: split_and!; try lia; try discriminate.
    all: intros _; destruct (H3 eq_refl); split; [lia|auto].
  - intros element s _ H.
    destruct (onItemScraped_run options sqlite element s)
      as (es & Ht & _ & _ & Hs & _ & _ & Hfi).
    destruct H as (H1 & H2 & H3). rewrite Hs, Ht, fetchedItems_app, Hfi. auto.
  - intros s _ H.
    destruct (createSqliteDatabase_resume_run sqlite s) as (Ht & _ & _ & Hs & _).
    destruct H as (H1 & H2 & H3). rewrite Hs, Ht. auto.
Qed.

Lemma onItemScraped_frame options sqlite element s :
  let s' := snd (onItemScraped options sqlite element s) in
  done s' = done s /\ error s' = error s /\ db s' = db s
  /\ sqliteDatabaseOpenPromise s' = sqliteDatabaseOpenPromise s.
Proof.
  unfold onItemScraped, insertSqliteItem. unfold_monad.
  destruct (isJson (outputType options)), (isSqlite (outputType options)),
    (db s) eqn:Hdb, (db_insert sqlite element); cbn; rewrite ?Hdb; cbn; auto.
Qed.

Lemma errorKept_stable options sqlite : Stable options sqlite errorKept.
Proof.
  unfold errorKept. split; [split|..].
  - intros line s _ H. exact H.
  - intros page s H. exact H.
  - intros item s _ H. exact H.
  - intros e s _ _. apply truthy_errorOrQuota.
  - intros b s H. unfold when. destruct b; exact H.
  - intros itemDetails s H. unfold countItem. unfold_monad.
    destruct (scrapeDetails options && negb (skipped itemDetails)),
      (resolvedElement itemDetails); exact H.
  - intros element s _ H.
    destruct (onItemScraped_frame options sqlite element s) as (-> & -> & _).
    exact H.
  - intros s _ H.
    unfold createSqliteDatabase_resume, createSqliteDatabase_opened,
      createSqliteDatabase_settled. unfold_monad.
    destruct (sqliteDatabaseOpenPromise s), (opens sqlite), (db_open sqlite);
      cbn; auto.
Qed.

Lemma storeSound_stable options sqlite : Stable options sqlite (storeSound sqlite).
Proof.
  unfold storeSound. split; [split|..].
  - intros line s _ (H1 & H2 & H3 & H4). cbn. split_and!; auto. set_solver.
  - intros page s (H1 & H2 & H3 & H4). cbn. split_and!; auto. set_solver.
  - intros item s _ (H1 & H2 & H3 & H4). cbn. split_and!; auto. set_solver.
  - intros e s H. exact H.
  - intros b s H. unfold when. destruct b; exact H.
  - intros itemDetails s H. unfold countItem. unfold_monad.
    destruct (scrapeDetails options && negb (skipped itemDetails)),
      (resolvedElement itemDetails); exact H.
  - intros element s _ (H1 & H2 & H3 & H4).
    unfold onItemScraped, insertSqliteItem. unfold_monad.
    destruct (isJson (outputType options)), (isSqlite (outputType options)),
      (db s) eqn:Hdb, (db_insert sqlite element) eqn:Hins;
      cbn; rewrite ?Hdb; cbn; split_and!; auto; try discriminate; try set_solver.
  - intros s Hp (H1 & H2 & H3 & H4).
    destruct (createSqliteDatabase_resume_run sqlite s)
      as (Ht & _ & _ & _ & _ & _ & [[_ Hdb]|(_ & _ & Ho & Hdb & _)]).
    + rewrite Ht, Hdb. split_and!; auto.
    + rewrite Ht, Hdb. split_and!; auto. discriminate.
Qed.

Lemma end_store options s :
  let s' := snd (scrapeStart_end options s) in
  inMemoryItems s' = inMemoryItems s
  /\ storeEvents (trace s') = storeEvents (trace s)
  /\ insertedItems (trace s') = insertedItems (trace s)
  /\ (isJson (outputType options) = true ->
      OutputJson (stats s) (inMemoryItems s) ∈ trace s')
  /\ (DbClose ∈ trace s' -> db s = true \/ DbClose ∈ trace s).
Proof.
  unfold scrapeStart_end, finalize, reportError. unfold_monad.
  destruct (isJson (outputType options)), (db s) eqn:Hdb; cbn; rewrite ?Hdb; cbn.
  all: destruct (error s) as [[[|a e]|es]|] eqn:He; cbn; unfold_monad; cbn.
  all: split_and!; auto; try discriminate; try set_solver.
Qed.

Lemma allFinished_pendingWrites ts : allFinished ts = true -> pendingWrites ts = 0.
Proof.
  unfold allFinished. induction ts as [|t ts IH]; simpl; [done|].
  destruct t; simpl; try discriminate. exact IH.
Qed.

(** A run of [scrapeStart] keeps what the code of the tasks, the write queue
    and the opening of the database keep, if it holds when the pages are
    submitted. *)
Lemma scheduled_keeps options sqlite P c0 schedule :
  Stable options sqlite P ->
  scheduledConf options sqlite = Some c0 ->
  P (scraper c0) -> P (scraper (exec options sqlite schedule c0)).
Proof.
  intros HP _. apply (exec_accounts options sqlite P schedule c0 HP).
Qed.

Lemma scrapeStart_cases options sqlite schedule :
  (exists s, scrapeStart_begin options sqlite newScraper = (Exited, s)
             /\ scrapeStart options sqlite schedule = Returned None s)
  \/ (exists c0, scheduledConf options sqlite = Some c0
        /\ scrapeStart options sqlite schedule
           = (if allFinished (tasks (exec options sqlite schedule c0))
              then Returned
                     (Some (fst (scrapeStart_end options
                                   (scraper (exec options sqlite schedule c0)))))
                     (snd (scrapeStart_end options
                             (scraper (exec options sqlite schedule c0))))
              else Awaiting (exec options sqlite schedule c0))).
Proof.
  unfold scrapeStart, scheduledConf.
  destruct (scrapeStart_begin options sqlite newScraper) as [[|w ts] s].
  - left. eauto.
  - right. eexists. split; [reflexivity|].
    destruct (allFinished _); [|reflexivity].
    destruct (scrapeStart_end options _); reflexivity.
Qed.

(** X1. [requests] counts every page that [pages] counts and at most one
    request more for each item counted; without detail scraping it counts the
    pages only, and [fetchItem] is never called.  This holds for the
    instance after every schedule. *)
Theorem requests_accounted (options : ListingScraperOptions)
    (sqlite : SqliteEnv) (schedule : list Label) :
  requestsOk options (scraperOf (scrapeStart options sqlite schedule)).
Proof.
  destruct (scrapeStart_cases options sqlite schedule)
    as [(s & Hb & ->)|(c0 & H0 & ->)].
  - destruct (exited_state _ _ _ Hb) as (_ & _ & Hi & _ & Hr & _ & Hfi & _).
    unfold requestsOk. cbn. split_and!; auto; lia.
  - assert (Hc : requestsOk options (scraper (exec options sqlite schedule c0))).
    { apply (scheduled_keeps _ _ _ _ _ (requestsOk_stable options sqlite) H0).
      destruct (scheduledConf_state _ _ _ H0) as (Hs & _ & _ & (n & m & Ht) & _).
      unfold requestsOk. rewrite Hs, Ht. cbn. split_and!; auto. }
    destruct (allFinished _); [|exact Hc]. cbn [scraperOf].
    pose proof (end_of_run options (scraper (exec options sqlite schedule c0))) as He.
    destruct (scrapeStart_end options _) as [v s']. cbn [snd].
    destruct He as (_ & Hs & _ & _ & _ & es & Ht & _ & Hfi & _).
    unfold requestsOk in *. rewrite Hs, Ht, fetchedItems_app, Hfi. exact Hc.
Qed.

Lemma scheduled_accounted options sqlite c0 schedule :
  isJson (outputType options) || isSqlite (outputType options) = true ->
  scheduledConf options sqlite = Some c0 ->
  itemsSuccess (stats (scraper (exec options sqlite schedule c0)))
  = writesDone options (scraper (exec options sqlite schedule c0))
    + pendingWrites (tasks (exec options sqlite schedule c0)).
Proof.
  intros Ho H0.
  destruct (exec_accounts options sqlite _ schedule c0
              (requestsOk_stable options sqlite)) as (_ & Hacc & _).
  apply Hacc; [exact Ho|].
  destruct (scheduledConf_state _ _ _ H0) as (Hs & Hm & _ & (n & m & Ht) & Hp & _).
  unfold writesDone. rewrite Hs, Hm, Ht, Hp. cbn.
  destruct (isJson (outputType options)); reflexivity.
Qed.

Lemma documents_app es1 es2 : documents (es1 ++ es2) = documents es1 ++ documents es2.
Proof. unfold documents. apply bind_app. Qed.

Lemma closings_app es1 es2 : closings (es1 ++ es2) = closings es1 ++ closings es2.
Proof. unfold closings. apply bind_app. Qed.

Lemma noOutput_stable options sqlite : Stable options sqlite noOutput.
Proof.
  unfold noOutput. split; [split|..].
  - intros line s _ H. exact H.
  - intros page s H. exact H.
  - intros item s _ H. exact H.
  - intros e s H. exact H.
  - intros b s H. unfold when. destruct b; exact H.
  - intros itemDetails s H. unfold countItem. unfold_monad.
    destruct (scrapeDetails options && negb (skipped itemDetails)),
      (resolvedElement itemDetails); exact H.
  - intros element s _ H.
    unfold onItemScraped, insertSqliteItem. unfold_monad.
    destruct (isJson (outputType options)), (isSqlite (outputType options)),
      (db s) eqn:Hdb, (db_insert sqlite element) eqn:Hins;
      cbn; rewrite ?Hdb; cbn; exact H.
  - intros s _ H.
    destruct (createSqliteDatabase_resume_run sqlite s) as (-> & _). exact H.
Qed.

Lemma begin_noOutput options sqlite :
  noOutput (snd (scrapeStart_begin options sqlite newScraper)).
Proof.
  unfold scrapeStart_begin, fetchPage, fetchPage_call, fetchPage_settled,
    reportError, createSqliteDatabase_call, totalPagesOf.
  destruct (fetchList options 1) as [[l|]|reason]; unfold_monad;
    cbn [mbind option_bind negb orb bool_decide];
    try destruct (is402 (list_status l)) eqn:H402;
    try destruct (truthyString (list_id l)); cbn.
  all: repeat match goal with
       | |- context [if ?b then _ else _] => destruct b eqn:?; cbn
       | |- context [match ?e with _ => _ end] =>
           match type of e with
           | option _ => destruct e eqn:?; cbn
           | OpenOutcome => destruct e eqn:?; cbn
           | ErrorSlot => destruct e eqn:?; cbn
           | string => destruct e eqn:?; cbn
           end
       end.
  all: unfold noOutput; cbn; auto.
Qed.

Lemma end_output options s :
  noOutput s ->
  let (value, s') := scrapeStart_end options s in
  documents (trace s')
  = (if isJson (outputType options) then [(value, inMemoryItems s')] else [])
  /\ closings (trace s') = (if db s' then [DbClose] else []).
Proof.
  intros [Hdoc Hcl].
  unfold scrapeStart_end, finalize, reportError. unfold_monad.
  destruct (isJson (outputType options)), (db s) eqn:Hdb; cbn; rewrite ?Hdb; cbn.
  all: destruct (error s) as [[[|a e]|es]|] eqn:He; cbn; unfold_monad; cbn.
  all: rewrite ?Hdb; unfold documents, closings in *; rewrite ?bind_cons; cbn.
  all: rewrite ?Hdoc, ?Hcl; auto.
Qed.

(** X2. With JSON output, the items counted in [itemsSuccess] are the items
    held for the document and those still in the write queue.  A run that
    returns its stats has called [fs.outputJson] exactly once, with the stats
    it returns and a list of [itemsSuccess] elements.  The fatal start, and
    a run still waiting for its pages, have made no such call.  What is
    counted is the call: [finalize] does not await it, and nothing is said
    of the file. *)
Theorem json_document_complete (options : ListingScraperOptions)
    (sqlite : SqliteEnv) (schedule : list Label) :
  outputType options = Some Json ->
  match scrapeStart options sqlite schedule with
  | Returned (Some value) s =>
      documents (trace s) = [(value, inMemoryItems s)]
      /\ OutputJson value (inMemoryItems s) ∈ trace s
      /\ length (inMemoryItems s) = itemsSuccess value
  | Returned None s =>
      documents (trace s) = []
      /\ inMemoryItems s = [] /\ itemsSuccess (stats s) = 0
  | Awaiting c =>
      documents (trace (scraper c)) = []
      /\ itemsSuccess (stats (scraper c))
         = length (inMemoryItems (scraper c)) + pendingWrites (tasks c)
  end.
Proof.
  intros Ho.
  destruct (scrapeStart_cases options sqlite schedule)
    as [(s & Hb & ->)|(c0 & H0 & ->)].
  - destruct (exited_state _ _ _ Hb) as (Hm & _ & _ & His & _).
    pose proof (begin_noOutput options sqlite) as [Hdoc _].
    rewrite Hb in Hdoc. auto.
  - pose proof (scheduled_accounted options sqlite c0 schedule
                  (hasStore_json _ Ho) H0) as Hacc.
    unfold writesDone in Hacc. rewrite Ho in Hacc. cbn [isJson] in Hacc.
    assert (Hno : noOutput (scraper (exec options sqlite schedule c0))).
    { apply (scheduled_keeps _ _ _ _ _ (noOutput_stable options sqlite) H0).
      destruct (scheduledConf_state _ _ _ H0) as (_ & _ & _ & (n & m & Ht) & _).
      unfold noOutput. rewrite Ht. split; reflexivity. }
    destruct (allFinished _) eqn:Hfin; [|split; [exact (proj1 Hno)|exact Hacc]].
    rewrite (allFinished_pendingWrites _ Hfin) in Hacc.
    pose proof (end_of_run options (scraper (exec options sqlite schedule c0))) as He.
    pose proof (end_store options (scraper (exec options sqlite schedule c0))) as Hst.
    pose proof (end_output options _ Hno) as Hout.
    destruct (scrapeStart_end options _) as [v s']. cbn [fst snd] in *.
    destruct He as (Hv & _). destruct Hst as (Hm & _ & _ & Hjson & _).
    destruct Hout as [Hdoc _]. rewrite Ho in Hdoc. cbn [isJson] in Hdoc.
    split_and!; [exact Hdoc| |rewrite Hm, Hv; lia].
    rewrite Hm, Hv. apply Hjson. rewrite Ho. reflexivity.
Qed.

(** X3. With SQLite output, every item counted in [itemsSuccess] of a run
    that returns went through the write queue: the rows inserted and the
    insert failures logged are together [itemsSuccess]. *)
Theorem sqlite_items_accounted (options : ListingScraperOptions)
    (sqlite : SqliteEnv) (schedule : list Label) :
  outputType options = Some Sqlite ->
  match scrapeStart options sqlite schedule with
  | Returned (Some value) s =>
      itemsSuccess value = length (storeEvents (trace s))
      /\ inMemoryItems s = []
  | Returned None s => storeEvents (trace s) = [] /\ itemsSuccess (stats s) = 0
  | Awaiting c =>
      itemsSuccess (stats (scraper c))
      = length (storeEvents (trace (scraper c))) + pendingWrites (tasks c)
  end.
Proof.
  intros Ho.
  destruct (scrapeStart_cases options sqlite schedule)
    as [(s & Hb & ->)|(c0 & H0 & ->)].
  - destruct (exited_state _ _ _ Hb) as (_ & _ & _ & His & _ & Hst & _). auto.
  - pose proof (scheduled_accounted options sqlite c0 schedule
                  (hasStore_sqlite _ Ho) H0) as Hacc.
    unfold writesDone in Hacc. rewrite Ho in Hacc. cbn [isJson] in Hacc.
    destruct (allFinished _) eqn:Hfin; [|exact Hacc].
    rewrite (allFinished_pendingWrites _ Hfin) in Hacc.
    assert (Hmem : inMemoryItems (scraper (exec options sqlite schedule c0)) = []).
    { apply (scheduled_keeps options sqlite (fun s => inMemoryItems s = [])
               c0 schedule); [|exact H0|].
      - split; [split|..]; intros; auto.
        + unfold when. destruct b; assumption.
        + unfold countItem. unfold_monad.
          destruct (scrapeDetails options && negb (skipped itemDetails)),
            (resolvedElement itemDetails); assumption.
        + unfold onItemScraped, insertSqliteItem. rewrite Ho. unfold_monad.
          cbn [isJson isSqlite].
          destruct (db s) eqn:Hdb; [destruct (db_insert sqlite element)|]; cbn;
            rewrite ?Hdb; assumption.
        + rewrite settled_inMemory. assumption.
      - destruct (scheduledConf_state _ _ _ H0) as (_ & Hm & _). exact Hm. }
    pose proof (end_of_run options (scraper (exec options sqlite schedule c0))) as He.
    pose proof (end_store options (scraper (exec options sqlite schedule c0))) as Hst.
    destruct (scrapeStart_end options _) as [v s']. cbn [fst snd] in *.
    destruct He as (-> & _). destruct Hst as (Hm & Hse & _).
    rewrite Hm, Hse. split; [lia|exact Hmem].
Qed.

(** X4. Once the pages are submitted the flag is never set without an error
    in [error]: a 402 leaves the answer's error or the quota message, a
    failed opening of the database its array; and the end of [scrapeStart]
    writes that error to [console.error]. *)
Theorem flag_has_error (options : ListingScraperOptions) (sqlite : SqliteEnv)
    (c0 : Conf) (schedule : list Label) :
  scheduledConf options sqlite = Some c0 ->
  done (scraper (exec options sqlite schedule c0)) = true ->
  exists e,
    error (scraper (exec options sqlite schedule c0)) = Some e
    /\ truthyError (Some e) = true
    /\ Console (ErrorOfRun e)
       ∈ trace (snd (scrapeStart_end options
                       (scraper (exec options sqlite schedule c0)))).
Proof.
  intros H0 Hd.
  assert (Hk : errorKept (scraper (exec options sqlite schedule c0))).
  { apply (scheduled_keeps _ _ _ _ _ (errorKept_stable options sqlite) H0).
    destruct (scheduledConf_state _ _ _ H0) as (_ & _ & _ & _ & _ & _ & Hst).
    unfold errorKept.
    destruct (isSqlite (outputType options)); [destruct (db_open sqlite)|];
      injection Hst as -> -> _; try discriminate. reflexivity. }
  specialize (Hk Hd).
  pose proof (end_of_run options (scraper (exec options sqlite schedule c0))) as He.
  destruct (scrapeStart_end options _) as [v s']. cbn [snd].
  destruct He as (_ & _ & _ & _ & _ & es & Ht & _ & _ & Hrep).
  destruct (Hrep Hk) as (e & Herr & Hin).
  exists e. split_and!; [exact Herr|by rewrite <- Herr|rewrite Ht; set_solver].
Qed.

Lemma insertedItems_none es : storeEvents es = [] -> insertedItems es = [].
Proof.
  unfold storeEvents, insertedItems.
  induction es as [|e es IH]; [done|]. simpl.
  destruct (isStoreEvent e) eqn:He; simpl; [discriminate|].
  intros H. specialize (IH H).
  destruct e; try discriminate; simpl; exact IH.
Qed.

(** X5. A row is inserted only into a database that was opened, and only
    when its statements succeed: with a database that cannot be opened, no
    schedule inserts a row or closes a database. *)
Theorem rows_need_database (options : ListingScraperOptions) (sqlite : SqliteEnv)
    (schedule : list Label) :
  Forall (fun item => db_insert sqlite item = None)
    (insertedItems (trace (scraperOf (scrapeStart options sqlite schedule))))
  /\ (opens sqlite = false ->
      insertedItems (trace (scraperOf (scrapeStart options sqlite schedule))) = []
      /\ DbClose ∉ trace (scraperOf (scrapeStart options sqlite schedule))).
Proof.
  destruct (scrapeStart_cases options sqlite schedule)
    as [(s & Hb & ->)|(c0 & H0 & ->)].
  - destruct (exited_state _ _ _ Hb) as (_ & _ & _ & _ & _ & Hst & _ & Hcl).
    cbn [scraperOf].
    rewrite (insertedItems_none _ Hst). auto.
  - assert (Hc : storeSound sqlite (scraper (exec options sqlite schedule c0))).
    { apply (scheduled_keeps _ _ _ _ _ (storeSound_stable options sqlite) H0).
      destruct (scheduledConf_state _ _ _ H0) as (_ & _ & Hdb & (n & m & Ht) & _).
      unfold storeSound. rewrite Hdb, Ht. cbn. split_and!; auto; try discriminate.
      set_solver. }
    destruct Hc as (H1 & H2 & H3 & H4).
    assert (Hclosed : opens sqlite = false ->
              db (scraper (exec options sqlite schedule c0)) = false).
    { intros Hop. destruct (db _); [|reflexivity].
      rewrite (H2 eq_refl) in Hop. discriminate. }
    destruct (allFinished _); cbn [scraperOf]; [|auto].
    pose proof (end_store options (scraper (exec options sqlite schedule c0))) as Hst.
    destruct (scrapeStart_end options _) as [v s']. cbn [snd] in *.
    destruct Hst as (_ & _ & Hins & _ & Hcl). rewrite Hins.
    split; [exact H3|]. intros Hop. split; [auto|].
    intros Hin. destruct (Hcl Hin) as [Hdb|Hin']; [|contradiction].
    rewrite (Hclosed Hop) in Hdb. discriminate.
Qed.

(** *** A run stopped before its first page task *)

Lemma idle_step options sqlite l c c' :
  done (scraper c) = true -> running (tasks c) = 0 ->
  isPending (sqliteDatabaseOpenPromise (scraper c)) = false ->
  step options sqlite l c = Some c' ->
  scraper c' = scraper c /\ running (tasks c') = 0.
Proof.
  destruct c as [s w ts]. cbn [scraper tasks]. intros Hd Hz Hp.
  destruct l as [i|i|]; cbn [step tasks scraper workers].
  - destruct (ts !! i) as [t|] eqn:Hi; [|discriminate].
    pose proof (running_zero_lookup _ _ _ Hz Hi) as Hq.
    pose proof (running_insert ts i t Finished Hi) as Hr.
    rewrite Hq in Hr. cbn in Hr.
    destruct t; try discriminate Hq.
    + destruct (_ || _); [|discriminate].
      cbn [resume]. unfold scrapePage_start, bind, getDone, ret. rewrite Hd.
      intros [= <-]. cbn. split; [reflexivity|lia].
    + destruct (_ || _); discriminate.
  - destruct (ts !! i) as [t|] eqn:Hi; [|discriminate].
    pose proof (running_zero_lookup _ _ _ Hz Hi) as Hq.
    destruct t; try discriminate Hq; discriminate.
  - rewrite Hp. discriminate.
Qed.

Lemma idle_exec options sqlite schedule : forall c,
  done (scraper c) = true -> running (tasks c) = 0 ->
  isPending (sqliteDatabaseOpenPromise (scraper c)) = false ->
  scraper (exec options sqlite schedule c) = scraper c
  /\ running (tasks (exec options sqlite schedule c)) = 0.
Proof.
  induction schedule as [|l schedule IH]; intros c Hd Hz Hp; cbn [exec]; [done|].
  destruct (step options sqlite l c) as [c1|] eqn:Hstep;
    cbn [default from_option id]; [|by apply IH].
  destruct (idle_step _ _ _ _ _ Hd Hz Hp Hstep) as [Hs Hr].
  destruct (IH c1) as [Hs' Hr']; rewrite ?Hs; auto.
  split; [congruence|exact Hr'].
Qed.

Lemma exited_nothing options sqlite s :
  scrapeStart_begin options sqlite newScraper = (Exited, s) ->
  nothingToScrape options = true.
Proof.
  intros Hb. pose proof (begin_run options sqlite) as H. rewrite Hb in H.
  destruct H as (Hwhy & _). unfold nothingToScrape.
  destruct Hwhy as [-> | Hz]; [reflexivity|].
  rewrite Hz. by destruct (firstPageOf options).
Qed.

(** X6. With SQLite output and a database module that cannot be loaded, the
    flag is set before the first page task runs: whatever the schedule, no
    page beyond page 1 is fetched, no item is touched, and the stats stay
    at one page and one request, with the failure in [error]. *)
Theorem missing_sqlite_module_stops_run (options : ListingScraperOptions)
    (sqlite : SqliteEnv) (reason : string) (schedule : list Label) :
  outputType options = Some Sqlite ->
  db_open sqlite = OpenThrows reason ->
  match scrapeStart options sqlite schedule with
  | Returned (Some value) s =>
      value = mkStats 1 1 0 0 1
      /\ error s = Some (sqliteError reason)
      /\ fetchedPages (trace s) = [1]
      /\ fetchedItems (trace s) = []
  | Returned None s => nothingToScrape options = true
  | Awaiting c =>
      stats (scraper c) = mkStats 1 1 0 0 1
      /\ done (scraper c) = true
      /\ running (tasks c) = 0
  end.
Proof.
  intros Ho Hopen.
  destruct (scrapeStart_cases options sqlite schedule)
    as [(s & Hb & ->)|(c0 & H0 & ->)].
  - eapply exited_nothing; eassumption.
  - destruct (scheduledConf_state _ _ _ H0)
      as (Hs & _ & _ & (n & m & Ht) & _ & Hz & Hst).
    rewrite Ho, Hopen in Hst. cbn [isSqlite] in Hst. injection Hst as Hd He Hp.
    destruct (idle_exec options sqlite schedule c0) as [Hsame Hidle]; auto.
    { by rewrite Hp. }
    destruct (allFinished _).
    + pose proof (end_of_run options (scraper (exec options sqlite schedule c0))) as Hend.
      destruct (scrapeStart_end options _) as [v s']. cbn [fst snd].
      destruct Hend as (-> & _ & _ & _ & -> & es & -> & Hfp & Hfi & _).
      rewrite fetchedPages_app, fetchedItems_app, Hfp, Hfi, Hsame, Hs, He, Ht.
      cbn. auto.
    + rewrite Hsame. split_and!; auto.
Qed.

(** *** What a page resolves *)

(** X7. What a page resolves does not depend on the other pages or on the
    schedule: from the state of its task the details it will hold are those
    its own items and their answers give, in the order of the items, up to
    the first 402; the task either ends early on the flag or goes on towards
    exactly these details. *)
Theorem page_details_determined (options : ListingScraperOptions)
    (sqlite : SqliteEnv) (c : Conf) (schedule : list Label) (i : nat)
    (t : PageTask) (d : list Item) :
  tasks c !! i = Some t ->
  eventualDetails options t = Some d ->
  exists t',
    tasks (exec options sqlite schedule c) !! i = Some t'
    /\ (t' = Finished \/ eventualDetails options t' = Some d)
    /\ (forall page details, t' = AwaitScrapePageItems page details -> details = d).
Proof.
  intros Hi Hd.
  destruct (exec_accounts options sqlite _ schedule c
              (requestsOk_stable options sqlite)) as (_ & _ & Hdet).
  destruct (Hdet i t d Hi Hd) as (t' & Hi' & Hor).
  exists t'. split_and!; auto.
  intros page details ->. destruct Hor as [Hf|He]; [discriminate|].
  cbn in He. congruence.
Qed.

Lemma detailsFrom_short options lst remaining : forall details,
  scrapeDetails options = false ->
  detailsFrom options lst remaining details
  = details ++ List.filter hasId remaining.
Proof.
  induction remaining as [|item rest IH]; intros details Hsd;
    cbn [detailsFrom List.filter].
  - by rewrite app_nil_r.
  - rewrite Hsd. unfold detailsAfter, shortAsDetails, resolvedElement, hasId.
    cbn [resp_element resp_id].
    destruct (truthyString (Some (item_id item))).
    + rewrite IH by assumption. by rewrite <- app_assoc.
    + apply IH. assumption.
Qed.

(** X8. Without detail scraping, a page that reaches the end of its loop
    holds its elements with a non-empty id, in their order, whatever the
    schedule. *)
Theorem details_without_detail_scraping (options : ListingScraperOptions)
    (sqlite : SqliteEnv) (c : Conf) (schedule : list Label) (i page : nat)
    (l : ApiListResponse) (elements : list Item) (page' : nat)
    (details : list Item) :
  scrapeDetails options = false ->
  tasks c !! i = Some (AwaitFetchPage page (Some l)) ->
  list_elements l = Some elements ->
  tasks (exec options sqlite schedule c) !! i
  = Some (AwaitScrapePageItems page' details) ->
  details = List.filter hasId elements.
Proof.
  intros Hsd Hi Hel Hend.
  destruct (exec_accounts options sqlite _ schedule c
              (requestsOk_stable options sqlite)) as (_ & _ & Hdet).
  destruct (Hdet i _ _ Hi eq_refl) as (t' & Hi' & Hor).
  rewrite Hend in Hi'. injection Hi' as <-.
  destruct Hor as [Hf|He]; [discriminate|].
  cbn in He. rewrite Hel in He. injection He as ->.
  by rewrite detailsFrom_short.
Qed.

(** *** Every run is finite *)

Lemma taken_bounded options sqlite schedule : forall c,
  taken options sqlite schedule c + measure options (exec options sqlite schedule c)
  <= measure options c.
Proof.
  induction schedule as [|l schedule IH]; intros c; cbn [taken exec]; [lia|].
  destruct (step options sqlite l c) as [c1|] eqn:Hstep;
    cbn [default from_option id]; [|apply IH].
  destruct (step_run _ _ _ _ _ Hstep) as (_ & _ & Hdec & _).
  specialize (IH c1). lia.
Qed.

Lemma totalWeight_queued options l :
  totalWeight options (map (fun page => Queued page None) l)
  = 3 * itemsIn options l + 5 * length l.
Proof.
  induction l as [|page l IH]; cbn [map totalWeight weight itemsIn length];
    [reflexivity|].
  rewrite IH. lia.
Qed.

Lemma firstPage_from_list options l :
  firstPageOf options = Some l -> fetchList options 1 = Resolved (Some l).
Proof.
  unfold firstPageOf. pose proof (fetchPage_first options) as H.
  destruct (fetchPage options 1 newScraper) as [fp s1]. cbn [fst].
  destruct H as (_ & _ & _ & _ & _ & _ & _ & _ & _ & [Hn|Hres]); congruence.
Qed.

(** X9. No schedule makes a run take more transitions than three for each
    item its lists bring and five for each page, and one for the opening of
    the database: [scrapeStart] cannot be kept from returning by the order in
    which its tasks run. *)
Theorem transitions_bounded (options : ListingScraperOptions)
    (sqlite : SqliteEnv) (c0 : Conf) (schedule : list Label) :
  scheduledConf options sqlite = Some c0 ->
  taken options sqlite schedule c0
  <= 3 * itemsOffered options (length (tasks c0)) + 5 * length (tasks c0) + 1.
Proof.
  intros H0. pose proof (taken_bounded options sqlite schedule c0) as Hb.
  assert (measure options c0
          <= 3 * itemsOffered options (length (tasks c0))
             + 5 * length (tasks c0) + 1); [|lia].
  clear Hb. unfold measure.
  destruct (scheduledConf_run _ _ _ H0) as ([l Hl] & Hpos & _ & Hts & _).
  pose proof (firstPage_from_list _ _ Hl) as Hres.
  rewrite Hts, Hl. rewrite Hl in Hpos.
  destruct (totalPagesOf options (Some l)) as [|n]; [lia|].
  unfold pageTasks, itemsOffered. rewrite length_map, length_seq.
  simpl seq. simpl map. rewrite pageTasks_from_2 by lia.
  cbn [totalWeight itemsIn weight].
  rewrite totalWeight_queued, length_seq, Hres. cbn [elementsOf].
  destruct (sqliteDatabaseOpenPromise _); cbn [openingWeight]; lia.
Qed.

(** *** Failures of single fetches *)

(** X10. A detail fetch that brings nothing (the collaborator returns
    [null], or its promise resolves to [null] or is rejected) does not end the
    page: the item is counted in [items] and in [requests], not in
    [itemsSuccess], the flag and the error are left alone, and the task
    goes on to fetch the next item, or to return its details if there is
    none. *)
Theorem failed_item_fetch_continues (options : ListingScraperOptions)
    (sqlite : SqliteEnv) (c : Conf) (i page : nat) (lst : ApiListResponse)
    (details : list Item) (item : Item) (rest : list Item) :
  scrapeDetails options = true ->
  tasks c !! i = Some (AwaitFetchItem page lst details item rest) ->
  itemDetailsOf (fetchItem options item) = None ->
  exists c',
    step options sqlite (RunTask i) c = Some c'
    /\ tasks c'
       = <[i := match rest with
                | [] => AwaitScrapePageItems page details
                | next :: rest' => AwaitFetchItem page lst details next rest'
                end]> (tasks c)
    /\ stats (scraper c')
       = incRequests (incItems (stats (scraper c)))
    /\ done (scraper c') = done (scraper c)
    /\ error (scraper c') = error (scraper c)
    /\ fetchedItems (trace (scraper c'))
       = match rest with
         | [] => []
         | next :: _ => [next]
         end ++ fetchedItems (trace (scraper c)).
Proof.
  intros Hsd Hi Hnone. destruct c as [s w ts]. cbn [tasks scraper] in *.
  unfold step. cbn [tasks scraper workers]. rewrite Hi. cbn [inFlight orb resume].
  unfold scrapePageItems_fetched, scrapePageItems_item, countItem.
  destruct (fetchItem options item) as [[value|reason]|]; cbn [itemDetailsOf] in Hnone;
    subst; unfold_monad; cbn [mbind option_bind is402 resolvedElement skipped];
    rewrite Hsd; cbn [andb negb];
    destruct rest as [|next rest']; cbn [scrapePageItems_from]; rewrite ?Hsd;
    eexists; (split; [reflexivity|]); cbn; auto.
Qed.

(** X11. A list fetch that is rejected is logged and counted as a page and a
    request; the page has no items: resumed once more, its task ends without
    a detail fetch, and the flag and the error are as they were. *)
Theorem failed_page_fetch_is_empty_page (options : ListingScraperOptions)
    (sqlite : SqliteEnv) (c : Conf) (i page : nat) (reason : string) :
  tasks c !! i = Some (AwaitFetchList page) ->
  fetchList options page = Rejected reason ->
  exists c' c'',
    step options sqlite (RunTask i) c = Some c'
    /\ tasks c' = <[i := AwaitFetchPage page None]> (tasks c)
    /\ stats (scraper c') = incRequests (incPages (stats (scraper c)))
    /\ trace (scraper c')
       = Console (ErrorFetchingPage page reason) :: trace (scraper c)
    /\ done (scraper c') = done (scraper c)
    /\ error (scraper c') = error (scraper c)
    /\ step options sqlite (RunTask i) c' = Some c''
    /\ tasks c'' = <[i := Finished]> (tasks c)
    /\ stats (scraper c'') = stats (scraper c')
    /\ fetchedItems (trace (scraper c'')) = fetchedItems (trace (scraper c))
    /\ (done (scraper c) = false ->
        trace (scraper c'')
        = Console (InfoScrapedPage page 0) :: trace (scraper c')).
Proof.
  intros Hi Hrej. destruct c as [s w ts]. cbn [tasks scraper] in *.
  assert (Hlt : i < length ts) by (eapply lookup_lt_Some; eassumption).
  set (s1 := snd (fetchPage_settled page (Rejected reason) s)).
  exists (mkConf s1 w (<[i := AwaitFetchPage page None]> ts)).
  exists (mkConf (snd (scrapePage_withList options page None s1)) w
            (<[i := Finished]> ts)).
  unfold step. cbn [tasks scraper workers]. rewrite Hi.
  rewrite list_lookup_insert_eq by assumption. cbn [inFlight orb resume].
  rewrite Hrej. subst s1.
  unfold fetchPage_settled, scrapePage_withList, scrapePage_end. unfold_monad.
  cbn. destruct (done s) eqn:Hd; cbn; rewrite ?list_insert_insert_eq.
  all: split_and!; try reflexivity; try discriminate; auto.
Qed.

(** X12. A list fetch answered 402 sets the flag and puts in [error] the
    answer's error, or, if that is absent or the empty string, the text
    ['Request limit exceeded - upgrade your plan']; no counter moves, and
    whatever elements the answer carries, the task ends at its next
    transition without touching them. *)
Theorem quota_on_page_fetch (options : ListingScraperOptions)
    (sqlite : SqliteEnv) (c : Conf) (i page : nat) (l : ApiListResponse) :
  tasks c !! i = Some (AwaitFetchList page) ->
  fetchList options page = Resolved (Some l) ->
  list_status l = Some 402 ->
  exists c',
    step options sqlite (RunTask i) c = Some c'
    /\ tasks c' = <[i := AwaitFetchPage page None]> (tasks c)
    /\ done (scraper c') = true
    /\ error (scraper c')
       = Some (ErrorValue
                 match list_error l with
                 | Some e =>
                     if String.eqb e EmptyString
                     then "Request limit exceeded - upgrade your plan"
                     else e
                 | None => "Request limit exceeded - upgrade your plan"
                 end)
    /\ stats (scraper c') = stats (scraper c)
    /\ trace (scraper c') = trace (scraper c)
    /\ step options sqlite (RunTask i) c'
       = Some (mkConf (scraper c') (workers c') (<[i := Finished]> (tasks c))).
Proof.
  intros Hi Hres Hst. destruct c as [s w ts]. cbn [tasks scraper] in *.
  assert (Hlt : i < length ts) by (eapply lookup_lt_Some; eassumption).
  unfold step. cbn [tasks scraper workers]. rewrite Hi. cbn [inFlight orb resume].
  rewrite Hres. unfold fetchPage_settled. unfold_monad.
  cbn [mbind option_bind]. rewrite Hst. cbn [is402 Nat.eqb].
  eexists. split; [reflexivity|]. cbn [tasks scraper workers done error stats trace].
  split_and!; try reflexivity.
  { unfold errorOrQuota, truthyString.
    destruct (list_error l) as [e|]; [|reflexivity].
    cbn [default from_option id]. destruct (String.eqb e EmptyString); reflexivity. }
  rewrite list_lookup_insert_eq by assumption. cbn [inFlight orb resume].
  unfold scrapePage_withList. unfold_monad. cbn [done].
  rewrite list_insert_insert_eq. reflexivity.
Qed.

(** *** The counters over a run *)

Lemma statsLe_refl t : statsLe t t.
Proof. unfold statsLe. lia. Qed.

Lemma neverDown_set (f : Stats -> Stats) s :
  statsLe (stats s) (f (stats s)) -> neverDown s -> neverDown (snd (setStats f s)).
Proof.
  unfold neverDown. intros Hle [Hh Ha]. cbn. split; [reflexivity|].
  split; [|exact Ha]. destruct (history s) as [|t h]; [done|].
  cbn in Hh. injection Hh as ->. exact Hle.
Qed.

Lemma neverDown_same s s' :
  stats s' = stats s -> history s' = history s -> neverDown s -> neverDown s'.
Proof. unfold neverDown. intros -> ->. done. Qed.

Ltac never_down H :=
  let Hh := fresh "Hh" in
  let Ha := fresh "Ha" in
  destruct H as [Hh Ha]; unfold neverDown; cbn;
  (split; [reflexivity|]);
  match goal with
  | |- context [history ?s] =>
      let t := fresh "t" in
      let h := fresh "h" in
      destruct (history s) as [|t h]; [discriminate|];
      cbn in Hh; injection Hh as ->; cbn in Ha |- *
  end;
  unfold statsLe; cbn; split_and!; try lia; tauto.

Lemma neverDown_stable options sqlite : Stable options sqlite neverDown.
Proof.
  split; [split|..].
  - intros line s _ H. exact H.
  - intros page s H. exact H.
  - intros item s _ H. exact H.
  - intros e s H. exact H.
  - intros b s H. unfold_monad. destruct b; never_down H.
  - intros itemDetails s H. unfold countItem. unfold_monad.
    destruct (scrapeDetails options && negb (skipped itemDetails)),
      (resolvedElement itemDetails); never_down H.
  - intros element s _ H.
    destruct (onItemScraped_run options sqlite element s)
      as (es & _ & _ & _ & Hs & Hh & _).
    exact (neverDown_same _ _ Hs Hh H).
  - intros s _ H.
    destruct (createSqliteDatabase_resume_run sqlite s) as (_ & _ & _ & Hs & Hh & _).
    exact (neverDown_same _ _ Hs Hh H).
Qed.

Lemma begin_neverDown options sqlite :
  neverDown (snd (scrapeStart_begin options sqlite newScraper)).
Proof.
  unfold scrapeStart_begin, fetchPage, fetchPage_call, fetchPage_settled,
    reportError, createSqliteDatabase_call, totalPagesOf.
  destruct (fetchList options 1) as [[l|]|reason]; unfold_monad;
    cbn [mbind option_bind negb orb bool_decide];
    try destruct (is402 (list_status l)) eqn:H402;
    try destruct (truthyString (list_id l)); cbn.
  all: repeat match goal with
       | |- context [if ?b then _ else _] => destruct b eqn:?; cbn
       | |- context [match ?e with _ => _ end] =>
           match type of e with
           | option _ => destruct e eqn:?; cbn
           | OpenOutcome => destruct e eqn:?; cbn
           | ErrorSlot => destruct e eqn:?; cbn
           | string => destruct e eqn:?; cbn
           end
       end.
  all: unfold neverDown; cbn; unfold statsLe; cbn; split_and!; auto; lia.
Qed.

(** X13. No counter of [stats] ever goes down in a run: not in the page
    tasks, and not where [scrapeStart] assigns [pages] and [pagesSuccess]
    the value 1 after the first page. *)
Theorem counters_never_decrease (options : ListingScraperOptions)
    (sqlite : SqliteEnv) (schedule : list Label) :
  neverDown (scraperOf (scrapeStart options sqlite schedule)).
Proof.
  pose proof (begin_neverDown options sqlite) as Hb0.
  destruct (scrapeStart_cases options sqlite schedule)
    as [(s & Hb & ->)|(c0 & H0 & ->)].
  - rewrite Hb in Hb0. exact Hb0.
  - assert (Hc : neverDown (scraper (exec options sqlite schedule c0))).
    { apply (scheduled_keeps _ _ _ _ _ (neverDown_stable options sqlite) H0).
      unfold scheduledConf in H0.
      destruct (scrapeStart_begin options sqlite newScraper) as [[|w ts] s];
        [discriminate|]. injection H0 as <-. exact Hb0. }
    destruct (allFinished _); [|exact Hc]. cbn [scraperOf].
    pose proof (end_of_run options (scraper (exec options sqlite schedule c0))) as He.
    destruct (scrapeStart_end options _) as [v s']. cbn [snd].
    destruct He as (_ & Hs & Hh & _).
    exact (neverDown_same _ _ Hs Hh Hc).
Qed.

(** *** A run that ends before the database is open *)

Lemma waitsForOpen_stable options sqlite : Stable options sqlite waitsForOpen.
Proof.
  unfold waitsForOpen. split; [split|..].
  - intros line s Hl H Hp. cbn in *. destruct line; try discriminate; auto.
  - intros page s H. exact H.
  - intros item s _ H. exact H.
  - intros e s H. exact H.
  - intros b s H. unfold when. destruct b; exact H.
  - intros itemDetails s H. unfold countItem. unfold_monad.
    destruct (scrapeDetails options && negb (skipped itemDetails)),
      (resolvedElement itemDetails); exact H.
  - intros element s Hready H.
    destruct (onItemScraped_frame options sqlite element s) as (_ & _ & _ & Hp).
    rewrite Hp. intros Hpending.
    unfold writeReady in Hready. rewrite Hpending in Hready.
    unfold onItemScraped. unfold_monad.
    destruct (isSqlite (outputType options)); [discriminate|].
    destruct (isJson (outputType options)); cbn; auto.
  - intros s Hp H _.
    destruct (createSqliteDatabase_resume_run sqlite s) as (-> & _).
    exact (H Hp).
Qed.

Lemma end_frame options s :
  let s' := snd (scrapeStart_end options s) in
  db s' = db s /\ sqliteDatabaseOpenPromise s' = sqliteDatabaseOpenPromise s.
Proof.
  unfold scrapeStart_end, finalize, reportError. unfold_monad.
  destruct (isJson (outputType options)), (db s) eqn:Hdb; cbn; rewrite ?Hdb; cbn.
  all: destruct (error s) as [[[|a e]|es]|] eqn:He; cbn; unfold_monad; cbn.
  all: rewrite ?Hdb; auto.
Qed.


(** *** What the LinkedIn entry points hand to the engine *)

Lemma constructor_fetchItem (o : ListingScraperOptions) :
  fetchItem (constructor o) = fetchItem o.
Proof. unfold constructor. destruct (outputType o); reflexivity. Qed.

Lemma constructor_scrapeDetails (o : ListingScraperOptions) :
  scrapeDetails (constructor o) = scrapeDetails o.
Proof. unfold constructor. destruct (outputType o); reflexivity. Qed.


Lemma spread_default (base options : gmap string Value) (k : string) :
  options !! k = None -> spread base options !! k = base !! k.
Proof. unfold spread. intros H. by rewrite lookup_union_r. Qed.


(** X16. Unless the caller brings a [fetchItem] of its own, the details of
    an item are asked for exactly when the item has the key of its kind: a
    non-empty [id] for jobs, [universalName] for companies,
    [publicIdentifier] for profiles.  Without the key the collaborator
    returns [null] and no request is made; posts never make one. *)
Theorem detail_fetch_needs_key (api : BaseScraper) (params : gmap string Value)
    (item : Item) :
  params !! "fetchItem" = None ->
  fetchItem (constructor (readOptions (scrapeJobs_options api params))) item
  = (if truthyString (Some (item_id item))
     then Some (fetchApiItem api "linkedin/job" [("jobId", item_id item)])
     else None)
  /\ fetchItem (constructor (readOptions (scrapeCompanies_options api params))) item
     = match property "universalName" (item_fields item) with
       | Some name =>
           if truthyString (Some name)
           then Some (fetchApiItem api "linkedin/company" [("universalName", name)])
           else None
       | None => None
       end
  /\ fetchItem (constructor (readOptions (scrapeProfiles_options api params))) item
     = match property "publicIdentifier" (item_fields item) with
       | Some name =>
           if truthyString (Some name)
           then Some (fetchApiItem api "linkedin/profile" [("publicIdentifier", name)])
           else None
       | None => None
       end
  /\ exists value,
      fetchItem (constructor (readOptions (scrapePosts_options api params))) item
      = Some (Resolved value)
      /\ resolvedElement value = (if hasId item then Some item else None)
      /\ is402 (value ≫= resp_status) = false
      /\ skipped value = false.
Proof.
  intros Hk.
  assert (Hd : delete "query" params !! "fetchItem" = None).
  { rewrite lookup_delete_ne by done. exact Hk. }
  rewrite !constructor_fetchItem.
  unfold readOptions, scrapeJobs_options, scrapeCompanies_options,
    scrapeProfiles_options, scrapePosts_options; cbn [fetchItem].
  rewrite !lookup_insert_ne by done.
  rewrite !(spread_default _ _ _ Hd), !lookup_insert_eq.
  unfold getJob, getCompany, getProfile, hasId.
  split_and!; try reflexivity.
  - destruct (property "universalName" (item_fields item)); reflexivity.
  - destruct (property "publicIdentifier" (item_fields item)); reflexivity.
  - eexists. split; [reflexivity|].
    destruct (item_id item) as [|a r]; cbn; auto.
Qed.

Lemma detailsFrom_local options lst remaining : forall details,
  (forall item,
     exists value,
       fetchItem options item = Some (Resolved value)
       /\ resolvedElement value = (if hasId item then Some item else None)
       /\ is402 (value ≫= resp_status) = false) ->
  detailsFrom options lst remaining details
  = details ++ List.filter hasId remaining.
Proof.
  intros details Hlocal. revert details.
  induction remaining as [|item rest IH]; intros details;
    cbn [detailsFrom List.filter].
  - by rewrite app_nil_r.
  - destruct (scrapeDetails options).
    + destruct (Hlocal item) as (value & -> & Hel & H402).
      cbn [itemDetailsOf]. rewrite H402. unfold detailsAfter. rewrite Hel.
      destruct (hasId item); rewrite IH; [by rewrite <- app_assoc|done].
    + unfold detailsAfter, shortAsDetails, resolvedElement, hasId.
      cbn [resp_element resp_id].
      destruct (truthyString (Some (item_id item))); rewrite IH;
        [by rewrite <- app_assoc|done].
Qed.

(** X17. With the [fetchItem] of [scrapePosts], what [scrapePageItems]
    returns for a page is its elements with a non-empty id, in their order,
    whether details are scraped or not: every answer is made up from the
    item itself, and none is a 402 that would end the loop early. *)
Theorem posts_details_are_the_items (api : BaseScraper)
    (params : gmap string Value) (lst : ApiListResponse)
    (remaining details : list Item) :
  params !! "fetchItem" = None ->
  detailsFrom (constructor (readOptions (scrapePosts_options api params)))
    lst remaining details
  = details ++ List.filter hasId remaining.
Proof.
  intros Hk. apply detailsFrom_local. intros item.
  assert (Hd : delete "query" params !! "fetchItem" = None).
  { rewrite lookup_delete_ne by done. exact Hk. }
  rewrite constructor_fetchItem.
  unfold readOptions, scrapePosts_options; cbn [fetchItem].
  rewrite !lookup_insert_ne by done.
  rewrite (spread_default _ _ _ Hd), lookup_insert_eq.
  eexists. split; [reflexivity|]. unfold hasId.
  destruct (item_id item) as [|a r]; cbn; auto.
Qed.

(** *** The page counters *)

Lemma total_app f l1 l2 : total f (l1 ++ l2) = total f l1 + total f l2.
Proof. induction l1 as [|x l1 IH]; simpl; lia. Qed.

Lemma awaitedPages_insert f ts : forall i t t',
  ts !! i = Some t ->
  total f (awaitedPages (<[i := t']> ts)) + total f (waitsFetch t)
  = total f (awaitedPages ts) + total f (waitsFetch t').
Proof.
  unfold awaitedPages.
  induction ts as [|t0 ts IH]; intros [|i] t t' Hi; try discriminate.
  - injection Hi as ->. change (<[0 := t']> (t :: ts)) with (t' :: ts).
    rewrite !bind_cons, !total_app. lia.
  - change (<[S i := t']> (t0 :: ts)) with (t0 :: <[i := t']> ts).
    rewrite !bind_cons, !total_app. specialize (IH i t t' Hi). lia.
Qed.

Lemma countItem_pages options itemDetails s :
  pages (stats (snd (countItem options itemDetails s))) = pages (stats s)
  /\ pagesSuccess (stats (snd (countItem options itemDetails s)))
     = pagesSuccess (stats s).
Proof.
  unfold countItem. unfold_monad.
  destruct (scrapeDetails options && negb (skipped itemDetails)),
    (resolvedElement itemDetails); cbn; auto.
Qed.

Lemma item_pages options continue page lst details rest itemDetails s t' s' :
  (forall s1 t1 s2, continue s1 = (t1, s2) ->
     pages (stats s2) = pages (stats s1)
     /\ pagesSuccess (stats s2) = pagesSuccess (stats s1)
     /\ waitsFetch t1 = []) ->
  scrapePageItems_item options continue page lst details rest itemDetails s = (t', s') ->
  pages (stats s') = pages (stats s)
  /\ pagesSuccess (stats s') = pagesSuccess (stats s)
  /\ waitsFetch t' = [].
Proof.
  intros Hcont. unfold scrapePageItems_item, bind.
  destruct (countItem_pages options itemDetails s) as [H1 H2].
  destruct (countItem options itemDetails s) as [[element|] s1]; cbn [snd] in *.
  - unfold ret. intros [= <- <-]. auto.
  - intros Hk. destruct (Hcont _ _ _ Hk) as (H3 & H4 & H5).
    split_and!; auto; congruence.
Qed.

Lemma from_pages options page lst remaining :
  forall details s t' s',
    scrapePageItems_from options page lst details remaining s = (t', s') ->
    pages (stats s') = pages (stats s)
    /\ pagesSuccess (stats s') = pagesSuccess (stats s)
    /\ waitsFetch t' = [].
Proof.
  induction remaining as [|item rest IH]; intros details s t' s';
    cbn [scrapePageItems_from].
  - unfold ret. intros [= <- <-]. auto.
  - destruct (scrapeDetails options).
    + unfold_monad. intros [= <- <-]. auto.
    + intros H. eapply item_pages in H; [exact H|].
      intros s1 t1 s2 Hk. destruct (IH _ _ _ _ Hk) as (? & ? & ?). auto.
Qed.

Lemma fetched_pages options page lst details rest outcome s t' s' :
  scrapePageItems_fetched options page lst details rest outcome s = (t', s') ->
  pages (stats s') = pages (stats s)
  /\ pagesSuccess (stats s') = pagesSuccess (stats s)
  /\ waitsFetch t' = [].
Proof.
  unfold scrapePageItems_fetched. unfold bind at 1.
  assert (Htail : forall itemDetails s0,
    (if is402 (itemDetails ≫= resp_status)
     then setDone ;;
          setError (errorOrQuota (itemDetails ≫= resp_error)) ;;
          ret (AwaitScrapePageItems page details)
     else scrapePageItems_item options
            (scrapePageItems_from options page lst details rest)
            page lst details rest itemDetails) s0 = (t', s') ->
    pages (stats s') = pages (stats s0)
    /\ pagesSuccess (stats s') = pagesSuccess (stats s0)
    /\ waitsFetch t' = []).
  { intros itemDetails s0. destruct (is402 (itemDetails ≫= resp_status)).
    - unfold_monad. intros [= <- <-]. auto.
    - intros H. eapply item_pages in H; [exact H|].
      intros s1 t1 s2 Hk. destruct (from_pages _ _ _ _ _ _ _ _ Hk) as (? & ? & ?).
      auto. }
  destruct outcome as [[value|reason]|]; unfold_monad; intros H;
    apply Htail in H; exact H.
Qed.

Lemma withList_pages options page lst s t' s' :
  scrapePage_withList options page lst s = (t', s') ->
  pages (stats s') = pages (stats s)
  /\ pagesSuccess (stats s') = pagesSuccess (stats s)
  /\ waitsFetch t' = [].
Proof.
  unfold scrapePage_withList, scrapePage_end. unfold bind at 1. unfold getDone.
  destruct (done s) eqn:Hd.
  - unfold ret. intros [= <- <-]. auto.
  - destruct lst as [l|]; [destruct (list_elements l) as [elements|]|].
    + apply from_pages.
    + unfold_monad. rewrite Hd. intros [= <- <-]. auto.
    + unfold_monad. rewrite Hd. intros [= <- <-]. auto.
Qed.

Lemma fetchPage_settled_pages options page s :
  let s' := snd (fetchPage_settled page (fetchList options page) s) in
  pages (stats s') = pages (stats s) + pageCount options page
  /\ pagesSuccess (stats s') = pagesSuccess (stats s) + pageSuccess options page
  /\ fetchedPages (trace s') = fetchedPages (trace s).
Proof.
  unfold pageCount, pageSuccess, statusAt, idAt, fetchPage_settled.
  destruct (fetchList options page) as [value|reason]; unfold_monad;
    cbn [mbind option_bind is402 truthyString].
  - destruct (is402 (value ≫= list_status)); cbn; [split_and!; auto; lia|].
    destruct (truthyString (value ≫= list_id)); cbn; split_and!; auto; lia.
  - cbn. split_and!; auto; lia.
Qed.

Lemma resume_pages options t m s t' s' :
  resume options t = Some m -> m s = (t', s') ->
  total (pageCount options) (fetchedPages (trace s))
  + pages (stats s') + total (pageCount options) (waitsFetch t')
  = total (pageCount options) (fetchedPages (trace s'))
    + pages (stats s) + total (pageCount options) (waitsFetch t)
  /\ total (pageSuccess options) (fetchedPages (trace s))
     + pagesSuccess (stats s') + total (pageSuccess options) (waitsFetch t')
     = total (pageSuccess options) (fetchedPages (trace s'))
       + pagesSuccess (stats s) + total (pageSuccess options) (waitsFetch t).
Proof.
  intros Hm Hms.
  destruct (resume_run _ _ _ _ _ _ Hm Hms)
    as (es & Ht & _ & _ & _ & _ & _ & Hfp & _).
  destruct t as [page sl|page|page lst|page lst details item rest
                |page lst details element rest written|page details|];
    cbn [resume] in Hm; try discriminate.
  - injection Hm as <-. revert Hms. unfold scrapePage_start. unfold bind at 1.
    unfold getDone. destruct (done s).
    + unfold ret. intros [= <- <-]. cbn. lia.
    + destruct sl as [l|].
      * intros H. destruct (withList_pages _ _ _ _ _ _ H) as (H1 & H2 & H3).
        rewrite Ht, fetchedPages_app.
        cbn [queuedPage] in Hfp. destruct Hfp as [-> | ->].
        all: rewrite H1, H2, H3; cbn; lia.
      * unfold_monad. intros [= <- <-]. cbn [trace stats waitsFetch].
        unfold fetchedPages. rewrite bind_cons. cbn. lia.
  - injection Hm as <-. revert Hms. unfold bind, ret.
    destruct (fetchPage_settled_pages options page s) as (H1 & H2 & H3).
    destruct (fetchPage_settled page (fetchList options page) s) as [result s1].
    cbn [snd] in *. intros [= <- <-]. rewrite H1, H2, H3. cbn. lia.
  - injection Hm as <-. destruct (withList_pages _ _ _ _ _ _ Hms) as (H1 & H2 & H3).
    rewrite Ht, fetchedPages_app. cbn [queuedPage] in Hfp.
    destruct Hfp as [-> | ->]; rewrite H1, H2, H3; cbn; lia.
  - injection Hm as <-.
    destruct (fetched_pages _ _ _ _ _ _ _ _ _ Hms) as (H1 & H2 & H3).
    rewrite Ht, fetchedPages_app. cbn [queuedPage] in Hfp.
    destruct Hfp as [-> | ->]; rewrite H1, H2, H3; cbn; lia.
  - destruct written; [|discriminate]. injection Hm as <-.
    unfold scrapePageItems_stored in Hms.
    destruct (from_pages _ _ _ _ _ _ _ _ Hms) as (H1 & H2 & H3).
    rewrite Ht, fetchedPages_app. cbn [queuedPage] in Hfp.
    destruct Hfp as [-> | ->]; rewrite H1, H2, H3; cbn; lia.
  - injection Hm as <-. revert Hms. unfold scrapePage_end. unfold_monad.
    destruct (done s); intros [= <- <-]; cbn [trace stats waitsFetch];
      unfold fetchedPages; rewrite ?bind_cons; cbn; lia.
Qed.

Lemma step_pages options sqlite l c c' :
  step options sqlite l c = Some c' ->
  pagesBalance options c -> pagesBalance options c'.
Proof.
  unfold pagesBalance.
  destruct c as [s w ts]. destruct l as [i|i|]; cbn [step tasks scraper workers].
  - destruct (ts !! i) as [t|] eqn:Hi; [|discriminate].
    destruct (inFlight t || hasFreeWorker w ts); [|discriminate].
    destruct (resume options t) as [m|] eqn:Hm; [|discriminate].
    destruct (m s) as [t' s'] eqn:Hms. intros [= <-].
    cbn [tasks scraper workers].
    destruct (resume_pages _ _ _ _ _ _ Hm Hms) as [H1 H2].
    pose proof (awaitedPages_insert (pageCount options) ts i t t' Hi).
    pose proof (awaitedPages_insert (pageSuccess options) ts i t t' Hi).
    lia.
  - destruct (ts !! i) as [t|] eqn:Hi; [|discriminate].
    destruct t as [| | | |page lst details element rest [|]| |]; try discriminate.
    destruct (writeReady options s); [|discriminate].
    destruct (onItemScraped_run options sqlite element s)
      as (es & Ht & _ & _ & Hs & _ & Hfp & _).
    destruct (onItemScraped options sqlite element s) as [[] s'].
    cbn [snd] in *. intros [= <-]. cbn [tasks scraper workers].
    pose proof (awaitedPages_insert (pageCount options) ts i _
                  (AwaitOnItemScraped page lst details element rest true) Hi).
    pose proof (awaitedPages_insert (pageSuccess options) ts i _
                  (AwaitOnItemScraped page lst details element rest true) Hi).
    rewrite Hs, Ht, fetchedPages_app, Hfp. cbn in *. lia.
  - destruct (isPending (sqliteDatabaseOpenPromise s)); [|discriminate].
    destruct (createSqliteDatabase_resume_run sqlite s) as (Ht & _ & _ & Hs & _).
    destruct (createSqliteDatabase_resume sqlite s) as [[] s'].
    cbn [snd] in *. intros [= <-]. cbn [tasks scraper workers].
    rewrite Hs, Ht. auto.
Qed.

Lemma exec_pages options sqlite schedule : forall c,
  pagesBalance options c -> pagesBalance options (exec options sqlite schedule c).
Proof.
  induction schedule as [|l schedule IH]; intros c Hc; cbn [exec]; [exact Hc|].
  destruct (step options sqlite l c) as [c1|] eqn:Hstep;
    cbn [default from_option id]; [|by apply IH].
  apply IH. exact (step_pages _ _ _ _ _ Hstep Hc).
Qed.

Lemma awaitedPages_pageTasks fp n : awaitedPages (pageTasks fp n) = [].
Proof.
  unfold awaitedPages, pageTasks. induction (seq 1 n) as [|page l IH]; [done|].
  cbn. exact IH.
Qed.

Lemma awaitedPages_finished ts : allFinished ts = true -> awaitedPages ts = [].
Proof.
  unfold allFinished, awaitedPages. induction ts as [|t ts IH]; simpl; [done|].
  destruct t; simpl; try discriminate. exact IH.
Qed.

Lemma begin_pages options sqlite :
  match scrapeStart_begin options sqlite newScraper with
  | (Scheduled w ts, s) => pagesBalance options (mkConf s w ts)
  | (Exited, s) =>
      pages (stats s) = total (pageCount options) (fetchedPages (trace s))
      /\ pagesSuccess (stats s)
         = total (pageSuccess options) (fetchedPages (trace s))
  end.
Proof.
  unfold pagesBalance.
  unfold scrapeStart_begin, fetchPage, fetchPage_call, fetchPage_settled,
    reportError, createSqliteDatabase_call, totalPagesOf.
  destruct (fetchList options 1) as [[l|]|reason] eqn:Hfl; unfold_monad;
    cbn [mbind option_bind negb orb bool_decide];
    try destruct (is402 (list_status l)) eqn:H402;
    try destruct (truthyString (list_id l)) eqn:Hid;
    cbn -[pageCount pageSuccess].
  all: repeat match goal with
       | |- context [if ?b then _ else _] =>
           destruct b eqn:?; cbn -[pageCount pageSuccess]
       | |- context [match ?e with _ => _ end] =>
           match type of e with
           | option _ => destruct e eqn:?; cbn -[pageCount pageSuccess]
           | OpenOutcome => destruct e eqn:?; cbn -[pageCount pageSuccess]
           | ErrorSlot => destruct e eqn:?; cbn -[pageCount pageSuccess]
           | string => destruct e eqn:?; cbn -[pageCount pageSuccess]
           end
       end.
  all: rewrite ?awaitedPages_pageTasks; cbn -[pageCount pageSuccess].
  all: unfold pageCount, pageSuccess, statusAt, idAt; rewrite Hfl;
    cbn [mbind option_bind]; rewrite ?H402, ?Hid; cbn; auto.
Qed.

(** X18. [pages] counts the list fetches made, page 1 included, that were
    not answered 402, the rejected ones among them; [pagesSuccess] counts
    those of them whose answer has an id, and page 1 whether or not it has
    one.  While tasks are under way, a fetch that has not settled is still
    to be counted. *)
Theorem pages_counted (options : ListingScraperOptions) (sqlite : SqliteEnv)
    (schedule : list Label) :
  match scrapeStart options sqlite schedule with
  | Returned (Some value) s =>
      pages value = total (pageCount options) (fetchedPages (trace s))
      /\ pagesSuccess value + pageSuccess options 1
         = 1 + total (pageSuccess options) (fetchedPages (trace s))
  | Returned None s =>
      pages (stats s) = total (pageCount options) (fetchedPages (trace s))
      /\ pagesSuccess (stats s)
         = total (pageSuccess options) (fetchedPages (trace s))
  | Awaiting c => pagesBalance options c
  end.
Proof.
  pose proof (begin_pages options sqlite) as Hb0.
  destruct (scrapeStart_cases options sqlite schedule)
    as [(s & Hb & ->)|(c0 & H0 & ->)].
  - rewrite Hb in Hb0. exact Hb0.
  - assert (Hc : pagesBalance options (exec options sqlite schedule c0)).
    { apply exec_pages. unfold scheduledConf in H0.
      destruct (scrapeStart_begin options sqlite newScraper) as [[|w ts] s];
        [discriminate|]. injection H0 as <-. exact Hb0. }
    destruct (allFinished _) eqn:Hfin; [|exact Hc].
    unfold pagesBalance in Hc. rewrite (awaitedPages_finished _ Hfin) in Hc.
    pose proof (end_of_run options (scraper (exec options sqlite schedule c0))) as He.
    destruct (scrapeStart_end options _) as [v s']. cbn [fst snd].
    destruct He as (-> & _ & _ & _ & _ & es & -> & Hfp & _).
    rewrite fetchedPages_app, Hfp. cbn in *. lia.
Qed.

(** *** A run that is not stopped *)

Lemma total_perm f l1 l2 : l1 ≡ₚ l2 -> total f l1 = total f l2.
Proof. induction 1; simpl; lia. Qed.

Lemma total_ones f l : (forall x, x ∈ l -> f x = 1) -> total f l = length l.
Proof.
  induction l as [|x l IH]; intros H; simpl; [done|].
  rewrite (H x) by set_solver. rewrite IH; [done|]. intros y Hy. apply H. set_solver.
Qed.

Lemma awaitedPages_elem (ts : list PageTask) (page : nat) :
  page ∈ awaitedPages ts <-> exists j t, ts !! j = Some t /\ page ∈ waitsFetch t.
Proof.
  unfold awaitedPages. rewrite list_elem_of_bind. split.
  - intros (t & Hp & Ht). apply list_elem_of_lookup in Ht as [j Hj]. eauto.
  - intros (j & t & Hj & Hp). exists t. split; [exact Hp|].
    eapply list_elem_of_lookup_2; eassumption.
Qed.

Lemma awaitedPages_insert_elem ts i t t' page :
  ts !! i = Some t ->
  page ∈ awaitedPages ts ->
  page ∈ awaitedPages (<[i := t']> ts) \/ page ∈ waitsFetch t.
Proof.
  intros Hi. rewrite !awaitedPages_elem. intros (j & tj & Hj & Hp).
  destruct (decide (j = i)) as [->|Hne].
  - right. congruence.
  - left. exists j, tj. split; [|exact Hp].
    rewrite list_lookup_insert_ne by congruence. exact Hj.
Qed.

Lemma awaitedPages_insert_new ts i t t' page :
  ts !! i = Some t ->
  page ∈ waitsFetch t' ->
  page ∈ awaitedPages (<[i := t']> ts).
Proof.
  intros Hi Hp. apply awaitedPages_elem. exists i, t'. split; [|exact Hp].
  apply list_lookup_insert_eq. eapply lookup_lt_Some; eassumption.
Qed.

Lemma settled_not_402 options page s :
  done (snd (fetchPage_settled page (fetchList options page) s)) = false ->
  pageCount options page = 1.
Proof.
  unfold pageCount, statusAt, fetchPage_settled.
  destruct (fetchList options page) as [value|reason]; unfold_monad;
    cbn [mbind option_bind is402].
  - destruct (is402 (value ≫= list_status)); cbn; [discriminate|done].
  - done.
Qed.

Lemma resume_answered options t m s t' s' :
  resume options t = Some m -> m s = (t', s') ->
  done s' = false ->
  done s = false
  /\ (forall page,
        page ∈ fetchedPages (trace s') ->
        page ∈ fetchedPages (trace s) \/ page ∈ waitsFetch t')
  /\ (forall page,
        page ∈ waitsFetch t -> pageCount options page = 1).
Proof.
  intros Hm Hms Hd'.
  destruct (resume_run _ _ _ _ _ _ Hm Hms)
    as (es & Ht & Hmono & _ & _ & _ & _ & Hfp & _).
  assert (Hd : done s = false).
  { destruct (done s); [|reflexivity]. rewrite Hmono in Hd'; done. }
  split; [exact Hd|].
  assert (Hsame : queuedPage t = [] ->
    forall page, page ∈ fetchedPages (trace s') ->
    page ∈ fetchedPages (trace s) \/ page ∈ waitsFetch t').
  { intros Hq page. rewrite Ht, fetchedPages_app.
    destruct Hfp as [-> | ->]; rewrite ?Hq; cbn; auto. }
  destruct t as [page sl|page|page lst|page lst details item rest
                |page lst details element rest written|page details|];
    cbn [resume] in Hm; try discriminate.
  - split; [|cbn; set_solver]. destruct sl as [l|]; [by apply Hsame|].
    injection Hm as <-. revert Hms. unfold scrapePage_start. unfold_monad.
    rewrite Hd. intros [= <- <-]. cbn [trace waitsFetch]. intros p.
    unfold fetchedPages. rewrite bind_cons. fold (fetchedPages (trace s)).
    set_solver.
  - split; [by apply Hsame|]. injection Hm as <-. revert Hms Hd'. unfold bind, ret.
    pose proof (settled_not_402 options page s) as H402.
    destruct (fetchPage_settled page (fetchList options page) s) as [result s1].
    cbn [snd] in *. intros [= <- <-] Hd' p Hp. cbn in Hp.
    apply list_elem_of_singleton in Hp as ->. auto.
  - split; [by apply Hsame|]. cbn. set_solver.
  - split; [by apply Hsame|]. cbn. set_solver.
  - split; [by apply Hsame|]. cbn. set_solver.
  - split; [by apply Hsame|]. cbn. set_solver.
Qed.

Lemma step_answered options sqlite l c c' :
  step options sqlite l c = Some c' ->
  answeredOk options c -> answeredOk options c'.
Proof.
  unfold answeredOk.
  destruct c as [s w ts]. destruct l as [i|i|]; cbn [step tasks scraper workers].
  - destruct (ts !! i) as [t|] eqn:Hi; [|discriminate].
    destruct (inFlight t || hasFreeWorker w ts); [|discriminate].
    destruct (resume options t) as [m|] eqn:Hm; [|discriminate].
    destruct (m s) as [t' s'] eqn:Hms. intros [= <-].
    cbn [tasks scraper workers]. intros Hc Hd' page Hp.
    destruct (resume_answered _ _ _ _ _ _ Hm Hms Hd') as (Hd & Hnew & Hold).
    destruct (Hnew page Hp) as [Hin|Hin].
    + destruct (Hc Hd page Hin) as [Haw|Hpc]; [|auto].
      destruct (awaitedPages_insert_elem ts i t t' page Hi Haw) as [H1|H1]; auto.
    + left. eapply awaitedPages_insert_new; eassumption.
  - destruct (ts !! i) as [t|] eqn:Hi; [|discriminate].
    destruct t as [| | | |page lst details element rest [|]| |]; try discriminate.
    destruct (writeReady options s); [|discriminate].
    destruct (onItemScraped_run options sqlite element s)
      as (es & Ht & Hdone & _ & _ & _ & Hfp & _).
    destruct (onItemScraped options sqlite element s) as [[] s'].
    cbn [snd] in *. intros [= <-]. cbn [tasks scraper workers].
    rewrite Hdone, Ht, fetchedPages_app, Hfp. cbn [app].
    intros Hc Hd p Hp. destruct (Hc Hd p Hp) as [Haw|Hpc]; [|auto].
    destruct (awaitedPages_insert_elem ts i _
                (AwaitOnItemScraped page lst details element rest true) p Hi Haw)
      as [H1|H1]; [auto|]. cbn in H1. set_solver.
  - destruct (isPending (sqliteDatabaseOpenPromise s)); [|discriminate].
    destruct (createSqliteDatabase_resume_run sqlite s) as (Ht & Hmono & _).
    destruct (createSqliteDatabase_resume sqlite s) as [[] s'].
    cbn [snd] in *. intros [= <-]. cbn [tasks scraper workers].
    rewrite Ht. intros Hc Hd'. apply Hc.
    destruct (done s); [|reflexivity]. rewrite Hmono in Hd'; done.
Qed.

Lemma exec_answered options sqlite schedule : forall c,
  answeredOk options c -> answeredOk options (exec options sqlite schedule c).
Proof.
  induction schedule as [|l schedule IH]; intros c Hc; cbn [exec]; [exact Hc|].
  destruct (step options sqlite l c) as [c1|] eqn:Hstep;
    cbn [default from_option id]; [|by apply IH].
  apply IH. exact (step_answered _ _ _ _ _ Hstep Hc).
Qed.

Lemma first_page_counted options l :
  firstPageOf options = Some l ->
  pageCount options 1 = 1.
Proof.
  unfold firstPageOf, fetchPage, fetchPage_call, fetchPage_settled,
    pageCount, statusAt.
  destruct (fetchList options 1) as [value|reason]; unfold_monad;
    cbn [mbind option_bind is402].
  - destruct (is402 (value ≫= list_status)); cbn; [discriminate|done].
  - done.
Qed.

Lemma unstopped_page_counts options sqlite schedule c0 :
  scheduledConf options sqlite = Some c0 ->
  allFinished (tasks (exec options sqlite schedule c0)) = true ->
  done (scraper (exec options sqlite schedule c0)) = false ->
  pages (stats (scraper (exec options sqlite schedule c0)))
  = totalPagesOf options (firstPageOf options)
  /\ pagesSuccess (stats (scraper (exec options sqlite schedule c0)))
     = 1 + total (pageSuccess options)
             (seq 2 (totalPagesOf options (firstPageOf options) - 1)).
Proof.
  intros H0 Hfin Hdone.
  set (c := exec options sqlite schedule c0) in *.
  destruct (scheduledConf_run _ _ _ H0) as ([l Hl] & Hpos & _ & Hts & _ & Hfp & _).
  rewrite Hl in *.
  destruct (totalPagesOf options (Some l)) as [|n]; [lia|].
  destruct (exec_run options sqlite schedule c0)
    as (_ & _ & _ & _ & _ & es & Ht & _ & Hperm & _).
  fold c in Ht, Hperm. specialize (Hperm Hdone).
  rewrite Hts, queuedPages_pageTasks, (queuedPages_finished _ Hfin), app_nil_r
    in Hperm.
  assert (Hbal : pagesBalance options c).
  { apply exec_pages. pose proof (begin_pages options sqlite) as Hb0.
    unfold scheduledConf in H0.
    destruct (scrapeStart_begin options sqlite newScraper) as [[|w ts] s1];
      [discriminate|]. injection H0 as <-. exact Hb0. }
  assert (Hans : answeredOk options c).
  { apply exec_answered. unfold answeredOk. rewrite Hfp. intros _ p Hp.
    apply list_elem_of_singleton in Hp as ->. right.
    eapply first_page_counted; eassumption. }
  unfold pagesBalance in Hbal. rewrite (awaitedPages_finished _ Hfin) in Hbal.
  rewrite Ht, fetchedPages_app, Hfp, !total_app in Hbal.
  rewrite (total_perm _ _ _ Hperm) in Hbal.
  assert (Hones : total (pageCount options) (seq 2 n) = length (seq 2 n)).
  { apply total_ones. intros p Hp.
    destruct (Hans Hdone p) as [Haw|Hpc]; [| |exact Hpc].
    - rewrite Ht, fetchedPages_app. rewrite Hperm. set_solver.
    - rewrite (awaitedPages_finished _ Hfin) in Haw. set_solver. }
  rewrite length_seq in Hones.
  destruct Hbal as [Hpages Hsucc]. rewrite (total_perm _ _ _ Hperm) in Hsucc.
  pose proof (first_page_counted options l Hl) as H1.
  cbn [total] in Hpages, Hsucc. replace (S n - 1) with n by lia.
  split; lia.
Qed.

Lemma returned_unstopped options sqlite schedule value s :
  scrapeStart options sqlite schedule = Returned (Some value) s ->
  done s = false ->
  exists c0,
    scheduledConf options sqlite = Some c0
    /\ allFinished (tasks (exec options sqlite schedule c0)) = true
    /\ done (scraper (exec options sqlite schedule c0)) = false
    /\ value = stats (scraper (exec options sqlite schedule c0)).
Proof.
  intros Hrun Hdone.
  destruct (scrapeStart_cases options sqlite schedule)
    as [(s0 & Hb & Hr)|(c0 & H0 & Hr)]; rewrite Hr in Hrun; [discriminate|].
  destruct (allFinished _) eqn:Hfin; [|discriminate].
  pose proof (end_of_run options (scraper (exec options sqlite schedule c0))) as He.
  destruct (scrapeStart_end options _) as [v s']. cbn [fst snd] in Hrun.
  injection Hrun as <- <-.
  destruct He as (-> & _ & _ & Hd & _).
  rewrite Hd in Hdone. exists c0. auto.
Qed.

(** X19. A run that returns with the flag unset has counted every page:
    [pages] is the number of pages submitted, the total of the first page
    capped by [maxPages], and [pagesSuccess] is one for page 1 and one for
    each later page whose answer has an id. *)
Theorem unstopped_run_counts_every_page (options : ListingScraperOptions)
    (sqlite : SqliteEnv) (schedule : list Label) (value : Stats) (s : Scraper) :
  scrapeStart options sqlite schedule = Returned (Some value) s ->
  done s = false ->
  pages value = totalPagesOf options (firstPageOf options)
  /\ pagesSuccess value
     = 1 + total (pageSuccess options)
             (seq 2 (totalPagesOf options (firstPageOf options) - 1)).
Proof.
  intros Hrun Hdone.
  destruct (returned_unstopped _ _ _ _ _ Hrun Hdone) as (c0 & H0 & Hfin & Hd & ->).
  exact (unstopped_page_counts options sqlite schedule c0 H0 Hfin Hd).
Qed.

(** *** The pages of a run *)








(** *** The further properties on sample runs *)

Lemma json_document_complete_witness :
  outputType threePages = Some Json
  /\ match scrapeStart threePages sqliteOk (roundRobin 3 24) with
     | Returned (Some value) s =>
         documents (trace s) = [(value, inMemoryItems s)]
         /\ OutputJson value (inMemoryItems s) ∈ trace s
         /\ length (inMemoryItems s) = itemsSuccess value
     | Returned None s =>
         documents (trace s) = []
         /\ inMemoryItems s = [] /\ itemsSuccess (stats s) = 0
     | Awaiting c =>
         documents (trace (scraper c)) = []
         /\ itemsSuccess (stats (scraper c))
            = length (inMemoryItems (scraper c)) + pendingWrites (tasks c)
     end.
Proof.
  split; [reflexivity|].
  apply (json_document_complete threePages sqliteOk (roundRobin 3 24)).
  reflexivity.
Defined.

Lemma sqlite_items_accounted_witness :
  outputType toSqlite = Some Sqlite
  /\ match scrapeStart toSqlite sqliteOk (roundRobin 1 12) with
     | Returned (Some value) s =>
         itemsSuccess value = length (storeEvents (trace s))
         /\ inMemoryItems s = []
     | Returned None s => storeEvents (trace s) = [] /\ itemsSuccess (stats s) = 0
     | Awaiting c =>
         itemsSuccess (stats (scraper c))
         = length (storeEvents (trace (scraper c))) + pendingWrites (tasks c)
     end.
Proof.
  split; [reflexivity|].
  apply (sqlite_items_accounted toSqlite sqliteOk (roundRobin 1 12)).
  reflexivity.
Defined.

Lemma flag_has_error_witness :
  scheduledConf quotaOnPage2 sqliteOk = Some quotaStart
  /\ done (scraper (exec quotaOnPage2 sqliteOk untilQuota quotaStart)) = true
  /\ exists e,
      error (scraper (exec quotaOnPage2 sqliteOk untilQuota quotaStart)) = Some e
      /\ truthyError (Some e) = true
      /\ Console (ErrorOfRun e)
         ∈ trace (snd (scrapeStart_end quotaOnPage2
                         (scraper (exec quotaOnPage2 sqliteOk untilQuota quotaStart)))).
Proof.
  split; [vm_compute; reflexivity|].
  split; [vm_compute; reflexivity|].
  apply (flag_has_error quotaOnPage2 sqliteOk quotaStart untilQuota);
    vm_compute; reflexivity.
Defined.

Lemma missing_sqlite_module_stops_run_witness :
  outputType toSqlite = Some Sqlite
  /\ db_open sqliteMissing = OpenThrows "Cannot find module 'sqlite'"
  /\ match scrapeStart toSqlite sqliteMissing (roundRobin 1 12) with
     | Returned (Some value) s =>
         value = mkStats 1 1 0 0 1
         /\ error s = Some (sqliteError "Cannot find module 'sqlite'")
         /\ fetchedPages (trace s) = [1]
         /\ fetchedItems (trace s) = []
     | Returned None s => nothingToScrape toSqlite = true
     | Awaiting c =>
         stats (scraper c) = mkStats 1 1 0 0 1
         /\ done (scraper c) = true
         /\ running (tasks c) = 0
     end.
Proof.
  split; [reflexivity|]. split; [reflexivity|].
  apply (missing_sqlite_module_stops_run toSqlite sqliteMissing
           "Cannot find module 'sqlite'" (roundRobin 1 12)); reflexivity.
Defined.

Lemma page_details_determined_witness :
  tasks quotaStart !! 0 = Some (Queued 1 (Some (listOf [itemA; itemB] 2 2)))
  /\ eventualDetails quotaOnPage2 (Queued 1 (Some (listOf [itemA; itemB] 2 2)))
     = Some [itemA; itemB]
  /\ exists t',
      tasks (exec quotaOnPage2 sqliteOk untilQuota quotaStart) !! 0 = Some t'
      /\ (t' = Finished \/ eventualDetails quotaOnPage2 t' = Some [itemA; itemB])
      /\ forall page details,
          t' = AwaitScrapePageItems page details -> details = [itemA; itemB].
Proof.
  split; [reflexivity|]. split; [vm_compute; reflexivity|].
  apply (page_details_determined quotaOnPage2 sqliteOk quotaStart untilQuota 0
           (Queued 1 (Some (listOf [itemA; itemB] 2 2))) [itemA; itemB]);
    [reflexivity|vm_compute; reflexivity].
Defined.

Lemma details_without_detail_scraping_witness :
  scrapeDetails threePages = false
  /\ tasks pageFetched !! 0 = Some (AwaitFetchPage 1 (Some (listOf [itemA; itemB] 3 2)))
  /\ list_elements (listOf [itemA; itemB] 3 2) = Some [itemA; itemB]
  /\ tasks (exec threePages sqliteOk twoWrites pageFetched) !! 0
     = Some (AwaitScrapePageItems 1 [itemA; itemB])
  /\ [itemA; itemB] = List.filter hasId [itemA; itemB].
Proof.
  split; [reflexivity|]. split; [reflexivity|]. split; [reflexivity|].
  split; [vm_compute; reflexivity|].
  apply (details_without_detail_scraping threePages sqliteOk pageFetched twoWrites
           0 1 (listOf [itemA; itemB] 3 2) [itemA; itemB] 1 [itemA; itemB]);
    [reflexivity|reflexivity|reflexivity|vm_compute; reflexivity].
Defined.

Lemma transitions_bounded_witness :
  scheduledConf quotaOnPage2 sqliteOk = Some quotaStart
  /\ taken quotaOnPage2 sqliteOk untilQuota quotaStart
     <= 3 * itemsOffered quotaOnPage2 (length (tasks quotaStart))
        + 5 * length (tasks quotaStart) + 1.
Proof.
  split; [vm_compute; reflexivity|].
  apply (transitions_bounded quotaOnPage2 sqliteOk quotaStart untilQuota).
  vm_compute. reflexivity.
Defined.

Lemma failed_item_fetch_continues_witness :
  scrapeDetails noKey = true
  /\ tasks inLoop !! 0
     = Some (AwaitFetchItem 1 (listOf [itemA; itemB] 1 1) [] itemA [itemB])
  /\ itemDetailsOf (fetchItem noKey itemA) = None
  /\ exists c',
      step noKey sqliteOk (RunTask 0) inLoop = Some c'
      /\ tasks c'
         = <[0 := AwaitFetchItem 1 (listOf [itemA; itemB] 1 1) [] itemB []]>
             (tasks inLoop)
      /\ stats (scraper c') = incRequests (incItems (stats (scraper inLoop)))
      /\ done (scraper c') = done (scraper inLoop)
      /\ error (scraper c') = error (scraper inLoop)
      /\ fetchedItems (trace (scraper c'))
         = [itemB] ++ fetchedItems (trace (scraper inLoop)).
Proof.
  split; [reflexivity|]. split; [reflexivity|]. split; [reflexivity|].
  apply (failed_item_fetch_continues noKey sqliteOk inLoop 0 1
           (listOf [itemA; itemB] 1 1) [] itemA [itemB]); reflexivity.
Defined.

Lemma failed_page_fetch_is_empty_page_witness :
  tasks awaitsPage2 !! 1 = Some (AwaitFetchList 2)
  /\ fetchList page2Fails 2 = Rejected "ETIMEDOUT"
  /\ exists c' c'',
      step page2Fails sqliteOk (RunTask 1) awaitsPage2 = Some c'
      /\ tasks c' = <[1 := AwaitFetchPage 2 None]> (tasks awaitsPage2)
      /\ stats (scraper c') = incRequests (incPages (stats (scraper awaitsPage2)))
      /\ trace (scraper c')
         = Console (ErrorFetchingPage 2 "ETIMEDOUT") :: trace (scraper awaitsPage2)
      /\ done (scraper c') = done (scraper awaitsPage2)
      /\ error (scraper c') = error (scraper awaitsPage2)
      /\ step page2Fails sqliteOk (RunTask 1) c' = Some c''
      /\ tasks c'' = <[1 := Finished]> (tasks awaitsPage2)
      /\ stats (scraper c'') = stats (scraper c')
      /\ fetchedItems (trace (scraper c'')) = fetchedItems (trace (scraper awaitsPage2))
      /\ (done (scraper awaitsPage2) = false ->
          trace (scraper c'')
          = Console (InfoScrapedPage 2 0) :: trace (scraper c')).
Proof.
  split; [reflexivity|]. split; [reflexivity|].
  apply (failed_page_fetch_is_empty_page page2Fails sqliteOk awaitsPage2 1 2
           "ETIMEDOUT"); reflexivity.
Defined.

Lemma quota_on_page_fetch_witness :
  tasks awaitsPage2 !! 1 = Some (AwaitFetchList 2)
  /\ fetchList quotaWithError 2 = Resolved (Some list402Error)
  /\ list_status list402Error = Some 402
  /\ list_elements list402Error = Some [itemA]
  /\ exists c',
      step quotaWithError sqliteOk (RunTask 1) awaitsPage2 = Some c'
      /\ tasks c' = <[1 := AwaitFetchPage 2 None]> (tasks awaitsPage2)
      /\ done (scraper c') = true
      /\ error (scraper c') = Some (ErrorValue "Payment Required")
      /\ stats (scraper c') = stats (scraper awaitsPage2)
      /\ trace (scraper c') = trace (scraper awaitsPage2)
      /\ step quotaWithError sqliteOk (RunTask 1) c'
         = Some (mkConf (scraper c') (workers c')
                   (<[1 := Finished]> (tasks awaitsPage2))).
Proof.
  split; [reflexivity|]. split; [reflexivity|]. split; [reflexivity|].
  split; [reflexivity|].
  apply (quota_on_page_fetch quotaWithError sqliteOk awaitsPage2 1 2 list402Error);
    reflexivity.
Defined.


Lemma detail_fetch_needs_key_witness :
  postsParams !! "fetchItem" = None
  /\ fetchItem (constructor (readOptions (scrapeJobs_options onePost postsParams))) itemA
     = (if truthyString (Some (item_id itemA))
        then Some (fetchApiItem onePost "linkedin/job" [("jobId", item_id itemA)])
        else None)
  /\ fetchItem (constructor (readOptions (scrapeCompanies_options onePost postsParams)))
       itemA
     = match property "universalName" (item_fields itemA) with
       | Some name =>
           if truthyString (Some name)
           then Some (fetchApiItem onePost "linkedin/company" [("universalName", name)])
           else None
       | None => None
       end
  /\ fetchItem (constructor (readOptions (scrapeProfiles_options onePost postsParams)))
       itemA
     = match property "publicIdentifier" (item_fields itemA) with
       | Some name =>
           if truthyString (Some name)
           then Some (fetchApiItem onePost "linkedin/profile"
                        [("publicIdentifier", name)])
           else None
       | None => None
       end
  /\ exists value,
      fetchItem (constructor (readOptions (scrapePosts_options onePost postsParams)))
        itemA
      = Some (Resolved value)
      /\ resolvedElement value = (if hasId itemA then Some itemA else None)
      /\ is402 (value ≫= resp_status) = false
      /\ skipped value = false.
Proof.
  split; [vm_compute; reflexivity|].
  apply (detail_fetch_needs_key onePost postsParams itemA).
  vm_compute. reflexivity.
Defined.

Lemma posts_details_are_the_items_witness :
  postsParams !! "fetchItem" = None
  /\ detailsFrom (constructor (readOptions (scrapePosts_options onePost postsParams)))
       (listOf [itemA; itemB] 1 1) [itemA; itemB] []
     = [] ++ List.filter hasId [itemA; itemB].
Proof.
  split; [vm_compute; reflexivity|].
  apply (posts_details_are_the_items onePost postsParams
           (listOf [itemA; itemB] 1 1) [itemA; itemB] []).
  vm_compute. reflexivity.
Defined.

Lemma unstopped_run_counts_every_page_witness :
  scrapeStart threePages sqliteOk (roundRobin 3 24)
  = Returned (Some (stats threePagesEnd)) threePagesEnd
  /\ done threePagesEnd = false
  /\ pages (stats threePagesEnd) = totalPagesOf threePages (firstPageOf threePages)
  /\ pagesSuccess (stats threePagesEnd)
     = 1 + total (pageSuccess threePages)
             (seq 2 (totalPagesOf threePages (firstPageOf threePages) - 1)).
Proof.
  split; [vm_compute; reflexivity|].
  split; [vm_compute; reflexivity|].
  apply (unstopped_run_counts_every_page threePages sqliteOk (roundRobin 3 24)
           (stats threePagesEnd) threePagesEnd); vm_compute; reflexivity.
Defined.

(** *** Answers, the opening of the database, the end of a run *)

(** X20. With detail scraping, an answer that is not a 402 counts its item;
    it counts a request unless the answer is marked [skipped]; and when it
    carries an element and an id the item is a success and the task hands
    the element to the write queue, otherwise the loop goes on. *)
Theorem answered_item_counted (options : ListingScraperOptions)
    (sqlite : SqliteEnv) (c : Conf) (i page : nat) (lst : ApiListResponse)
    (details : list Item) (item : Item) (rest : list Item) (r : ApiItemResponse) :
  scrapeDetails options = true ->
  tasks c !! i = Some (AwaitFetchItem page lst details item rest) ->
  fetchItem options item = Some (Resolved (Some r)) ->
  is402 (resp_status r) = false ->
  exists c',
    step options sqlite (RunTask i) c = Some c'
    /\ items (stats (scraper c')) = S (items (stats (scraper c)))
    /\ requests (stats (scraper c'))
       = requests (stats (scraper c)) + (if resp_skipped r then 0 else 1)
    /\ itemsSuccess (stats (scraper c'))
       = itemsSuccess (stats (scraper c))
         + match resolvedElement (Some r) with Some _ => 1 | None => 0 end
    /\ tasks c'
       = <[i := match resolvedElement (Some r), rest with
                | Some element, _ =>
                    AwaitOnItemScraped page lst details element rest false
                | None, [] => AwaitScrapePageItems page details
                | None, next :: rest' => AwaitFetchItem page lst details next rest'
                end]> (tasks c)
    /\ done (scraper c') = done (scraper c)
    /\ error (scraper c') = error (scraper c).
Proof.
  intros Hsd Hi Hfetch H402. destruct c as [s w ts]. cbn [tasks scraper] in *.
  unfold step. cbn [tasks scraper workers]. rewrite Hi. cbn [inFlight orb resume].
  rewrite Hfetch.
  unfold scrapePageItems_fetched, scrapePageItems_item, countItem.
  unfold_monad; cbn [mbind option_bind skipped]. rewrite H402, Hsd.
  cbn [andb].
  destruct (resp_skipped r); cbn [negb];
    destruct (resolvedElement (Some r)) as [element|];
    destruct rest as [|next rest']; cbn [scrapePageItems_from]; rewrite ?Hsd;
    eexists; (split; [reflexivity|]); cbn; split_and!; auto; lia.
Qed.

(** X21. When the opening of the database fails after its first [await],
    the settling sets the flag and replaces whatever [error] held by the
    failure of the database.  If [open] itself rejects, the opening settles
    when it is first resumed and [this.db] is left as it was; if [open] gives
    a database, [this.db] is assigned first, flag and error untouched, and
    the opening settles when [CREATE TABLE] rejects.  No counter moves, the
    page tasks stay where they are, and the writes that waited for the
    opening can run. *)
Theorem failed_opening_sets_flag (options : ListingScraperOptions)
    (sqlite : SqliteEnv) (c : Conf) (reason : string) (handle : bool) :
  sqliteDatabaseOpenPromise (scraper c) = Pending ->
  db_open sqlite = OpenRejects reason handle ->
  exists c1 c',
    step options sqlite SettleOpen c = Some c1
    /\ (if handle
        then sqliteDatabaseOpenPromise (scraper c1) = Creating
             /\ db (scraper c1) = true
             /\ done (scraper c1) = done (scraper c)
             /\ error (scraper c1) = error (scraper c)
             /\ step options sqlite SettleOpen c1 = Some c'
        else c1 = c')
    /\ exec options sqlite [SettleOpen; SettleOpen] c = c'
    /\ done (scraper c') = true
    /\ error (scraper c') = Some (sqliteError reason)
    /\ db (scraper c') = handle || db (scraper c)
    /\ sqliteDatabaseOpenPromise (scraper c') = Fulfilled
    /\ stats (scraper c') = stats (scraper c)
    /\ trace (scraper c') = trace (scraper c)
    /\ tasks c' = tasks c
    /\ writeReady options (scraper c') = true.
Proof.
  intros Hp Hopen. destruct c as [s w ts]. cbn [tasks scraper] in *.
  unfold exec, step. cbn [tasks scraper workers]. rewrite Hp. cbn [isPending].
  unfold createSqliteDatabase_resume, createSqliteDatabase_opened,
    createSqliteDatabase_settled, opens, writeReady.
  rewrite Hp, Hopen. unfold_monad.
  destruct handle; cbn; eexists; eexists; (split; [reflexivity|]); cbn;
    rewrite ?Hopen; cbn; split_and!; auto;
    try (destruct (isSqlite (outputType options)); reflexivity).
Qed.

Lemma openingPhase_stable options sqlite : Stable options sqlite openingPhase.
Proof.
  unfold openingPhase. split; [split|..].
  - intros line s _ H. exact H.
  - intros page s H. exact H.
  - intros item s _ H. exact H.
  - intros e s H. exact H.
  - intros b s H. unfold when. destruct b; exact H.
  - intros itemDetails s H. unfold countItem. unfold_monad.
    destruct (scrapeDetails options && negb (skipped itemDetails)),
      (resolvedElement itemDetails); exact H.
  - intros element s _ H.
    destruct (onItemScraped_frame options sqlite element s) as (_ & _ & -> & ->).
    exact H.
  - intros s _ H.
    destruct (createSqliteDatabase_resume_run sqlite s)
      as (_ & _ & _ & _ & _ & _ & [[-> _]|(_ & -> & _ & -> & _)]);
      split; auto; discriminate.
Qed.

Lemma handle_stable options (b : bool) (p : PromiseState) :
  StableTask options (fun s => db s = b /\ sqliteDatabaseOpenPromise s = p).
Proof.
  split.
  - intros line s _ H. exact H.
  - intros page s H. exact H.
  - intros item s _ H. exact H.
  - intros e s H. exact H.
  - intros b' s H. unfold when. destruct b'; exact H.
  - intros itemDetails s H. unfold countItem. unfold_monad.
    destruct (scrapeDetails options && negb (skipped itemDetails)),
      (resolvedElement itemDetails); exact H.
Qed.

(** *** Pages without elements *)

Lemma resume_itemless options t m s t' s' :
  (forall page, elementsOf (fetchList options page) = []) ->
  itemless t -> resume options t = Some m -> m s = (t', s') -> itemless t'.
Proof.
  intros Hel.
  assert (Hend : forall page details s0 t0 s1,
            scrapePage_end page details s0 = (t0, s1) -> itemless t0).
  { intros page details s0 t0 s1. unfold scrapePage_end. unfold_monad.
    destruct (done s0); intros [= <- <-]; exact I. }
  assert (Hwith : forall page lst s0 t0 s1,
            default [] (lst ≫= list_elements) = [] ->
            scrapePage_withList options page lst s0 = (t0, s1) -> itemless t0).
  { intros page lst s0 t0 s1 Hl. unfold scrapePage_withList. unfold bind at 1.
    unfold getDone. destruct (done s0); [intros [= <- <-]; exact I|].
    destruct lst as [l|]; [|apply Hend]. cbn in Hl.
    destruct (list_elements l) as [elements|]; [|apply Hend].
    cbn in Hl. subst elements. cbn. intros [= <- <-]. exact I. }
  destruct t as [page [l|]|page|page [l|]|page lst details item rest
                |page lst details element rest written|page details|];
    cbn [resume itemless]; try discriminate; try contradiction.
  - intros Hl [= <-]. unfold scrapePage_start. unfold bind at 1. unfold getDone.
    destruct (done s); [intros [= <- <-]; exact I|]. apply Hwith. exact Hl.
  - intros _ [= <-]. unfold scrapePage_start, fetchPage_call. unfold_monad.
    destruct (done s); intros [= <- <-]; exact I.
  - intros _ [= <-]. unfold bind at 1.
    destruct (fetchPage_settled page (fetchList options page) s)
      as [result s1] eqn:Hfp.
    unfold ret. intros [= <- <-].
    specialize (Hel page). revert Hfp. unfold fetchPage_settled.
    destruct (fetchList options page) as [[l|]|reason]; unfold_monad; cbn.
    + destruct (is402 (list_status l)), (truthyString (list_id l)); cbn;
        intros [= <- _]; cbn; auto.
    + intros [= <- _]. exact I.
    + intros [= <- _]. exact I.
  - intros Hl [= <-]. apply Hwith. exact Hl.
  - intros _ [= <-]. apply Hwith. reflexivity.
  - intros _ [= <-]. apply Hend.
Qed.

Lemma progress_itemless options sqlite c :
  Forall itemless (tasks c) ->
  allFinished (tasks c) = false -> 1 <= workers c ->
  exists i c', step options sqlite (RunTask i) c = Some c'.
Proof.
  destruct c as [s w ts]. cbn [tasks workers]. intros Hless Hnot Hw.
  assert (Hrun : forall i t m, ts !! i = Some t ->
            inFlight t || hasFreeWorker w ts = true -> resume options t = Some m ->
            exists i c', step options sqlite (RunTask i) (mkConf s w ts) = Some c').
  { intros i t m Hi Hg Hm. exists i. unfold step. cbn [tasks workers scraper].
    rewrite Hi, Hg, Hm. destruct (m s). eauto. }
  destruct (running_zero_or_inFlight ts) as [Hz|(i & t & Hi & Ht)].
  - destruct (not_allFinished _ Hnot) as (i & t & Hi & Hf).
    pose proof (running_zero_lookup _ _ _ Hz Hi) as Hq.
    destruct t; try discriminate.
    eapply Hrun; [exact Hi| |reflexivity].
    unfold hasFreeWorker. rewrite Hz. cbn [inFlight orb]. apply Nat.ltb_lt. lia.
  - pose proof (proj1 (Forall_lookup _ _) Hless i t Hi) as Hl.
    destruct t; try discriminate; try contradiction;
      (eapply Hrun; [exact Hi|reflexivity|reflexivity]).
Qed.

(** With no element on any page the page tasks can run to their end without
    the opening of the database making a move. *)
Lemma can_finish_itemless options sqlite n : forall c,
  (forall page, elementsOf (fetchList options page) = []) ->
  measure options c <= n -> 1 <= workers c -> Forall itemless (tasks c) ->
  exists more,
    allFinished (tasks (exec options sqlite more c)) = true
    /\ db (scraper (exec options sqlite more c)) = db (scraper c)
    /\ sqliteDatabaseOpenPromise (scraper (exec options sqlite more c))
       = sqliteDatabaseOpenPromise (scraper c)
    /\ (noOutput (scraper c) -> noOutput (scraper (exec options sqlite more c))).
Proof.
  intros c Hel. revert c.
  induction n as [|n IH]; intros c Hm Hw Hless.
  all: destruct (allFinished (tasks c)) eqn:Hfin; [by exists []|].
  all: destruct (progress_itemless options sqlite c Hless Hfin Hw)
         as (i & c' & Hstep).
  all: destruct (step_run _ _ _ _ _ Hstep) as (Hw' & _ & Hdec & _).
  - lia.
  - assert (Hkeep : Forall itemless (tasks c')
                    /\ db (scraper c') = db (scraper c)
                    /\ sqliteDatabaseOpenPromise (scraper c')
                       = sqliteDatabaseOpenPromise (scraper c)).
    { revert Hstep. destruct c as [s w ts]. cbn [step tasks scraper workers].
      destruct (ts !! i) as [t|] eqn:Hi; [|discriminate].
      destruct (inFlight t || hasFreeWorker w ts); [|discriminate].
      destruct (resume options t) as [m|] eqn:Hres; [|discriminate].
      destruct (m s) as [t' s'] eqn:Hms. intros [= <-]. cbn [tasks scraper].
      split.
      - apply Forall_insert; [exact Hless|].
        eapply resume_itemless; [exact Hel| |exact Hres|exact Hms].
        exact (proj1 (Forall_lookup _ _) Hless i t Hi).
      - destruct (resume_accounts _ _ _ _ _ _ _
                    (handle_stable options (db s) (sqliteDatabaseOpenPromise s))
                    Hres Hms) as (Hp & _).
        apply Hp. split; reflexivity. }
    destruct Hkeep as (Hless' & Hdb & Hp).
    destruct (IH c') as (more & Hfin' & Hdb' & Hp' & Hno); [lia|lia|exact Hless'|].
    exists (RunTask i :: more). cbn [exec]. rewrite Hstep. cbn [default from_option id].
    split_and!; [exact Hfin'|congruence|congruence|].
    intros H. apply Hno.
    destruct (step_accounts _ _ _ _ _ _ (noOutput_stable options sqlite) Hstep)
      as (Hkeep & _).
    exact (Hkeep H).
Qed.

Lemma pageTasks_itemless options :
  (forall page, elementsOf (fetchList options page) = []) ->
  forall total, Forall itemless (pageTasks (firstPageOf options) total).
Proof.
  intros Hel total. unfold pageTasks. apply Forall_map, Forall_forall.
  intros page _. cbn. destruct (page =? 1)%nat; [|exact I].
  destruct (firstPageOf options) as [l|] eqn:Hl; [|exact I]. cbn.
  specialize (Hel 1). rewrite (firstPage_from_list _ _ Hl) in Hel. exact Hel.
Qed.

(** X14. [scrapeStart] does not wait for the opening of the database.  With
    SQLite output and the modules loaded, a run whose pages bring no element
    can return while [open] is still awaited, [this.db] being [null] and
    nothing closed; if [open] gives a database it can also return while
    [CREATE TABLE] is awaited, and [finalize] has then closed the database
    under the statement.  Whatever the pages bring, a run returns with the
    opening unsettled only when no item succeeded, and nothing has been
    inserted by then. *)
Theorem unsettled_opening_left_behind (options : ListingScraperOptions)
    (sqlite : SqliteEnv) :
  outputType options = Some Sqlite ->
  (forall schedule,
      match scrapeStart options sqlite schedule with
      | Returned (Some value) s =>
          isPending (sqliteDatabaseOpenPromise s) = true ->
          itemsSuccess value = 0
          /\ storeEvents (trace s) = []
          /\ (sqliteDatabaseOpenPromise s = Pending ->
              db s = false /\ closings (trace s) = [])
          /\ (sqliteDatabaseOpenPromise s = Creating ->
              db s = true /\ closings (trace s) = [DbClose])
      | Returned None s => sqliteDatabaseOpenPromise s = NotCreated
      | Awaiting c =>
          isPending (sqliteDatabaseOpenPromise (scraper c)) = true ->
          itemsSuccess (stats (scraper c)) = pendingWrites (tasks c)
      end)
  /\ (nothingToScrape options = false ->
      (forall reason, db_open sqlite <> OpenThrows reason) ->
      (forall page, elementsOf (fetchList options page) = []) ->
      (exists schedule value s,
          scrapeStart options sqlite schedule = Returned (Some value) s
          /\ sqliteDatabaseOpenPromise s = Pending
          /\ db s = false
          /\ closings (trace s) = [])
      /\ (opens sqlite = true ->
          exists schedule value s,
            scrapeStart options sqlite schedule = Returned (Some value) s
            /\ sqliteDatabaseOpenPromise s = Creating
            /\ db s = true
            /\ closings (trace s) = [DbClose])).
Proof.
  intros Ho. split.
  - intros schedule.
    destruct (scrapeStart_cases options sqlite schedule)
      as [(s & Hb & ->)|(c0 & H0 & ->)].
    + revert Hb. unfold scrapeStart_begin. unfold bind at 1.
      pose proof (fetchPage_first_state options) as H.
      destruct (fetchPage options 1 newScraper) as [fp s1].
      destruct H as (_ & _ & Hp & _).
      destruct (negb (bool_decide (is_Some fp))
                || (totalPagesOf options fp =? 0)%nat).
      * unfold reportError. unfold_monad.
        destruct (error s1) as [[[|a e]|es]|]; cbn; intros [= <-]; exact Hp.
      * unfold createSqliteDatabase_call. unfold_monad. rewrite Ho. cbn [isSqlite].
        destruct (db_open sqlite); cbn; discriminate.
    + pose proof (scheduled_accounted options sqlite c0 schedule
                    (hasStore_sqlite _ Ho) H0) as Hacc.
      unfold writesDone in Hacc. rewrite Ho in Hacc. cbn [isJson] in Hacc.
      destruct (scheduledConf_state _ _ _ H0)
        as (_ & _ & Hdb & (n & m & Ht) & _).
      assert (Hw : waitsForOpen (scraper (exec options sqlite schedule c0))).
      { apply (scheduled_keeps _ _ _ _ _ (waitsForOpen_stable options sqlite) H0).
        unfold waitsForOpen. rewrite Ht. reflexivity. }
      assert (Hph : openingPhase (scraper (exec options sqlite schedule c0))).
      { apply (scheduled_keeps _ _ _ _ _ (openingPhase_stable options sqlite) H0).
        unfold openingPhase. rewrite Hdb. split; [reflexivity|].
        intros Hc. destruct (scheduledConf_state _ _ _ H0)
          as (_ & _ & _ & _ & _ & _ & Hst).
        rewrite Hc in Hst.
        destruct (isSqlite (outputType options)); [destruct (db_open sqlite)|];
          discriminate. }
      assert (Hno : noOutput (scraper (exec options sqlite schedule c0))).
      { apply (scheduled_keeps _ _ _ _ _ (noOutput_stable options sqlite) H0).
        unfold noOutput. rewrite Ht. split; reflexivity. }
      destruct Hph as [Hph1 Hph2]. clear Hdb.
      destruct (allFinished _) eqn:Hfin.
      * rewrite (allFinished_pendingWrites _ Hfin) in Hacc.
        pose proof (end_of_run options
                      (scraper (exec options sqlite schedule c0))) as He.
        pose proof (end_store options
                      (scraper (exec options sqlite schedule c0))) as Hst.
        pose proof (end_frame options
                      (scraper (exec options sqlite schedule c0))) as Hfr.
        pose proof (end_output options _ Hno) as Hout.
        destruct (scrapeStart_end options _) as [v s']. cbn [fst snd] in *.
        destruct He as (-> & _). destruct Hst as (_ & Hse & _).
        destruct Hfr as (Hdb' & Hp'). destruct Hout as [_ Hcl].
        rewrite Hp', Hse. intros Hpending.
        rewrite (Hw Hpending) in *. cbn in Hacc.
        split_and!; [lia|reflexivity| |].
        -- intros Hp. rewrite Hcl, Hdb', (Hph1 Hp). auto.
        -- intros Hp. rewrite Hcl, Hdb', (Hph2 Hp). auto.
      * intros Hpending. rewrite (Hw Hpending) in Hacc. exact Hacc.
  - intros Hsome Hthrow Hel.
    destruct (scheduledConf options sqlite) as [c0|] eqn:H0.
    2:{ exfalso. revert H0 Hsome. unfold scheduledConf, nothingToScrape.
        pose proof (begin_run options sqlite) as H.
        destruct (scrapeStart_begin options sqlite newScraper) as [[|w ts] s];
          [|discriminate].
        destruct H as (Hwhy & _). intros _.
        destruct Hwhy as [-> | Hz]; [discriminate|].
        rewrite Hz. destruct (firstPageOf options); discriminate. }
    destruct (scheduledConf_run _ _ _ H0) as (_ & _ & Hw & Hts & _).
    destruct (scheduledConf_state _ _ _ H0)
      as (_ & _ & Hdb & (n & m & Ht) & _ & _ & Hst).
    rewrite Ho in Hst. cbn [isSqlite] in Hst.
    assert (Hp0 : sqliteDatabaseOpenPromise (scraper c0) = Pending).
    { destruct (db_open sqlite) as [|reason|reason handle] eqn:Hop;
        [congruence|destruct (Hthrow reason eq_refl)|congruence]. }
    assert (Hw1 : 1 <= workers c0).
    { rewrite Hw. apply numberOr_positive. lia. }
    assert (Hless : Forall itemless (tasks c0)).
    { rewrite Hts. apply pageTasks_itemless. exact Hel. }
    assert (Hno0 : noOutput (scraper c0)).
    { unfold noOutput. rewrite Ht. split; reflexivity. }
    assert (Hret : forall schedule,
              scheduledConf options sqlite = Some c0 ->
              allFinished (tasks (exec options sqlite schedule c0)) = true ->
              noOutput (scraper (exec options sqlite schedule c0)) ->
              exists value s,
                scrapeStart options sqlite schedule = Returned (Some value) s
                /\ sqliteDatabaseOpenPromise s
                   = sqliteDatabaseOpenPromise
                       (scraper (exec options sqlite schedule c0))
                /\ db s = db (scraper (exec options sqlite schedule c0))
                /\ closings (trace s) = (if db s then [DbClose] else [])).
    { intros schedule Hc0 Hfin Hno.
      destruct (scrapeStart_cases options sqlite schedule)
        as [(s & Hb & _)|(c & Hc & ->)].
      - exfalso. revert Hc0. unfold scheduledConf. rewrite Hb. discriminate.
      - rewrite Hc0 in Hc. injection Hc as <-. rewrite Hfin.
        pose proof (end_frame options
                      (scraper (exec options sqlite schedule c0))) as Hfr.
        pose proof (end_output options _ Hno) as Hout.
        destruct (scrapeStart_end options _) as [v s']. cbn [fst snd] in *.
        destruct Hfr as (Hdb' & Hp'). destruct Hout as [_ Hcl].
        exists v, s'. auto. }
    split.
    + destruct (can_finish_itemless options sqlite _ c0 Hel (le_n _) Hw1 Hless)
        as (more & Hfin & Hdb' & Hp' & Hno).
      destruct (Hret more H0 Hfin (Hno Hno0)) as (value & s & Hrun & Hp & Hd & Hcl).
      exists more, value, s. rewrite Hcl, Hd, Hp, Hdb', Hp', Hdb. auto.
    + intros Hopens.
      destruct (step options sqlite SettleOpen c0) as [c1|] eqn:Hstep.
      2:{ revert Hstep. unfold step. rewrite Hp0. cbn [isPending].
          destruct (createSqliteDatabase_resume sqlite (scraper c0)). discriminate. }
      assert (H1 : tasks c1 = tasks c0 /\ workers c1 = workers c0
                   /\ db (scraper c1) = true
                   /\ sqliteDatabaseOpenPromise (scraper c1) = Creating
                   /\ noOutput (scraper c1)).
      { revert Hstep. unfold step. rewrite Hp0. cbn [isPending].
        unfold createSqliteDatabase_resume. rewrite Hp0, Hopens.
        unfold createSqliteDatabase_opened. unfold_monad.
        intros [= <-]. cbn. auto. }
      destruct H1 as (Hts1 & Hws1 & Hdb1 & Hp1 & Hno1).
      destruct (step_run _ _ _ _ _ Hstep) as (_ & _ & Hdec & _).
      destruct (can_finish_itemless options sqlite (measure options c1) c1 Hel
                  (le_n _)) as (more & Hfin & Hdb' & Hp' & Hno);
        [lia|rewrite Hts1; exact Hless|].
      assert (Hex : exec options sqlite (SettleOpen :: more) c0
                    = exec options sqlite more c1).
      { cbn [exec]. rewrite Hstep. reflexivity. }
      destruct (Hret (SettleOpen :: more) H0) as (value & s & Hrun & Hp & Hd & Hcl).
      * rewrite Hex. exact Hfin.
      * rewrite Hex. exact (Hno Hno1).
      * exists (SettleOpen :: more), value, s.
        rewrite Hcl, Hd, Hp, Hex, Hdb', Hp', Hdb1, Hp1. auto.
Qed.

Lemma unsettled_opening_left_behind_witness :
  outputType emptyPage = Some Sqlite
  /\ match scrapeStart emptyPage sqliteOk [RunTask 0; RunTask 0] with
     | Returned (Some value) s =>
         sqliteDatabaseOpenPromise s = Pending /\ db s = false
         /\ closings (trace s) = []
     | _ => False
     end
  /\ match scrapeStart emptyPage sqliteOk [SettleOpen; RunTask 0; RunTask 0] with
     | Returned (Some value) s =>
         sqliteDatabaseOpenPromise s = Creating /\ db s = true
         /\ closings (trace s) = [DbClose]
     | _ => False
     end
  /\ (exists schedule value s,
         scrapeStart emptyPage sqliteOk schedule = Returned (Some value) s
         /\ sqliteDatabaseOpenPromise s = Pending
         /\ db s = false
         /\ closings (trace s) = [])
  /\ (exists schedule value s,
         scrapeStart emptyPage sqliteOk schedule = Returned (Some value) s
         /\ sqliteDatabaseOpenPromise s = Creating
         /\ db s = true
         /\ closings (trace s) = [DbClose]).
Proof.
  split; [reflexivity|].
  split; [vm_compute; auto|].
  split; [vm_compute; auto|].
  destruct (unsettled_opening_left_behind emptyPage sqliteOk eq_refl)
    as [_ Hcan].
  destruct Hcan as [Hpending Hcreating].
  - reflexivity.
  - discriminate.
  - intros page. reflexivity.
  - split; [exact Hpending|]. apply Hcreating. reflexivity.
Defined.

(** X22. What [finalize] does is done once, and only at the end of a run
    that returns its stats: one JSON document with the returned stats and
    the elements held, exactly when the output is JSON, and one closing of
    the database, exactly when [this.db] holds one.  A run still waiting
    for its pages, and the fatal start, have written and closed nothing. *)
Theorem finalize_runs_once (options : ListingScraperOptions) (sqlite : SqliteEnv)
    (schedule : list Label) :
  match scrapeStart options sqlite schedule with
  | Returned (Some value) s =>
      documents (trace s)
      = (if isJson (outputType options) then [(value, inMemoryItems s)] else [])
      /\ closings (trace s) = (if db s then [DbClose] else [])
  | Returned None s => noOutput s
  | Awaiting c => noOutput (scraper c)
  end.
Proof.
  pose proof (begin_noOutput options sqlite) as Hb0.
  destruct (scrapeStart_cases options sqlite schedule)
    as [(s & Hb & ->)|(c0 & H0 & ->)].
  - rewrite Hb in Hb0. exact Hb0.
  - assert (Hc : noOutput (scraper (exec options sqlite schedule c0))).
    { apply (scheduled_keeps _ _ _ _ _ (noOutput_stable options sqlite) H0).
      unfold scheduledConf in H0.
      destruct (scrapeStart_begin options sqlite newScraper) as [[|w ts] s];
        [discriminate|]. injection H0 as <-. exact Hb0. }
    destruct (allFinished _); [|exact Hc].
    pose proof (end_output options _ Hc) as He.
    destruct (scrapeStart_end options _) as [v s']. exact He.
Qed.

(** *** More of the LinkedIn options *)




Lemma answered_item_counted_witness :
  scrapeDetails skippingItems = true
  /\ tasks inLoop !! 0
     = Some (AwaitFetchItem 1 (listOf [itemA; itemB] 1 1) [] itemA [itemB])
  /\ fetchItem skippingItems itemA = Some (Resolved (Some skippedA))
  /\ is402 (resp_status skippedA) = false
  /\ exists c',
      step skippingItems sqliteOk (RunTask 0) inLoop = Some c'
      /\ items (stats (scraper c')) = S (items (stats (scraper inLoop)))
      /\ requests (stats (scraper c')) = requests (stats (scraper inLoop)) + 0
      /\ itemsSuccess (stats (scraper c')) = itemsSuccess (stats (scraper inLoop)) + 1
      /\ tasks c'
         = <[0 := AwaitOnItemScraped 1 (listOf [itemA; itemB] 1 1) [] itemA [itemB]
                    false]> (tasks inLoop)
      /\ done (scraper c') = done (scraper inLoop)
      /\ error (scraper c') = error (scraper inLoop).
Proof.
  split; [reflexivity|]. split; [reflexivity|]. split; [reflexivity|].
  split; [reflexivity|].
  apply (answered_item_counted skippingItems sqliteOk inLoop 0 1
           (listOf [itemA; itemB] 1 1) [] itemA [itemB] skippedA); reflexivity.
Defined.

Lemma failed_opening_sets_flag_witness :
  sqliteDatabaseOpenPromise (scraper opening) = Pending
  /\ db_open sqliteNoTable = OpenRejects "SQLITE_READONLY" true
  /\ exists c1 c',
      step toSqlite sqliteNoTable SettleOpen opening = Some c1
      /\ (if true
          then sqliteDatabaseOpenPromise (scraper c1) = Creating
               /\ db (scraper c1) = true
               /\ done (scraper c1) = done (scraper opening)
               /\ error (scraper c1) = error (scraper opening)
               /\ step toSqlite sqliteNoTable SettleOpen c1 = Some c'
          else c1 = c')
      /\ exec toSqlite sqliteNoTable [SettleOpen; SettleOpen] opening = c'
      /\ done (scraper c') = true
      /\ error (scraper c') = Some (sqliteError "SQLITE_READONLY")
      /\ db (scraper c') = true || db (scraper opening)
      /\ sqliteDatabaseOpenPromise (scraper c') = Fulfilled
      /\ stats (scraper c') = stats (scraper opening)
      /\ trace (scraper c') = trace (scraper opening)
      /\ tasks c' = tasks opening
      /\ writeReady toSqlite (scraper c') = true.
Proof.
  split; [reflexivity|]. split; [reflexivity|].
  apply (failed_opening_sets_flag toSqlite sqliteNoTable opening
           "SQLITE_READONLY" true); reflexivity.
Defined.


(** *** The item counters of a run that is not stopped *)

Lemma sumOver_insert f ts : forall i t t',
  ts !! i = Some t ->
  sumOver f (<[i := t']> ts) + f t = sumOver f ts + f t'.
Proof.
  induction ts as [|a ts IH]; intros [|i] t t' H; simpl in *; try discriminate.
  - injection H as ->. lia.
  - specialize (IH _ _ t' H). lia.
Qed.

Lemma sumOver_finished f ts :
  f Finished = 0 -> allFinished ts = true -> sumOver f ts = 0.
Proof.
  intros Hf. unfold allFinished. induction ts as [|t ts IH]; simpl; [done|].
  destruct t; simpl; try discriminate. intros H. rewrite Hf, (IH H). done.
Qed.

Lemma detailsFrom_length options lst remaining : forall details,
  length (detailsFrom options lst remaining details)
  = length details + length (detailsFrom options lst remaining []).
Proof.
  induction remaining as [|item rest IH]; intros details; cbn [detailsFrom].
  - cbn. lia.
  - assert (Hafter : forall itemDetails,
      length (detailsAfter (detailsFrom options lst rest) details itemDetails)
      = length details
        + length (detailsAfter (detailsFrom options lst rest) [] itemDetails)).
    { intros itemDetails. unfold detailsAfter.
      destruct (resolvedElement itemDetails) as [element|]; [|apply IH].
      rewrite (IH (details ++ [element])), (IH ([] ++ [element])), !length_app.
      cbn. lia. }
    destruct (scrapeDetails options); [|apply Hafter].
    destruct (is402 _); [cbn; lia|apply Hafter].
Qed.

Lemma detailsAfter_length options lst rest itemDetails :
  length (detailsAfter (detailsFrom options lst rest) [] itemDetails)
  = match resolvedElement itemDetails with Some _ => 1 | None => 0 end
    + length (detailsFrom options lst rest []).
Proof.
  unfold detailsAfter. destruct (resolvedElement itemDetails) as [element|]; [|done].
  rewrite detailsFrom_length. cbn. lia.
Qed.

Lemma countItem_items options itemDetails s :
  items (stats (snd (countItem options itemDetails s))) = S (items (stats s)).
Proof.
  unfold countItem. unfold_monad.
  destruct (scrapeDetails options && negb (skipped itemDetails)),
    (resolvedElement itemDetails); reflexivity.
Qed.

Lemma countItem_requests options itemDetails s :
  requests (stats (snd (countItem options itemDetails s)))
  = requests (stats s) + requestOf options itemDetails.
Proof.
  unfold countItem, requestOf. unfold_monad.
  destruct (scrapeDetails options && negb (skipped itemDetails)),
    (resolvedElement itemDetails); cbn; lia.
Qed.

Lemma item_counts options continue page lst details rest itemDetails s t' s' :
  (forall s1 t1 s2, continue s1 = (t1, s2) ->
     items (stats s2) + itemsLeft options t1 = items (stats s1) + length rest
     /\ itemsSuccess (stats s2) + successesLeft options t1
        = itemsSuccess (stats s1) + length (detailsFrom options lst rest [])
     /\ requests (stats s2) + requestsLeft options t1
        = requests (stats s1) + requestsFrom options rest) ->
  scrapePageItems_item options continue page lst details rest itemDetails s = (t', s') ->
  items (stats s') + itemsLeft options t' = items (stats s) + S (length rest)
  /\ itemsSuccess (stats s') + successesLeft options t'
     = itemsSuccess (stats s)
       + length (detailsAfter (detailsFrom options lst rest) [] itemDetails)
  /\ requests (stats s') + requestsLeft options t'
     = requests (stats s) + requestOf options itemDetails
       + requestsFrom options rest.
Proof.
  intros Hcont. unfold scrapePageItems_item, bind.
  pose proof (countItem_items options itemDetails s) as Hitems.
  pose proof (countItem_success options itemDetails s) as Hsucc.
  pose proof (countItem_requests options itemDetails s) as Hreq.
  destruct (countItem_frame options itemDetails s) as (_ & _ & _ & Hfst).
  rewrite detailsAfter_length.
  destruct (countItem options itemDetails s) as [stored s1]. cbn [fst snd] in *.
  subst stored.
  destruct (resolvedElement itemDetails) as [element|].
  - unfold ret. intros [= <- <-]. cbn [itemsLeft successesLeft requestsLeft]. lia.
  - intros Hk. destruct (Hcont _ _ _ Hk) as (H1 & H2 & H3). lia.
Qed.

Lemma from_counts options page lst remaining :
  forall details s t' s',
    scrapePageItems_from options page lst details remaining s = (t', s') ->
    items (stats s') + itemsLeft options t' = items (stats s) + length remaining
    /\ itemsSuccess (stats s') + successesLeft options t'
       = itemsSuccess (stats s) + length (detailsFrom options lst remaining [])
    /\ requests (stats s') + requestsLeft options t'
       = requests (stats s) + requestsFrom options remaining.
Proof.
  induction remaining as [|item rest IH]; intros details s t' s';
    cbn [scrapePageItems_from detailsFrom requestsFrom].
  - unfold ret. intros [= <- <-]. cbn. lia.
  - destruct (scrapeDetails options) eqn:Hsd.
    + unfold_monad. intros [= <- <-].
      cbn [itemsLeft successesLeft requestsLeft stats length].
      destruct (is402 _); [cbn; lia|]. rewrite detailsAfter_length. lia.
    + intros H. eapply item_counts in H; [|intros s1 t1 s2; apply IH].
      destruct H as (H1 & H2 & H3). unfold requestOf in H3. rewrite Hsd in H3.
      cbn in H3. split_and!; auto; lia.
Qed.

Lemma fetched_counts options page lst details item rest s t' s' :
  scrapePageItems_fetched options page lst details rest (fetchItem options item) s
  = (t', s') ->
  done s' = false ->
  items (stats s') + itemsLeft options t' = items (stats s) + S (length rest)
  /\ itemsSuccess (stats s') + successesLeft options t'
     = itemsSuccess (stats s)
       + successesLeft options (AwaitFetchItem page lst details item rest)
  /\ requests (stats s') + requestsLeft options t'
     = requests (stats s)
       + requestsLeft options (AwaitFetchItem page lst details item rest).
Proof.
  unfold scrapePageItems_fetched. unfold bind at 1.
  cbn [successesLeft requestsLeft].
  assert (Htail : forall itemDetails s0,
    (if is402 (itemDetails ≫= resp_status)
     then setDone ;;
          setError (errorOrQuota (itemDetails ≫= resp_error)) ;;
          ret (AwaitScrapePageItems page details)
     else scrapePageItems_item options
            (scrapePageItems_from options page lst details rest)
            page lst details rest itemDetails) s0 = (t', s') ->
    done s' = false ->
    items (stats s') + itemsLeft options t' = items (stats s0) + S (length rest)
    /\ itemsSuccess (stats s') + successesLeft options t'
       = itemsSuccess (stats s0)
         + (if is402 (itemDetails ≫= resp_status) then 0
            else match resolvedElement itemDetails with
                 | Some _ => 1
                 | None => 0
                 end + length (detailsFrom options lst rest []))
    /\ requests (stats s') + requestsLeft options t'
       = requests (stats s0) + requestOf options itemDetails
         + requestsFrom options rest).
  { intros itemDetails s0. destruct (is402 (itemDetails ≫= resp_status)).
    - unfold_monad. intros [= <- <-]. cbn. discriminate.
    - intros H _. eapply item_counts in H.
      + rewrite detailsAfter_length in H. exact H.
      + intros s1 t1 s2. apply from_counts. }
  destruct (fetchItem options item) as [[value|reason]|];
    cbn [itemDetailsOf]; intros H Hd;
    [ specialize (Htail value s H Hd)
    | specialize (Htail None (snd (emit (Console (ErrorScrapingItem reason)) s)) H Hd)
    | specialize (Htail None s H Hd) ];
    destruct Htail as (H1 & H2 & H3); (split_and!; [exact H1|exact H2|]);
    cbn in H3; lia.
Qed.

Lemma withList_counts options page lst s t' s' :
  scrapePage_withList options page lst s = (t', s') ->
  done s' = false ->
  items (stats s') + itemsLeft options t'
  = items (stats s) + length (default [] (lst ≫= list_elements))
  /\ itemsSuccess (stats s') + successesLeft options t'
     = itemsSuccess (stats s) + length (listDetails options lst)
  /\ requests (stats s') + requestsLeft options t'
     = requests (stats s)
       + requestsFrom options (default [] (lst ≫= list_elements)).
Proof.
  unfold scrapePage_withList, scrapePage_end. unfold bind at 1. unfold getDone.
  destruct (done s) eqn:Hd.
  - unfold ret. intros [= <- <-]. congruence.
  - destruct lst as [l|]; cbn [listDetails mbind option_bind];
      [destruct (list_elements l) as [elements|]|].
    + intros H _. cbn [default from_option id]. exact (from_counts _ _ _ _ _ _ _ _ H).
    + unfold_monad. rewrite Hd. intros [= <- <-]. cbn. lia.
    + unfold_monad. rewrite Hd. intros [= <- <-]. cbn. lia.
Qed.

Lemma fetchPage_settled_result options page s :
  fst (fetchPage_settled page (fetchList options page) s)
  = settledList (fetchList options page)
  /\ items (stats (snd (fetchPage_settled page (fetchList options page) s)))
     = items (stats s)
  /\ itemsSuccess (stats (snd (fetchPage_settled page (fetchList options page) s)))
     = itemsSuccess (stats s)
  /\ requests (stats (snd (fetchPage_settled page (fetchList options page) s)))
     + pages (stats s)
     = requests (stats s)
       + pages (stats (snd (fetchPage_settled page (fetchList options page) s))).
Proof.
  unfold settledList, fetchPage_settled.
  destruct (fetchList options page) as [value|reason]; unfold_monad;
    cbn [mbind option_bind is402].
  - destruct (is402 (value ≫= list_status)); cbn; [split_and!; auto|].
    destruct (truthyString (value ≫= list_id)); cbn; split_and!; auto; lia.
  - cbn. split_and!; auto; lia.
Qed.

Lemma resume_counts options t m s t' s' :
  resume options t = Some m -> m s = (t', s') ->
  done s' = false ->
  items (stats s') + itemsLeft options t' = items (stats s) + itemsLeft options t
  /\ itemsSuccess (stats s') + successesLeft options t'
     = itemsSuccess (stats s) + successesLeft options t
  /\ requests (stats s') + pages (stats s) + requestsLeft options t'
     = requests (stats s) + pages (stats s') + requestsLeft options t.
Proof.
  intros Hm Hms Hd'.
  destruct t as [page sl|page|page lst|page lst details item rest
                |page lst details element rest written|page details|];
    cbn [resume] in Hm; try discriminate.
  - injection Hm as <-. revert Hms. unfold scrapePage_start. unfold bind at 1.
    unfold getDone. destruct (done s) eqn:Hd.
    + unfold ret. intros [= <- <-]. congruence.
    + destruct sl as [l|].
      * intros H. destruct (withList_pages _ _ _ _ _ _ H) as (Hp & _).
        destruct (withList_counts _ _ _ _ _ _ H Hd') as (H1 & H2 & H3).
        cbn [itemsLeft successesLeft requestsLeft mbind option_bind] in *.
        split_and!; auto. lia.
      * unfold_monad. intros [= <- <-]. cbn. lia.
  - injection Hm as <-. revert Hms Hd'. unfold bind, ret.
    destruct (fetchPage_settled_result options page s) as (H1 & H2 & H3 & H4).
    destruct (fetchPage_settled page (fetchList options page) s) as [result s1].
    cbn [fst snd] in *. intros [= <- <-] _. subst result.
    cbn [itemsLeft successesLeft requestsLeft].
    unfold requestsAt, itemsAt, successesAt, elementsAt. lia.
  - injection Hm as <-. destruct (withList_pages _ _ _ _ _ _ Hms) as (Hp & _).
    destruct (withList_counts _ _ _ _ _ _ Hms Hd') as (H1 & H2 & H3).
    cbn [itemsLeft successesLeft requestsLeft]. split_and!; auto. lia.
  - injection Hm as <-. destruct (fetched_pages _ _ _ _ _ _ _ _ _ Hms) as (Hp & _).
    destruct (fetched_counts _ _ _ _ _ _ _ _ _ Hms Hd') as (H1 & H2 & H3).
    split_and!; auto. lia.
  - destruct written; [|discriminate]. injection Hm as <-.
    unfold scrapePageItems_stored in Hms.
    destruct (from_pages _ _ _ _ _ _ _ _ Hms) as (Hp & _).
    destruct (from_counts _ _ _ _ _ _ _ _ Hms) as (H1 & H2 & H3).
    cbn [itemsLeft successesLeft requestsLeft]. split_and!; auto. lia.
  - injection Hm as <-. revert Hms. unfold scrapePage_end. unfold_monad.
    destruct (done s); intros [= <- <-]; cbn; lia.
Qed.

Lemma step_counts options sqlite l c c' :
  step options sqlite l c = Some c' ->
  done (scraper c') = false ->
  done (scraper c) = false
  /\ items (stats (scraper c')) + sumOver (itemsLeft options) (tasks c')
     = items (stats (scraper c)) + sumOver (itemsLeft options) (tasks c)
  /\ itemsSuccess (stats (scraper c')) + sumOver (successesLeft options) (tasks c')
     = itemsSuccess (stats (scraper c)) + sumOver (successesLeft options) (tasks c)
  /\ requests (stats (scraper c')) + pages (stats (scraper c))
     + sumOver (requestsLeft options) (tasks c')
     = requests (stats (scraper c)) + pages (stats (scraper c'))
       + sumOver (requestsLeft options) (tasks c).
Proof.
  intros Hstep Hd'.
  destruct (step_run _ _ _ _ _ Hstep) as (_ & _ & _ & _ & Hmono & _).
  assert (Hd : done (scraper c) = false).
  { destruct (done (scraper c)); [|reflexivity]. rewrite Hmono in Hd'; done. }
  split; [exact Hd|]. clear Hmono. revert Hstep Hd'.
  destruct c as [s w ts]. destruct l as [i|i|]; cbn [step tasks scraper workers].
  - destruct (ts !! i) as [t|] eqn:Hi; [|discriminate].
    destruct (inFlight t || hasFreeWorker w ts); [|discriminate].
    destruct (resume options t) as [m|] eqn:Hm; [|discriminate].
    destruct (m s) as [t' s'] eqn:Hms. intros [= <-].
    cbn [tasks scraper workers]. intros Hd'.
    destruct (resume_counts _ _ _ _ _ _ Hm Hms Hd') as (H1 & H2 & H3).
    pose proof (sumOver_insert (itemsLeft options) ts i t t' Hi).
    pose proof (sumOver_insert (successesLeft options) ts i t t' Hi).
    pose proof (sumOver_insert (requestsLeft options) ts i t t' Hi).
    lia.
  - destruct (ts !! i) as [t|] eqn:Hi; [|discriminate].
    destruct t as [| | | |page lst details element rest [|]| |]; try discriminate.
    destruct (writeReady options s); [|discriminate].
    destruct (onItemScraped_run options sqlite element s)
      as (es & _ & _ & _ & Hs & _).
    destruct (onItemScraped options sqlite element s) as [[] s'].
    cbn [snd] in *. intros [= <-] _. cbn [tasks scraper workers].
    pose proof (sumOver_insert (itemsLeft options) ts i _
                  (AwaitOnItemScraped page lst details element rest true) Hi).
    pose proof (sumOver_insert (successesLeft options) ts i _
                  (AwaitOnItemScraped page lst details element rest true) Hi).
    pose proof (sumOver_insert (requestsLeft options) ts i _
                  (AwaitOnItemScraped page lst details element rest true) Hi).
    rewrite Hs. cbn in *. lia.
  - destruct (isPending (sqliteDatabaseOpenPromise s)); [|discriminate].
    destruct (createSqliteDatabase_resume_run sqlite s) as (_ & _ & _ & Hs & _).
    destruct (createSqliteDatabase_resume sqlite s) as [[] s'].
    cbn [snd] in *. intros [= <-] _. cbn [tasks scraper workers].
    rewrite Hs. split_and!; auto.
Qed.

Lemma exec_counts options sqlite schedule : forall c,
  done (scraper (exec options sqlite schedule c)) = false ->
  items (stats (scraper (exec options sqlite schedule c)))
  + sumOver (itemsLeft options) (tasks (exec options sqlite schedule c))
  = items (stats (scraper c)) + sumOver (itemsLeft options) (tasks c)
  /\ itemsSuccess (stats (scraper (exec options sqlite schedule c)))
     + sumOver (successesLeft options) (tasks (exec options sqlite schedule c))
     = itemsSuccess (stats (scraper c)) + sumOver (successesLeft options) (tasks c)
  /\ requests (stats (scraper (exec options sqlite schedule c)))
     + pages (stats (scraper c))
     + sumOver (requestsLeft options) (tasks (exec options sqlite schedule c))
     = requests (stats (scraper c))
       + pages (stats (scraper (exec options sqlite schedule c)))
       + sumOver (requestsLeft options) (tasks c).
Proof.
  induction schedule as [|l schedule IH]; intros c Hd; cbn [exec] in *;
    [split_and!; auto; lia|].
  destruct (step options sqlite l c) as [c1|] eqn:Hstep;
    cbn [default from_option id] in *; [|by apply IH].
  destruct (IH c1 Hd) as (H1 & H2 & H3).
  assert (Hd1 : done (scraper c1) = false).
  { destruct (exec_run options sqlite schedule c1) as (_ & _ & _ & _ & Hmono & _).
    destruct (done (scraper c1)); [|reflexivity]. rewrite Hmono in Hd; done. }
  destruct (step_counts _ _ _ _ _ Hstep Hd1) as (_ & H4 & H5 & H6). lia.
Qed.

Lemma sumOver_later (f : PageTask -> nat) (g : nat -> nat) l :
  (forall page, f (Queued page None) = g page) ->
  sumOver f (map (fun page => Queued page None) l) = total g l.
Proof.
  intros Hfg. induction l as [|p l IH]; simpl; [done|]. by rewrite Hfg, IH.
Qed.

Lemma sumOver_pageTasks (f : PageTask -> nat) (g : nat -> nat) l n :
  (forall page, f (Queued page None) = g page) ->
  sumOver f (pageTasks (Some l) (S n)) = f (Queued 1 (Some l)) + total g (seq 2 n).
Proof.
  intros Hfg. unfold pageTasks. simpl. rewrite pageTasks_from_2 by lia.
  by rewrite (sumOver_later f g).
Qed.

(** The stats a run is left with when it returns with the flag unset. *)
Lemma unstopped_item_counts options sqlite schedule c0 :
  scheduledConf options sqlite = Some c0 ->
  allFinished (tasks (exec options sqlite schedule c0)) = true ->
  done (scraper (exec options sqlite schedule c0)) = false ->
  let N := totalPagesOf options (firstPageOf options) in
  let t := stats (scraper (exec options sqlite schedule c0)) in
  items t = total (itemsAt options) (seq 1 N)
  /\ itemsSuccess t = total (successesAt options) (seq 1 N)
  /\ requests t = pages t + total (requestsAt options) (seq 1 N).
Proof.
  intros H0 Hfin Hdone. cbn zeta.
  set (c := exec options sqlite schedule c0) in *.
  destruct (scheduledConf_run _ _ _ H0) as ([l Hl] & Hpos & _ & Hts & _).
  destruct (scheduledConf_state _ _ _ H0) as (Hs0 & _).
  rewrite Hl in *.
  destruct (totalPagesOf options (Some l)) as [|n]; [lia|].
  destruct (exec_counts options sqlite schedule c0 Hdone) as (H1 & H2 & H3).
  fold c in H1, H2, H3.
  rewrite (sumOver_finished (itemsLeft options) _ eq_refl Hfin) in H1.
  rewrite (sumOver_finished (successesLeft options) _ eq_refl Hfin) in H2.
  rewrite (sumOver_finished (requestsLeft options) _ eq_refl Hfin) in H3.
  rewrite Hts, Hs0 in H1, H2, H3.
  rewrite (sumOver_pageTasks _ (itemsAt options)) in H1 by reflexivity.
  rewrite (sumOver_pageTasks _ (successesAt options)) in H2 by reflexivity.
  rewrite (sumOver_pageTasks _ (requestsAt options)) in H3 by reflexivity.
  pose proof (firstPage_from_list options l Hl) as Hfl.
  pose proof (first_page_counted options l Hl) as Hpc.
  assert (Hsettled : settledList (fetchList options 1) = Some l).
  { unfold pageCount, statusAt in Hpc. unfold settledList. rewrite Hfl in *.
    destruct (is402 (Some l ≫= list_status)); [discriminate|reflexivity]. }
  cbn [seq total]. unfold itemsAt at 1, successesAt at 1, requestsAt at 1, elementsAt.
  rewrite Hsettled.
  cbn [itemsLeft successesLeft requestsLeft mbind option_bind] in *.
  cbn in H1, H2, H3. split_and!; [lia| cbn [listDetails]; lia |].
  cbn [default from_option id]. lia.
Qed.

(** X25. A run that returns with the flag unset has visited every item of
    every page: [items] is the number of elements the pages brought,
    [itemsSuccess] the number of details the pages resolved, and [requests]
    the pages plus one request for each item whose details were asked for
    and not answered as skipped, whatever the interleaving was. *)
Theorem unstopped_run_counts_every_item (options : ListingScraperOptions)
    (sqlite : SqliteEnv) (schedule : list Label) (value : Stats) (s : Scraper) :
  scrapeStart options sqlite schedule = Returned (Some value) s ->
  done s = false ->
  items value
  = total (itemsAt options) (seq 1 (totalPagesOf options (firstPageOf options)))
  /\ itemsSuccess value
     = total (successesAt options)
         (seq 1 (totalPagesOf options (firstPageOf options)))
  /\ requests value
     = pages value
       + total (requestsAt options)
           (seq 1 (totalPagesOf options (firstPageOf options))).
Proof.
  intros Hrun Hdone.
  destruct (returned_unstopped _ _ _ _ _ Hrun Hdone) as (c0 & H0 & Hfin & Hd & ->).
  exact (unstopped_item_counts options sqlite schedule c0 H0 Hfin Hd).
Qed.

Lemma unstopped_stats options sqlite schedule value s :
  scrapeStart options sqlite schedule = Returned (Some value) s ->
  done s = false ->
  value = fullStats options (totalPagesOf options (firstPageOf options)).
Proof.
  intros Hrun Hdone.
  destruct (returned_unstopped _ _ _ _ _ Hrun Hdone) as (c0 & H0 & Hfin & Hd & ->).
  destruct (unstopped_page_counts options sqlite schedule c0 H0 Hfin Hd) as [H1 H2].
  destruct (unstopped_item_counts options sqlite schedule c0 H0 Hfin Hd)
    as (H3 & H4 & H5).
  unfold fullStats.
  destruct (stats (scraper (exec options sqlite schedule c0))) as [p ps i si r].
  cbn in *. congruence.
Qed.

(** X26. The stats a run returns with the flag unset do not depend on the
    interleaving of its page tasks and writes, nor on the database: two such
    runs with the same options return the same five counters, those the
    answers of the collaborators determine. *)
Theorem unstopped_stats_do_not_depend_on_schedule (options : ListingScraperOptions)
    (sqlite1 sqlite2 : SqliteEnv) (schedule1 schedule2 : list Label)
    (value1 value2 : Stats) (s1 s2 : Scraper) :
  scrapeStart options sqlite1 schedule1 = Returned (Some value1) s1 ->
  done s1 = false ->
  scrapeStart options sqlite2 schedule2 = Returned (Some value2) s2 ->
  done s2 = false ->
  value1 = value2
  /\ value1 = fullStats options (totalPagesOf options (firstPageOf options)).
Proof.
  intros Hrun1 Hd1 Hrun2 Hd2.
  rewrite (unstopped_stats _ _ _ _ _ Hrun1 Hd1), (unstopped_stats _ _ _ _ _ Hrun2 Hd2).
  split; reflexivity.
Qed.

Lemma unstopped_run_counts_every_item_witness :
  scrapeStart threePages sqliteOk (roundRobin 3 24)
  = Returned (Some (stats threePagesEnd)) threePagesEnd
  /\ done threePagesEnd = false
  /\ items (stats threePagesEnd)
     = total (itemsAt threePages)
         (seq 1 (totalPagesOf threePages (firstPageOf threePages)))
  /\ itemsSuccess (stats threePagesEnd)
     = total (successesAt threePages)
         (seq 1 (totalPagesOf threePages (firstPageOf threePages)))
  /\ requests (stats threePagesEnd)
     = pages (stats threePagesEnd)
       + total (requestsAt threePages)
           (seq 1 (totalPagesOf threePages (firstPageOf threePages))).
Proof.
  split; [vm_compute; reflexivity|].
  split; [vm_compute; reflexivity|].
  apply (unstopped_run_counts_every_item threePages sqliteOk (roundRobin 3 24)
           (stats threePagesEnd) threePagesEnd); vm_compute; reflexivity.
Defined.

Lemma unstopped_stats_do_not_depend_on_schedule_witness :
  scrapeStart threePages sqliteOk (roundRobin 3 24)
  = Returned (Some (stats threePagesEnd)) threePagesEnd
  /\ done threePagesEnd = false
  /\ scrapeStart threePages sqliteRejects pageByPage
     = Returned (Some (stats threePagesLater)) threePagesLater
  /\ done threePagesLater = false
  /\ stats threePagesEnd = stats threePagesLater
  /\ stats threePagesEnd
     = fullStats threePages (totalPagesOf threePages (firstPageOf threePages)).
Proof.
  split; [vm_compute; reflexivity|].
  split; [vm_compute; reflexivity|].
  split; [vm_compute; reflexivity|].
  split; [vm_compute; reflexivity|].
  apply (unstopped_stats_do_not_depend_on_schedule threePages sqliteOk sqliteRejects
           (roundRobin 3 24) pageByPage
           (stats threePagesEnd) (stats threePagesLater)
           threePagesEnd threePagesLater); vm_compute; reflexivity.
Defined.

(** *** The elements of the document *)

Lemma detailsFrom_app options lst remaining : forall details,
  detailsFrom options lst remaining details
  = details ++ detailsFrom options lst remaining [].
Proof.
  induction remaining as [|item rest IH]; intros details; cbn [detailsFrom].
  - by rewrite app_nil_r.
  - assert (Hafter : forall itemDetails,
      detailsAfter (detailsFrom options lst rest) details itemDetails
      = details ++ detailsAfter (detailsFrom options lst rest) [] itemDetails).
    { intros itemDetails. unfold detailsAfter.
      destruct (resolvedElement itemDetails) as [element|]; [|apply IH].
      rewrite (IH (details ++ [element])), (IH ([] ++ [element])).
      by rewrite <- app_assoc. }
    destruct (scrapeDetails options); [|apply Hafter].
    destruct (is402 _); [by rewrite app_nil_r|apply Hafter].
Qed.

Lemma detailsAfter_cons options lst rest itemDetails :
  detailsAfter (detailsFrom options lst rest) [] itemDetails
  = match resolvedElement itemDetails with
    | Some element => element :: detailsFrom options lst rest []
    | None => detailsFrom options lst rest []
    end.
Proof.
  unfold detailsAfter. destruct (resolvedElement itemDetails) as [element|]; [|done].
  by rewrite detailsFrom_app.
Qed.

Lemma bind_insert_cons {A B} (f : A -> list B) (ts : list A) : forall i t t' x,
  ts !! i = Some t -> f t = x :: f t' ->
  ts ≫= f ≡ₚ x :: (<[i := t']> ts ≫= f).
Proof.
  induction ts as [|a ts IH]; intros [|i] t t' x H Hcons; cbn in *; try discriminate.
  - injection H as ->. rewrite Hcons. reflexivity.
  - rewrite (IH _ _ t' x H Hcons) at 1. by rewrite Permutation_middle.
Qed.

Lemma item_toCome options continue page lst details rest itemDetails s t' s' :
  (forall s1 t1 s2, continue s1 = (t1, s2) ->
     toCome options t1 = detailsFrom options lst rest []) ->
  scrapePageItems_item options continue page lst details rest itemDetails s = (t', s') ->
  toCome options t'
  = detailsAfter (detailsFrom options lst rest) [] itemDetails.
Proof.
  intros Hcont. unfold scrapePageItems_item, bind.
  destruct (countItem_frame options itemDetails s) as (_ & _ & _ & Hfst).
  rewrite detailsAfter_cons.
  destruct (countItem options itemDetails s) as [stored s1]. cbn [fst snd] in *.
  subst stored.
  destruct (resolvedElement itemDetails) as [element|].
  - unfold ret. intros [= <- <-]. reflexivity.
  - intros Hk. exact (Hcont _ _ _ Hk).
Qed.

Lemma from_toCome options page lst remaining :
  forall details s t' s',
    scrapePageItems_from options page lst details remaining s = (t', s') ->
    toCome options t' = detailsFrom options lst remaining [].
Proof.
  induction remaining as [|item rest IH]; intros details s t' s';
    cbn [scrapePageItems_from detailsFrom].
  - unfold ret. intros [= <- <-]. reflexivity.
  - destruct (scrapeDetails options) eqn:Hsd.
    + unfold_monad. intros [= <- <-]. reflexivity.
    + intros H. eapply item_toCome in H; [exact H|].
      intros s1 t1 s2. apply IH.
Qed.

Lemma fetched_toCome options page lst details item rest s t' s' :
  scrapePageItems_fetched options page lst details rest (fetchItem options item) s
  = (t', s') ->
  done s' = false ->
  toCome options t' = toCome options (AwaitFetchItem page lst details item rest).
Proof.
  unfold scrapePageItems_fetched. unfold bind at 1. cbn [toCome].
  assert (Htail : forall itemDetails s0,
    (if is402 (itemDetails ≫= resp_status)
     then setDone ;;
          setError (errorOrQuota (itemDetails ≫= resp_error)) ;;
          ret (AwaitScrapePageItems page details)
     else scrapePageItems_item options
            (scrapePageItems_from options page lst details rest)
            page lst details rest itemDetails) s0 = (t', s') ->
    done s' = false ->
    toCome options t'
    = (if is402 (itemDetails ≫= resp_status) then []
       else detailsAfter (detailsFrom options lst rest) [] itemDetails)).
  { intros itemDetails s0. destruct (is402 (itemDetails ≫= resp_status)).
    - unfold_monad. intros [= <- <-]. cbn. discriminate.
    - intros H _. eapply item_toCome in H; [exact H|].
      intros s1 t1 s2. apply from_toCome. }
  destruct (fetchItem options item) as [[value|reason]|];
    cbn [itemDetailsOf]; intros H Hd;
    [ exact (Htail value s H Hd)
    | exact (Htail None (snd (emit (Console (ErrorScrapingItem reason)) s)) H Hd)
    | exact (Htail None s H Hd) ].
Qed.

Lemma withList_toCome options page lst s t' s' :
  scrapePage_withList options page lst s = (t', s') ->
  done s' = false ->
  toCome options t' = listDetails options lst.
Proof.
  unfold scrapePage_withList, scrapePage_end. unfold bind at 1. unfold getDone.
  destruct (done s) eqn:Hd.
  - unfold ret. intros [= <- <-]. congruence.
  - destruct lst as [l|]; cbn [listDetails];
      [destruct (list_elements l) as [elements|]|].
    + intros H _. exact (from_toCome _ _ _ _ _ _ _ _ H).
    + unfold_monad. rewrite Hd. intros [= <- <-]. reflexivity.
    + unfold_monad. rewrite Hd. intros [= <- <-]. reflexivity.
Qed.

Lemma inMemory_stableTask options x :
  StableTask options (fun s => inMemoryItems s = x).
Proof.
  split; intros; cbn in *; try assumption.
  - unfold when. destruct b; cbn; assumption.
  - unfold countItem. unfold_monad.
    destruct (scrapeDetails options && negb (skipped itemDetails)),
      (resolvedElement itemDetails); cbn; assumption.
Qed.

Lemma resume_toCome options t m s t' s' :
  resume options t = Some m -> m s = (t', s') ->
  done s' = false ->
  toCome options t' = toCome options t /\ inMemoryItems s' = inMemoryItems s.
Proof.
  intros Hm Hms Hd'.
  destruct (resume_accounts _ _ _ _ _ _ _
              (inMemory_stableTask options (inMemoryItems s)) Hm Hms) as (Hmem & _).
  split; [|exact (Hmem eq_refl)]. clear Hmem.
  destruct t as [page sl|page|page lst|page lst details item rest
                |page lst details element rest written|page details|];
    cbn [resume] in Hm; try discriminate.
  - injection Hm as <-. revert Hms. unfold scrapePage_start. unfold bind at 1.
    unfold getDone. destruct (done s) eqn:Hd.
    + unfold ret. intros [= <- <-]. congruence.
    + destruct sl as [l|].
      * intros H. exact (withList_toCome _ _ _ _ _ _ H Hd').
      * unfold_monad. intros [= <- <-]. reflexivity.
  - injection Hm as <-. revert Hms Hd'. unfold bind, ret.
    destruct (fetchPage_settled_result options page s) as (H1 & _).
    destruct (fetchPage_settled page (fetchList options page) s) as [result s1].
    cbn [fst snd] in *. intros [= <- <-] _. subst result. reflexivity.
  - injection Hm as <-. exact (withList_toCome _ _ _ _ _ _ Hms Hd').
  - injection Hm as <-. exact (fetched_toCome _ _ _ _ _ _ _ _ _ Hms Hd').
  - destruct written; [|discriminate]. injection Hm as <-.
    unfold scrapePageItems_stored in Hms.
    exact (from_toCome _ _ _ _ _ _ _ _ Hms).
  - injection Hm as <-. revert Hms. unfold scrapePage_end. unfold_monad.
    destruct (done s); intros [= <- <-]; reflexivity.
Qed.

Lemma step_toCome options sqlite l c c' :
  outputType options = Some Json ->
  step options sqlite l c = Some c' ->
  done (scraper c') = false ->
  inMemoryItems (scraper c') ++ (tasks c' ≫= toCome options)
  ≡ₚ inMemoryItems (scraper c) ++ (tasks c ≫= toCome options).
Proof.
  intros Ho. destruct c as [s w ts].
  destruct l as [i|i|]; cbn [step tasks scraper workers].
  - destruct (ts !! i) as [t|] eqn:Hi; [|discriminate].
    destruct (inFlight t || hasFreeWorker w ts); [|discriminate].
    destruct (resume options t) as [m|] eqn:Hm; [|discriminate].
    destruct (m s) as [t' s'] eqn:Hms. intros [= <-].
    cbn [tasks scraper workers]. intros Hd'.
    destruct (resume_toCome _ _ _ _ _ _ Hm Hms Hd') as [H1 H2].
    rewrite H2, (bind_insert_same (toCome options) ts i t t' Hi H1). reflexivity.
  - destruct (ts !! i) as [t|] eqn:Hi; [|discriminate].
    destruct t as [| | | |page lst details element rest [|]| |]; try discriminate.
    destruct (writeReady options s); [|discriminate].
    unfold onItemScraped. rewrite Ho. cbn [isJson isSqlite]. unfold_monad.
    intros [= <-] _. cbn [tasks scraper workers inMemoryItems].
    rewrite (bind_insert_cons (toCome options) ts i _
               (AwaitOnItemScraped page lst details element rest true) element
               Hi eq_refl).
    rewrite <- app_assoc. reflexivity.
  - destruct (isPending (sqliteDatabaseOpenPromise s)); [|discriminate].
    pose proof (settled_inMemory sqlite s) as Hmem.
    destruct (createSqliteDatabase_resume sqlite s) as [[] s'].
    cbn [snd] in *. intros [= <-] _. cbn [tasks scraper workers].
    rewrite Hmem. reflexivity.
Qed.

Lemma exec_toCome options sqlite schedule : forall c,
  outputType options = Some Json ->
  done (scraper (exec options sqlite schedule c)) = false ->
  inMemoryItems (scraper (exec options sqlite schedule c))
  ++ (tasks (exec options sqlite schedule c) ≫= toCome options)
  ≡ₚ inMemoryItems (scraper c) ++ (tasks c ≫= toCome options).
Proof.
  induction schedule as [|l schedule IH]; intros c Ho Hd; cbn [exec] in *; [done|].
  destruct (step options sqlite l c) as [c1|] eqn:Hstep;
    cbn [default from_option id] in *; [|by apply IH].
  rewrite (IH c1 Ho Hd).
  assert (Hd1 : done (scraper c1) = false).
  { destruct (exec_run options sqlite schedule c1) as (_ & _ & _ & _ & Hmono & _).
    destruct (done (scraper c1)); [|reflexivity]. rewrite Hmono in Hd; done. }
  exact (step_toCome _ _ _ _ _ Ho Hstep Hd1).
Qed.

Lemma toCome_finished options ts :
  allFinished ts = true -> ts ≫= toCome options = [].
Proof.
  unfold allFinished. induction ts as [|t ts IH]; simpl; [done|].
  destruct t; simpl; try discriminate. exact IH.
Qed.

Lemma toCome_later options l :
  map (fun page => Queued page None) l ≫= toCome options = detailsOfPages options l.
Proof.
  unfold detailsOfPages. induction l as [|p l IH]; [done|].
  cbn [map]. rewrite !bind_cons, IH. reflexivity.
Qed.

(** X27. With JSON output, the document of a run that returns with the flag
    unset holds exactly the details its pages resolve: every element each
    page's list and answers give, once, the pages' elements interleaved in
    the order the write queue took them. *)
Theorem json_document_holds_every_detail (options : ListingScraperOptions)
    (sqlite : SqliteEnv) (schedule : list Label) (value : Stats) (s : Scraper) :
  outputType options = Some Json ->
  scrapeStart options sqlite schedule = Returned (Some value) s ->
  done s = false ->
  inMemoryItems s
  ≡ₚ detailsOfPages options (seq 1 (totalPagesOf options (firstPageOf options)))
  /\ OutputJson value (inMemoryItems s) ∈ trace s.
Proof.
  intros Ho Hrun Hdone.
  destruct (scrapeStart_cases options sqlite schedule)
    as [(s0 & Hb & Hr)|(c0 & H0 & Hr)]; rewrite Hr in Hrun; [discriminate|].
  destruct (allFinished _) eqn:Hfin; [|discriminate].
  set (c := exec options sqlite schedule c0) in *.
  pose proof (end_of_run options (scraper c)) as He.
  pose proof (end_store options (scraper c)) as Hst.
  destruct (scrapeStart_end options (scraper c)) as [v s']. cbn [fst snd] in *.
  injection Hrun as <- <-.
  destruct He as (-> & _ & _ & Hd & _). destruct Hst as (Hmem & _ & _ & Hjson & _).
  rewrite Hd in Hdone. rewrite Hmem.
  split; [|apply Hjson; rewrite Ho; reflexivity].
  destruct (scheduledConf_run _ _ _ H0) as ([l Hl] & Hpos & _ & Hts & _).
  destruct (scheduledConf_state _ _ _ H0) as (_ & Hm0 & _).
  rewrite Hl in *.
  destruct (totalPagesOf options (Some l)) as [|n]; [lia|].
  pose proof (exec_toCome options sqlite schedule c0 Ho Hdone) as Hperm.
  fold c in Hperm.
  rewrite (toCome_finished _ _ Hfin), app_nil_r, Hm0, Hts in Hperm.
  rewrite Hperm. unfold pageTasks. cbn [seq map app].
  rewrite pageTasks_from_2 by lia. rewrite bind_cons, toCome_later.
  unfold detailsOfPages at 2. rewrite bind_cons. fold (detailsOfPages options (seq 2 n)).
  pose proof (firstPage_from_list options l Hl) as Hfl.
  pose proof (first_page_counted options l Hl) as Hpc.
  assert (Hsettled : settledList (fetchList options 1) = Some l).
  { unfold pageCount, statusAt in Hpc. unfold settledList. rewrite Hfl in *.
    destruct (is402 (Some l ≫= list_status)); [discriminate|reflexivity]. }
  unfold pageDetails at 1. rewrite Hsettled. reflexivity.
Qed.

Lemma json_document_holds_every_detail_witness :
  outputType threePages = Some Json
  /\ scrapeStart threePages sqliteOk (roundRobin 3 24)
     = Returned (Some (stats threePagesEnd)) threePagesEnd
  /\ done threePagesEnd = false
  /\ inMemoryItems threePagesEnd
     ≡ₚ detailsOfPages threePages
          (seq 1 (totalPagesOf threePages (firstPageOf threePages)))
  /\ OutputJson (stats threePagesEnd) (inMemoryItems threePagesEnd)
     ∈ trace threePagesEnd.
Proof.
  split; [reflexivity|].
  split; [vm_compute; reflexivity|].
  split; [vm_compute; reflexivity|].
  apply (json_document_holds_every_detail threePages sqliteOk (roundRobin 3 24)
           (stats threePagesEnd) threePagesEnd);
    [reflexivity|vm_compute; reflexivity|vm_compute; reflexivity].
Defined.

(** *** The rows of the table *)

Lemma openedOk_stable options sqlite : Stable options sqlite (openedOk sqlite).
Proof.
  unfold openedOk. split; [split|..].
  - intros line s _ H. exact H.
  - intros page s H. exact H.
  - intros item s _ H. exact H.
  - intros e s (H1 & H2 & H3 & H4). cbn. split_and!; auto. discriminate.
  - intros b s H. unfold when. destruct b; exact H.
  - intros itemDetails s H. unfold countItem. unfold_monad.
    destruct (scrapeDetails options && negb (skipped itemDetails)),
      (resolvedElement itemDetails); exact H.
  - intros element s _ (H1 & H2 & H3 & H4).
    destruct (onItemScraped_frame options sqlite element s) as (Hd & _ & Hdb & Hp).
    rewrite Hd, Hdb, Hp. auto.
  - intros s Hpending (H1 & H2 & H3 & H4).
    unfold createSqliteDatabase_resume, createSqliteDatabase_opened,
      createSqliteDatabase_settled, opens. unfold_monad.
    destruct (sqliteDatabaseOpenPromise s) eqn:Hp; try discriminate;
      destruct (db_open sqlite) as [|reason|reason [|]] eqn:Hopen; cbn;
      split_and!; auto; try discriminate.
    all: exfalso; exact (H2 reason eq_refl eq_refl).
Qed.

Lemma inserted_stableTask options x :
  StableTask options (fun s => insertedItems (trace s) = x).
Proof.
  split; intros; cbn in *; try assumption.
  - unfold when. destruct b; cbn; assumption.
  - unfold countItem. unfold_monad.
    destruct (scrapeDetails options && negb (skipped itemDetails)),
      (resolvedElement itemDetails); cbn; assumption.
Qed.

Lemma step_rows options sqlite l c c' :
  outputType options = Some Sqlite ->
  openedOk sqlite (scraper c) ->
  step options sqlite l c = Some c' ->
  done (scraper c') = false ->
  insertedItems (trace (scraper c')) ++ acceptedBy sqlite (tasks c' ≫= toCome options)
  ≡ₚ insertedItems (trace (scraper c)) ++ acceptedBy sqlite (tasks c ≫= toCome options).
Proof.
  intros Ho Hok. destruct c as [s w ts]. cbn [scraper] in Hok.
  destruct l as [i|i|]; cbn [step tasks scraper workers].
  - destruct (ts !! i) as [t|] eqn:Hi; [|discriminate].
    destruct (inFlight t || hasFreeWorker w ts); [|discriminate].
    destruct (resume options t) as [m|] eqn:Hm; [|discriminate].
    destruct (m s) as [t' s'] eqn:Hms. intros [= <-].
    cbn [tasks scraper workers]. intros Hd'.
    destruct (resume_toCome _ _ _ _ _ _ Hm Hms Hd') as [H1 _].
    destruct (resume_accounts _ _ _ _ _ _ _
                (inserted_stableTask options (insertedItems (trace s))) Hm Hms)
      as (Hins & _).
    rewrite (Hins eq_refl), (bind_insert_same (toCome options) ts i t t' Hi H1).
    reflexivity.
  - destruct (ts !! i) as [t|] eqn:Hi; [|discriminate].
    destruct t as [| | | |page lst details element rest [|]| |]; try discriminate.
    destruct (writeReady options s) eqn:Hready; [|discriminate].
    destruct (onItemScraped_frame options sqlite element s) as (Hd & _).
    pose proof (bind_insert_cons (toCome options) ts i _
                  (AwaitOnItemScraped page lst details element rest true) element
                  Hi eq_refl) as Hperm.
    revert Hd. unfold onItemScraped, insertSqliteItem.
    unfold writeReady in Hready. rewrite Ho in *. cbn [isJson isSqlite] in *.
    unfold_monad. cbn [andb negb] in Hready.
    destruct Hok as (H1 & H2 & H3 & _).
    assert (Hp : sqliteDatabaseOpenPromise s = Fulfilled).
    { destruct (sqliteDatabaseOpenPromise s); try discriminate; [|reflexivity].
      by destruct H1. }
    destruct (db s) eqn:Hdb.
    + destruct (db_insert sqlite element) as [reason|] eqn:Hins; cbn; rewrite ?Hdb;
        intros Hd [= <-] Hd'; cbn [tasks scraper workers trace].
      * unfold acceptedBy. rewrite Hperm, filter_cons_False by congruence.
        unfold insertedItems. rewrite bind_cons. reflexivity.
      * unfold acceptedBy. rewrite Hperm, filter_cons_True by assumption.
        unfold insertedItems. rewrite bind_cons. cbn [app].
        fold (insertedItems (trace s)). by rewrite Permutation_middle.
    + cbn. rewrite ?Hdb. intros _ [= <-] Hd'. cbn in Hd'.
      discriminate (H3 Hd' Hp).
  - destruct (isPending (sqliteDatabaseOpenPromise s)); [|discriminate].
    destruct (createSqliteDatabase_resume_run sqlite s) as (Ht & _).
    destruct (createSqliteDatabase_resume sqlite s) as [[] s'].
    cbn [snd] in *. intros [= <-] _. cbn [tasks scraper workers].
    rewrite Ht. reflexivity.
Qed.

Lemma exec_rows options sqlite schedule : forall c,
  outputType options = Some Sqlite ->
  openedOk sqlite (scraper c) ->
  done (scraper (exec options sqlite schedule c)) = false ->
  insertedItems (trace (scraper (exec options sqlite schedule c)))
  ++ acceptedBy sqlite (tasks (exec options sqlite schedule c) ≫= toCome options)
  ≡ₚ insertedItems (trace (scraper c)) ++ acceptedBy sqlite (tasks c ≫= toCome options).
Proof.
  induction schedule as [|l schedule IH]; intros c Ho Hok Hd; cbn [exec] in *; [done|].
  destruct (step options sqlite l c) as [c1|] eqn:Hstep;
    cbn [default from_option id] in *; [|by apply IH].
  destruct (step_accounts _ _ _ _ _ _ (openedOk_stable options sqlite) Hstep)
    as (Hok1 & _).
  rewrite (IH c1 Ho (Hok1 Hok) Hd).
  assert (Hd1 : done (scraper c1) = false).
  { destruct (exec_run options sqlite schedule c1) as (_ & _ & _ & _ & Hmono & _).
    destruct (done (scraper c1)); [|reflexivity]. rewrite Hmono in Hd; done. }
  exact (step_rows _ _ _ _ _ Ho Hok Hstep Hd1).
Qed.

(** X28. With SQLite output, the rows of a run that returns with the flag
    unset are exactly the details its pages resolve whose insert statements
    succeed, each once: no element is lost between the item loop and the
    table, and none is inserted twice. *)
Theorem sqlite_rows_are_the_details (options : ListingScraperOptions)
    (sqlite : SqliteEnv) (schedule : list Label) (value : Stats) (s : Scraper) :
  outputType options = Some Sqlite ->
  scrapeStart options sqlite schedule = Returned (Some value) s ->
  done s = false ->
  insertedItems (trace s)
  ≡ₚ acceptedBy sqlite
       (detailsOfPages options (seq 1 (totalPagesOf options (firstPageOf options)))).
Proof.
  intros Ho Hrun Hdone.
  destruct (scrapeStart_cases options sqlite schedule)
    as [(s0 & Hb & Hr)|(c0 & H0 & Hr)]; rewrite Hr in Hrun; [discriminate|].
  destruct (allFinished _) eqn:Hfin; [|discriminate].
  set (c := exec options sqlite schedule c0) in *.
  pose proof (end_of_run options (scraper c)) as He.
  pose proof (end_store options (scraper c)) as Hst.
  destruct (scrapeStart_end options (scraper c)) as [v s']. cbn [fst snd] in *.
  injection Hrun as <- <-.
  destruct He as (-> & _ & _ & Hd & _). destruct Hst as (_ & _ & Hins & _).
  rewrite Hd in Hdone. rewrite Hins.
  destruct (scheduledConf_run _ _ _ H0) as ([l Hl] & Hpos & _ & Hts & _).
  destruct (scheduledConf_state _ _ _ H0)
    as (_ & _ & Hdb0 & (n0 & m0 & Ht0) & _ & _ & Hst0).
  rewrite Hl in *.
  destruct (totalPagesOf options (Some l)) as [|n]; [lia|].
  assert (Hok : openedOk sqlite (scraper c0)).
  { unfold openedOk. rewrite Ho in Hst0. cbn [isSqlite] in Hst0.
    destruct (db_open sqlite) as [|reason|reason handle]; injection Hst0 as -> _ ->;
      split_and!; try discriminate; intros; discriminate. }
  pose proof (exec_rows options sqlite schedule c0 Ho Hok Hdone) as Hperm.
  fold c in Hperm.
  rewrite (toCome_finished _ _ Hfin), Ht0, Hts in Hperm.
  change (insertedItems [Console (InfoScraping n0 m0); CallFetchList 1])
    with (@nil Item) in Hperm.
  unfold acceptedBy in Hperm at 1.
  rewrite filter_nil, app_nil_r in Hperm. cbn [app] in Hperm.
  rewrite Hperm. unfold pageTasks. cbn [seq map].
  rewrite pageTasks_from_2 by lia. rewrite bind_cons, toCome_later.
  unfold detailsOfPages at 2. rewrite bind_cons. fold (detailsOfPages options (seq 2 n)).
  pose proof (firstPage_from_list options l Hl) as Hfl.
  pose proof (first_page_counted options l Hl) as Hpc.
  assert (Hsettled : settledList (fetchList options 1) = Some l).
  { unfold pageCount, statusAt in Hpc. unfold settledList. rewrite Hfl in *.
    destruct (is402 (Some l ≫= list_status)); [discriminate|reflexivity]. }
  unfold pageDetails at 1. rewrite Hsettled. reflexivity.
Qed.

Lemma sqlite_rows_are_the_details_witness :
  outputType toSqlite = Some Sqlite
  /\ scrapeStart toSqlite sqliteRefusesB (roundRobin 1 12)
     = Returned (Some (stats toSqliteEnd)) toSqliteEnd
  /\ done toSqliteEnd = false
  /\ insertedItems (trace toSqliteEnd)
     ≡ₚ acceptedBy sqliteRefusesB
          (detailsOfPages toSqlite
             (seq 1 (totalPagesOf toSqlite (firstPageOf toSqlite)))).
Proof.
  split; [reflexivity|].
  split; [vm_compute; reflexivity|].
  split; [vm_compute; reflexivity|].
  apply (sqlite_rows_are_the_details toSqlite sqliteRefusesB (roundRobin 1 12)
           (stats toSqliteEnd) toSqliteEnd);
    [reflexivity|vm_compute; reflexivity|vm_compute; reflexivity].
Defined.
